(** * probert's netlink clients: [_nl80211module.c] and [_rtnetlinkmodule.c]

    A shallow embedding of the two C extension modules of probert and the
    properties their specification states about them.

    What is embedded, and how:
    - C integers are [Z]; a conversion that can wrap is written out
      ([int_of_u32]).  A buffer is a [list byte]; a pointer into it is a [Z]
      offset, and a read outside the buffer is a [Fault].
    - A C function that can dereference a null pointer, read outside a
      buffer, or never return, returns an [outcome].
    - Python objects are values of [PyObject]; the interpreter's error
      indicator, the observer's call history and the socket traffic are
      fields of an explicit world that every function threads.
    - libnl and the kernel are outside the repository: what they answer is
      read from a [kernel] record, and libnl's receive loop is written out
      once ([nl_recvmsgs]).
    - What the build leaves open is read from a [platform] record: the
      signedness of plain [char], the attribute maxima of the kernel headers,
      and what the CPython built against makes of a ['#'] format.
    Memory exhaustion inside CPython or libnl message construction is not
    modelled. *)

From Stdlib Require Import ZArith Lia Bool.
From Stdlib Require Import Strings.Byte.
From stdpp Require Import base option list gmap strings pretty finite.

Local Open Scope Z_scope.

#[local] Set Warnings "-register-all".

(** ** Outcomes of C code *)

Inductive fault : Type :=
| NullDeref      (* a read through a null pointer *)
| OutOfBounds.   (* a read outside the buffer or attribute at hand *)

Inductive outcome (A : Type) : Type :=
| Ret (a : A)        (* the function returns *)
| Fault (f : fault)  (* undefined behaviour, in practice a crash *)
| Hang.              (* the function never returns *)

Arguments Ret {A} a.
Arguments Fault {A} f.
Arguments Hang {A}.

Definition obind {A B} (m : outcome A) (k : A -> outcome B) : outcome B :=
  match m with
  | Ret a => k a
  | Fault f => Fault f
  | Hang => Hang
  end.

#[global] Instance outcome_ret : MRet outcome := @Ret.
#[global] Instance outcome_bind : MBind outcome := fun A B k m => obind m k.

Definition returns {A} (m : outcome A) : Prop := exists a, m = Ret a.

(** ** Platform: what the C implementation leaves open

    Plain [char] is signed on x86 and unsigned on ARM, POWER and s390x.

    Neither module defines [PY_SSIZE_T_CLEAN] before it includes <Python.h>.
    For such a file a ['#'] in a [Py_BuildValue] format takes its length as
    an [int] up to CPython 3.9, and is refused with [SystemError] by CPython
    3.10 to 3.12.  (From 3.13 on the length is read as a [Py_ssize_t], which
    the [int] the module passes is not; C leaves that read undefined and
    the record has no value for it.) *)

Record platform : Type := mkPlatform {
  char_signed : bool;
  (* the last enumerators of <linux/nl80211.h> and <linux/genetlink.h>,
     which grow with the kernel release the module is built against *)
  NL80211_ATTR_MAX : Z;
  NL80211_BSS_MAX : Z;
  CTRL_ATTR_MAX : Z;
  (* a ['#'] format reads an [int] length (CPython up to 3.9); [false] is
     CPython 3.10 to 3.12, which refuses the format *)
  hash_length_is_int : bool;
}.

(** Builds to evaluate the code on.  Their header maxima are the smallest
    that cover every attribute the client names.  The first two are built
    against a CPython up to 3.9, the third against CPython 3.10 to 3.12. *)
Definition x86_64 : platform := mkPlatform true 47 9 7 true.
Definition aarch64 : platform := mkPlatform false 47 9 7 true.
Definition x86_64_py310 : platform := mkPlatform true 47 9 7 false.

Definition byte_val (b : byte) : Z := Z.of_N (Byte.to_N b).

(** The value of a [char] holding the byte [b]. *)
Definition char_val (P : platform) (b : byte) : Z :=
  if char_signed P && (128 <=? byte_val b) then byte_val b - 256 else byte_val b.

(** [buf[i]] for a [char *buf] of [length buf] bytes. *)
Definition read_char (P : platform) (buf : list byte) (i : Z) : outcome Z :=
  if 0 <=? i then
    match buf !! Z.to_nat i with
    | Some b => Ret (char_val P b)
    | None => Fault OutOfBounds
    end
  else Fault OutOfBounds.

(** [uint32_t] to [int], as gcc and clang convert it. *)
Definition int_of_u32 (v : Z) : Z :=
  let w := v mod 2 ^ 32 in if 2 ^ 31 <=? w then w - 2 ^ 32 else w.

(** Host-order (little-endian) 32-bit load. *)
Definition load_u32 (bs : list byte) : option Z :=
  match bs with
  | b0 :: b1 :: b2 :: b3 :: _ =>
      Some (byte_val b0 + 2 ^ 8 * byte_val b1 + 2 ^ 16 * byte_val b2
            + 2 ^ 24 * byte_val b3)
  | _ => None
  end.

(** ** Information elements: [nl80211_get_ie] *)

Module IE.

Inductive ctl : Type :=
| Stop (r : option Z)   (* leave the loop; [Some pos] is the returned pointer *)
| Go (pos : Z).         (* next iteration *)

(** One evaluation of the loop condition and body at [pos]:
<<
	while (pos + 1 < end) {
		if (pos + 2 + pos[1] > end)
			break;
		if (pos[0] == ie)
			return pos;
		pos += 2 + pos[1];
	}
	return NULL;
>> *)
Definition body (P : platform) (ies : list byte) (ie : Z) (pos : Z)
  : outcome ctl :=
  let end_ := Z.of_nat (length ies) in
  if pos + 1 <? end_ then
    len ← read_char P ies (pos + 1);
    if pos + 2 + len >? end_ then Ret (Stop None)
    else
      id ← read_char P ies pos;
      if id =? ie then Ret (Stop (Some pos)) else Ret (Go (pos + 2 + len))
  else Ret (Stop None).

Fixpoint loop (fuel : nat) (P : platform) (ies : list byte) (ie : Z) (pos : Z)
  : outcome (option Z) :=
  match fuel with
  | O => Hang
  | S fuel' =>
      c ← body P ies ie pos;
      match c with
      | Stop r => Ret r
      | Go pos' => loop fuel' P ies ie pos'
      end
  end.

(** The position after [n] further rounds, when each of them goes on. *)
Fixpoint steps (n : nat) (P : platform) (ies : list byte) (ie pos : Z)
  : option Z :=
  match n with
  | O => Some pos
  | S n' =>
      match body P ies ie pos with
      | Ret (Go pos') => steps n' P ies ie pos'
      | _ => None
      end
  end.

End IE.

(** [ies = None] is the null pointer.  The loop gets one round more than the
    buffer has bytes; [nl80211_get_ie_hang] shows that a scan which has not
    left the loop by then never leaves it, so that [Hang] is what the C
    code does. *)
Definition nl80211_get_ie (P : platform) (ies : option (list byte)) (ie : Z)
  : outcome (option Z) :=
  match ies with
  | None => Ret None
  | Some buf => IE.loop (S (length buf)) P buf ie 0
  end.

(** ** Python: objects, the error indicator, the observer *)

Inductive PyObject : Type :=
| PyNone
| PyLong (n : Z)
| PyUnicode (s : string)
| PyBytes (b : list byte)
| PyTuple (items : list PyObject)
| PyList (items : list PyObject)
| PyDict (items : list (string * PyObject))
| PyType (name : string)   (* an exception class *)
| PyOpaque (id : nat).     (* any other object: an exception instance, a traceback *)

Definition PyExc_RuntimeError : PyObject := PyType "RuntimeError".
Definition PyExc_MemoryError : PyObject := PyType "MemoryError".
Definition PyExc_SystemError : PyObject := PyType "SystemError".

(** A raised exception as [PyErr_Fetch] hands it out: the type is never
    null, value and traceback may be. *)
Record PyErr : Type := mkPyErr {
  err_type : PyObject;
  err_value : option PyObject;
  err_traceback : option PyObject;
}.

(** One invocation of an observer method: what was called, with what, and
    what it raised. *)
Record call : Type := mkCall {
  c_method : string;
  c_args : list PyObject;
  c_raised : option PyErr;
}.

Definition no_raise (c : call) : Prop := c_raised c = None.

(** The observer object.  Its methods may depend on everything it was
    called with before; only whether a call raises is visible to the C
    code, which drops the return value. *)
Definition observer_t : Type := list call -> string -> list PyObject -> option PyErr.

Inductive request : Type :=
| GETFAMILY
| GET_INTERFACE
| GET_SCAN (ifidx : Z)
| TRIGGER_SCAN (ifidx : Z)
| LINK_CHANGE (ifindex flags change : Z).

Inductive io_event : Type :=
| SocketAlloc
| SocketConnect
| SocketSend (r : request)
| SocketFree.

(** What the C code shares with the interpreter and the outside. *)
Record world : Type := mkWorld {
  py_err : option PyErr;   (* the error indicator; [None] is "no error" *)
  calls : list call;       (* observer invocations so far, oldest first *)
  io : list io_event;      (* socket operations so far, oldest first *)
}.

Definition with_py_err (e : option PyErr) (w : world) : world :=
  mkWorld e (calls w) (io w).

Definition log_io (ev : list io_event) (w : world) : world :=
  mkWorld (py_err w) (calls w) (io w ++ ev).

Definition PyErr_Occurred (w : world) : bool := bool_decide (is_Some (py_err w)).

Definition PyErr_SetString (typ : PyObject) (msg : string) (w : world) : world :=
  with_py_err (Some (mkPyErr typ (Some (PyUnicode msg)) None)) w.

(** [PyErr_Format(typ, fmt, n)] for the formats the two modules use: a text
    [pre] followed by one [%d]. *)
Definition PyErr_Format (typ : PyObject) (pre : string) (n : Z) (w : world)
  : world :=
  PyErr_SetString typ (pre +:+ pretty n) w.

(** [PyErr_Fetch(&t, &v, &tb)]: hands the indicator out and clears it. *)
Definition PyErr_Fetch (w : world)
  : option PyObject * option PyObject * option PyObject * world :=
  match py_err w with
  | Some e => (Some (err_type e), err_value e, err_traceback e, with_py_err None w)
  | None => (None, None, None, w)
  end.

(** [PyErr_Restore(t, v, tb)]: replaces whatever the indicator held. *)
Definition PyErr_Restore (t v tb : option PyObject) (w : world) : world :=
  match t with
  | Some typ => with_py_err (Some (mkPyErr typ v tb)) w
  | None => with_py_err None w
  end.

(** [PyObject_CallMethod(observer, name, ...)]; the result is only tested
    for nullness by the callers, so the model keeps just the effect. *)
Definition PyObject_CallMethod (obs : observer_t) (name : string)
    (args : list PyObject) (w : world) : world :=
  let r := obs (calls w) name args in
  mkWorld (match r with Some e => Some e | None => py_err w end)
          (calls w ++ [mkCall name args r])
          (io w).

Fixpoint PyDict_SetItemString (d : list (string * PyObject)) (k : string)
    (v : PyObject) : list (string * PyObject) :=
  match d with
  | [] => [(k, v)]
  | (k', v') :: d' =>
      if String.eqb k' k then (k', v) :: d' else (k', v') :: PyDict_SetItemString d' k v
  end.

Definition PyDict_Update (d extra : list (string * PyObject))
  : list (string * PyObject) :=
  foldl (fun acc kv => PyDict_SetItemString acc kv.1 kv.2) d extra.

Fixpoint PyDict_GetItemString (d : list (string * PyObject)) (k : string)
  : option PyObject :=
  match d with
  | [] => None
  | (k', v) :: d' => if String.eqb k' k then Some v else PyDict_GetItemString d' k
  end.

(** ** Netlink: attributes, messages, libnl's receive loop *)

(** An attribute as libnl hands it to the client: the payload bytes
    ([nla_data], [nla_len]) and the attributes libnl finds when the payload
    is read as a nest ([nla_parse_nested], [nla_for_each_nested]).  How the
    second is encoded in the first is libnl's matter. *)
Inductive nlattr : Type :=
| Nla (payload : list byte) (nest : list (Z * nlattr)).

Definition nla_data (a : nlattr) : list byte := let 'Nla p _ := a in p.
Definition nla_nest (a : nlattr) : list (Z * nlattr) := let 'Nla _ n := a in n.
Definition nla_len (a : nlattr) : Z := Z.of_nat (length (nla_data a)).

(** [nla_len(p)] for a pointer that may be null: it reads [p->nla_len]. *)
Definition nla_len_at (p : option nlattr) : outcome Z :=
  match p with
  | Some a => Ret (nla_len a)
  | None => Fault NullDeref
  end.

(** [nla_get_u32] loads four bytes whatever the attribute's length. *)
Definition nla_get_u32 (a : nlattr) : outcome Z :=
  match load_u32 (nla_data a) with
  | Some v => Ret v
  | None => Fault OutOfBounds
  end.

Definition NLE_RANGE : Z := 8.

(** [nla_parse(tb, maxtype, ..., policy)] from the cleared table: [tb[t]] is
    the last attribute of type [t <= maxtype].  A policy is the minimal
    payload length per type; an attribute shorter than that ends the parse
    with an error and leaves the table as filled so far. *)
Fixpoint nla_parse_into (tb : gmap Z nlattr) (maxtype : Z)
    (attrs : list (Z * nlattr)) (policy : Z -> Z) : Z * gmap Z nlattr :=
  match attrs with
  | [] => (0, tb)
  | (ty, a) :: rest =>
      if (ty <? 0) || (maxtype <? ty) then nla_parse_into tb maxtype rest policy
      else if nla_len a <? policy ty then (- NLE_RANGE, tb)
      else nla_parse_into (<[ty := a]> tb) maxtype rest policy
  end.

Definition nla_parse (maxtype : Z) (attrs : list (Z * nlattr)) (policy : Z -> Z)
  : Z * gmap Z nlattr :=
  nla_parse_into ∅ maxtype attrs policy.

Definition nla_parse_nested (maxtype : Z) (nla : nlattr) (policy : Z -> Z)
  : Z * gmap Z nlattr :=
  nla_parse maxtype (nla_nest nla) policy.

Definition no_policy : Z -> Z := fun _ => 0.

Definition NL_OK : Z := 0.
Definition NL_SKIP : Z := 1.
Definition NL_STOP : Z := 2.
Definition NLE_AGAIN : Z := 4.
Definition NLE_INVAL : Z := 7.

Inductive nl_body : Type :=
| NLMSG_DONE
| NLMSG_ERROR (error : Z)                      (* [error = 0] acknowledges *)
| GENL (cmd : Z) (attrs : list (Z * nlattr)).  (* a generic-netlink message *)

Record nl_msg : Type := mkMsg {
  nlm_multi : bool;    (* NLM_F_MULTI *)
  nlm_body : nl_body;
}.

(** The callbacks of a [struct nl_cb] over the state [S] they reach through
    their [void *arg]. *)
Record nl_cb (S : Type) : Type := mkCb {
  cb_valid : option (Z -> list (Z * nlattr) -> S -> outcome (Z * S));
  cb_finish : S -> Z * S;
  cb_ack : S -> Z * S;
  cb_err : Z -> S -> Z * S;
}.

Arguments mkCb {S}.
Arguments cb_valid {S}.
Arguments cb_finish {S}.
Arguments cb_ack {S}.
Arguments cb_err {S}.

Inductive parse_ctl : Type :=
| PNext            (* go on with the next message *)
| PStop            (* [goto stop]: leave with 0 *)
| POut (err : Z).  (* [goto out]: leave with [err] *)

(** libnl's [NL_CB_CALL]. *)
Definition NL_CB_CALL (r : Z) : parse_ctl :=
  if r =? NL_OK then PNext
  else if r =? NL_SKIP then PNext
  else if r =? NL_STOP then PStop
  else POut r.

(** The body of libnl's [recvmsgs] for one message. *)
Definition recv_msg {S} (syserr2nlerr : Z -> Z) (cb : nl_cb S) (m : nl_msg)
    (multipart : bool) (s : S) : outcome (parse_ctl * bool * S) :=
  let multipart := multipart || nlm_multi m in
  match nlm_body m with
  | NLMSG_DONE =>
      let '(r, s') := cb_finish cb s in Ret (NL_CB_CALL r, false, s')
  | NLMSG_ERROR e =>
      if e =? 0 then
        let '(r, s') := cb_ack cb s in Ret (NL_CB_CALL r, multipart, s')
      else
        let '(r, s') := cb_err cb e s in
        if r <? 0 then Ret (POut r, multipart, s')
        else if r =? NL_SKIP then Ret (PNext, multipart, s')
        else if r =? NL_STOP then Ret (POut (- syserr2nlerr e), multipart, s')
        else Ret (PNext, multipart, s')
  | GENL cmd attrs =>
      match cb_valid cb with
      | Some h => '(r, s') ← h cmd attrs s; Ret (NL_CB_CALL r, multipart, s')
      | None => Ret (PNext, multipart, s)
      end
  end.

(** The messages of one datagram, in order, until a callback stops the
    parse; what is left of the datagram is dropped with its buffer. *)
Fixpoint recv_datagram {S} (syserr2nlerr : Z -> Z) (cb : nl_cb S)
    (msgs : list nl_msg) (multipart : bool) (s : S)
  : outcome (parse_ctl * bool * S) :=
  match msgs with
  | [] => Ret (PNext, multipart, s)
  | m :: rest =>
      '(c, mp, s') ← recv_msg syserr2nlerr cb m multipart s;
      match c with
      | PNext => recv_datagram syserr2nlerr cb rest mp s'
      | _ => Ret (c, mp, s')
      end
  end.

(** [nl_recvmsgs(sk, cb)] on a socket whose pending datagrams are [queue]:
    reads one datagram, and further ones while a multipart message is open.
    With nothing to read a blocking socket waits and a non-blocking one
    reports [-NLE_AGAIN].  Returns libnl's result, the datagrams left and the
    callbacks' state. *)
Fixpoint nl_recvmsgs_from {S} (syserr2nlerr : Z -> Z) (blocking : bool)
    (cb : nl_cb S) (queue : list (list nl_msg)) (multipart : bool) (s : S)
  : outcome (Z * list (list nl_msg) * S) :=
  match queue with
  | [] => if blocking then Hang else Ret (- NLE_AGAIN, [], s)
  | d :: q =>
      '(c, mp, s') ← recv_datagram syserr2nlerr cb d multipart s;
      match c with
      | PNext =>
          if (mp : bool) then nl_recvmsgs_from syserr2nlerr blocking cb q mp s'
          else Ret (0, q, s')
      | PStop => Ret (0, q, s')
      | POut e => Ret (Z.min e 0, q, s')
      end
  end.

Definition nl_recvmsgs {S} (syserr2nlerr : Z -> Z) (blocking : bool)
    (cb : nl_cb S) (queue : list (list nl_msg)) (s : S)
  : outcome (Z * list (list nl_msg) * S) :=
  nl_recvmsgs_from syserr2nlerr blocking cb queue false s.

(** The valid-message callback of [cb] returns on [m], whatever state it
    is called in. *)
Definition handled {S} (cb : nl_cb S) (m : nl_msg) : Prop :=
  match nlm_body m, cb_valid cb with
  | GENL cmd attrs, Some h => forall s, returns (h cmd attrs s)
  | _, _ => True
  end.

(** ** libc and CPython helpers the Wi-Fi client calls *)

(** The characters of a C string literal, without its terminating NUL. *)
Definition lit (s : string) : list byte := String.list_byte_of_string s.

(** [strncmp(s1, s2, n)]: [s1] is a buffer whose first [n] bytes are
    readable (the callers pass its length), [s2] a string literal, whose
    terminating NUL is what [hd x00] reads at its end. *)
Fixpoint strncmp (s1 s2 : list byte) (n : nat) : Z :=
  match n with
  | O => 0
  | S n' =>
      let c1 := byte_val (hd x00 s1) in
      let c2 := byte_val (hd x00 s2) in
      if c1 =? c2 then
        if c1 =? 0 then 0 else strncmp (tail s1) (tail s2) n'
      else c1 - c2
  end.

(** The bytes of [s] before its first NUL; all of [s] when it has none. *)
Fixpoint until_nul (s : list byte) : list byte :=
  match s with
  | [] => []
  | b :: rest => if byte_val b =? 0 then [] else b :: until_nul rest
  end.

(** What [strncmp(name, s, length name) == 0] says of a buffer [name] and a
    literal [s] ([strncmp_zero]): [name] reads as [s] up to its first NUL,
    or [name] has no NUL and is a prefix of [s]. *)
Definition name_is (name s : list byte) : Prop :=
  until_nul name = s \/ ((x00 ∉ name) /\ (name `prefix_of` s)).

(** [strlen]-delimited bytes at the start of [buf]; running off the buffer
    without meeting a NUL is a read outside it. *)
Fixpoint c_string (buf : list byte) : outcome (list byte) :=
  match buf with
  | [] => Fault OutOfBounds
  | b :: rest =>
      if byte_val b =? 0 then Ret [] else s ← c_string rest; Ret (b :: s)
  end.

(** The text of the [SystemError] with which CPython 3.10 to 3.12 refuse a
    ['#'] format in a file that does not define [PY_SSIZE_T_CLEAN]. *)
Definition hash_format_refused : string :=
  "PY_SSIZE_T_CLEAN macro must be defined for '#' formats".

(** The ["y#"] item of a [Py_BuildValue] format, given [buf + off] and the
    [int] [n].  Where the format is refused the buffer is not read: the
    error is set and the item is null ([None]), which makes the whole
    [Py_BuildValue] return null.  Otherwise the item holds the bytes copied:
    [n] of them, or, for a negative [n], those up to the first NUL.  (The
    deprecation warning CPython 3.8 and 3.9 issue on the way is left out.) *)
Definition Py_BuildValue_y (P : platform) (buf : list byte) (off n : Z)
    (w : world) : outcome (option (list byte) * world) :=
  if negb (hash_length_is_int P) then
    Ret (None, PyErr_SetString PyExc_SystemError hash_format_refused w)
  else if off <? 0 then Fault OutOfBounds
  else if n <? 0 then
    s ← c_string (drop (Z.to_nat off) buf); Ret (Some s, w)
  else if off + n <=? Z.of_nat (length buf)
       then Ret (Some (take (Z.to_nat n) (drop (Z.to_nat off) buf)), w)
       else Fault OutOfBounds.

(** ** Encoders, to state what the client's decoders give back *)

#[global] Instance byte_eq_decision : EqDecision byte := Byte.byte_eq_dec.

(** The byte of value [v mod 256]. *)
Definition byte_of_Z (v : Z) : byte :=
  default x00 (Byte.of_N (Z.to_N (v mod 256))).

(** libnl's [nla_put_u32]: a host-order 32-bit payload. *)
Definition nla_put_u32 (v : Z) : nlattr :=
  Nla [byte_of_Z v; byte_of_Z (v / 2 ^ 8); byte_of_Z (v / 2 ^ 16);
       byte_of_Z (v / 2 ^ 24)] [].

(** libnl's [nla_put_string]: the characters and the terminating NUL. *)
Definition nla_put_string (s : list byte) : nlattr := Nla (s ++ [x00]) [].

(** Information elements as a frame carries them: for each element its id,
    the length of its payload, and the payload. *)
Definition ie_encode (elems : list (byte * list byte)) : list byte :=
  flat_map (fun e => e.1 :: byte_of_Z (Z.of_nat (length e.2)) :: e.2) elems.

(** Where the first element with the id [id] starts in [ie_encode elems]. *)
Fixpoint ie_offset (id : byte) (elems : list (byte * list byte)) : option Z :=
  match elems with
  | [] => None
  | e :: rest =>
      if decide (e.1 = id) then Some 0
      else o ← ie_offset id rest; Some (2 + Z.of_nat (length e.2) + o)
  end.

(** The payload of the first element with the id [id]. *)
Fixpoint ie_payload (id : byte) (elems : list (byte * list byte))
  : option (list byte) :=
  match elems with
  | [] => None
  | e :: rest => if decide (e.1 = id) then Some e.2 else ie_payload id rest
  end.

(** The one-character string a C ["\n"] is. *)
Definition newline : string := String (Ascii.ascii_of_nat 10) EmptyString.

(** [PyErr_Format(typ, fmt, n)] for a format that ends in ["%d\n"]. *)
Definition PyErr_Format_nl (typ : PyObject) (pre : string) (n : Z) (w : world)
  : world :=
  PyErr_SetString typ (pre +:+ pretty n +:+ newline) w.

(** An element whose payload length reads back from its length byte: up to
    255 bytes where plain [char] is unsigned, up to 127 where it is signed. *)
Definition ie_fits (P : platform) (e : byte * list byte) : Prop :=
  Z.of_nat (length e.2) < (if char_signed P then 128 else 256).

(** An observer none of whose methods raises, whatever it is called with. *)
Definition never_raises (obs : observer_t) : Prop := forall h n a, obs h n a = None.

(** The invocations [new], made one after the other from the history [h],
    record what [obs] itself answered to each. *)
Fixpoint answered (obs : observer_t) (h : list call) (new : list call) : Prop :=
  match new with
  | [] => True
  | c :: rest =>
      c_raised c = obs h (c_method c) (c_args c) /\ answered obs (h ++ [c]) rest
  end.

(** Socket operations [after] continue [before] by one allocation which, when
    it succeeds, is followed by operations on that socket and ends with its
    release. *)
Definition released (alloc_ok : bool) (before after : list io_event) : Prop :=
  exists mid,
    after = before ++ SocketAlloc :: (if alloc_ok then mid ++ [SocketFree] else []) /\
    (SocketAlloc ∉ mid) /\ (SocketFree ∉ mid).

(** * The Wi-Fi listener, [_nl80211module.c] *)

Module Nl80211.

(** Enumerators of <linux/nl80211.h> and <linux/genetlink.h>. *)
Definition CTRL_ATTR_MCAST_GROUPS : Z := 7.
Definition CTRL_ATTR_MCAST_GRP_NAME : Z := 1.
Definition CTRL_ATTR_MCAST_GRP_ID : Z := 2.
Definition CTRL_ATTR_MCAST_GRP_MAX : Z := 2.
Definition NL80211_ATTR_IFINDEX : Z := 3.
Definition NL80211_ATTR_BSS : Z := 47.
Definition NL80211_BSS_BSSID : Z := 1.
Definition NL80211_BSS_INFORMATION_ELEMENTS : Z := 6.
Definition NL80211_BSS_STATUS : Z := 9.
Definition NL80211_BSS_STATUS_AUTHENTICATED : Z := 0.
Definition NL80211_BSS_STATUS_ASSOCIATED : Z := 1.
Definition NL80211_BSS_STATUS_IBSS_JOINED : Z := 2.
Definition NL80211_CMD_NEW_INTERFACE : Z := 7.
Definition NL80211_CMD_NEW_SCAN_RESULTS : Z := 34.
Definition NL80211_CMD_ASSOCIATE : Z := 38.

(** What libnl and the kernel answer to the client. *)
Record kernel : Type := mkKernel {
  k_socket_alloc : bool;       (* [nl_socket_alloc()] is not null *)
  k_genl_connect : Z;          (* result of [genl_connect] *)
  k_ctrl_resolve : Z;          (* [genl_ctrl_resolve(sock, "nl80211")] *)
  k_send : Z;                  (* result of [nl_send_auto] *)
  k_syserr2nlerr : Z -> Z;     (* libnl's errno translation *)
  k_set_nonblocking : Z;       (* result of [nl_socket_set_nonblocking] *)
  k_add_membership : Z -> Z;   (* joining one group: 0, or libnl's negative error *)
  k_family_reply : list (list nl_msg);      (* datagrams answering GETFAMILY *)
  k_interface_reply : list (list nl_msg);   (* ... the GET_INTERFACE dump *)
  k_scan_reply : Z -> list (list nl_msg);   (* ... a GET_SCAN dump of an interface *)
}.

Record Listener : Type := mkListener {
  observer : option observer_t;   (* [None] is [Py_None] *)
  exc_typ : option PyObject;      (* the fault slot; [None] is the null pointer *)
  exc_val : option PyObject;
  exc_tb : option PyObject;
  err : Z;
  nl80211_id : Z;
}.

Definition with_exc (t v tb : option PyObject) (l : Listener) : Listener :=
  mkListener (observer l) t v tb (err l) (nl80211_id l).

Definition with_err (e : Z) (l : Listener) : Listener :=
  mkListener (observer l) (exc_typ l) (exc_val l) (exc_tb l) e (nl80211_id l).

Definition with_nl80211_id (id : Z) (l : Listener) : Listener :=
  mkListener (observer l) (exc_typ l) (exc_val l) (exc_tb l) (err l) id.

(** [listener_new] followed by [listener_init(observer)]. *)
Definition listener_new (obs : option observer_t) : Listener :=
  mkListener obs None None None 0 0.

(** The three handlers write through their [int *arg]; each gives its return
    value and the new [*arg]. *)
Definition ack_handler (arg : Z) : Z * Z := (NL_STOP, 0).
Definition finish_handler (arg : Z) : Z * Z := (NL_SKIP, 0).
Definition error_handler (error : Z) (arg : Z) : Z * Z := (NL_STOP, error).

Record nl80211_multicast_ids : Type := mkIds {
  mlme_id : Z;
  scan_id : Z;
}.

(** The body of [nla_for_each_nested] in [family_handler]. *)
Definition family_handler_group (mcgrp : nlattr) (res : nl80211_multicast_ids)
  : outcome nl80211_multicast_ids :=
  let tb2 := (nla_parse CTRL_ATTR_MCAST_GRP_MAX (nla_nest mcgrp) no_policy).2 in
  match tb2 !! CTRL_ATTR_MCAST_GRP_NAME, tb2 !! CTRL_ATTR_MCAST_GRP_ID with
  | Some name_attr, Some id_attr =>
      let name := nla_data name_attr in
      let len := nla_len name_attr in
      res1 ← (if strncmp name (lit "scan") (Z.to_nat len) =? 0 then
                id ← nla_get_u32 id_attr;
                Ret (mkIds (mlme_id res) (int_of_u32 id))
              else Ret res);
      if strncmp name (lit "mlme") (Z.to_nat len) =? 0 then
        id ← nla_get_u32 id_attr;
        Ret (mkIds (int_of_u32 id) (scan_id res1))
      else Ret res1
  | _, _ => Ret res
  end.

Fixpoint family_handler_groups (groups : list (Z * nlattr))
    (res : nl80211_multicast_ids) : outcome nl80211_multicast_ids :=
  match groups with
  | [] => Ret res
  | (_, mcgrp) :: rest =>
      res' ← family_handler_group mcgrp res;
      family_handler_groups rest res'
  end.

Definition family_handler (P : platform) (cmd : Z) (attrs : list (Z * nlattr))
    (res : nl80211_multicast_ids) : outcome (Z * nl80211_multicast_ids) :=
  let tb := (nla_parse (CTRL_ATTR_MAX P) attrs no_policy).2 in
  match tb !! CTRL_ATTR_MCAST_GROUPS with
  | None => Ret (NL_SKIP, res)
  | Some groups =>
      res' ← family_handler_groups (nla_nest groups) res;
      Ret (NL_SKIP, res')
  end.

(** The callbacks [send_and_recv] installs: the three handlers on its local
    [err], and the caller's handler on [valid_data]. *)
Definition request_cb {W}
    (valid_handler : option (Z -> list (Z * nlattr) -> W -> outcome (Z * W)))
  : nl_cb (Z * W) :=
  mkCb
    (h ← valid_handler;
     Some (fun cmd attrs (s : Z * W) => '(r, w') ← h cmd attrs s.2; Ret (r, (s.1, w'))))
    (fun s => let '(r, e) := finish_handler s.1 in (r, (e, s.2)))
    (fun s => let '(r, e) := ack_handler s.1 in (r, (e, s.2)))
    (fun error s => let '(r, e) := error_handler error s.1 in (r, (e, s.2))).

(** [while (err > 0) { res = nl_recvmsgs(sock, cb); if (res < 0 && err > 0) err = res; }]
    Every round takes at least one datagram off the reply or waits for
    ever, so [fuel] above the number of datagrams is never used up
    ([recv_while_fuel]). *)
Fixpoint recv_while {W} (fuel : nat) (K : kernel) (cb : nl_cb (Z * W))
    (reply : list (list nl_msg)) (s : Z * W) : outcome (Z * W) :=
  if s.1 >? 0 then
    match fuel with
    | O => Hang
    | S fuel' =>
        '(res, reply', s') ← nl_recvmsgs (k_syserr2nlerr K) true cb reply s;
        let s'' := if (res <? 0) && (s'.1 >? 0) then (res, s'.2) else s' in
        recv_while fuel' K cb reply' s''
    end
  else Ret s.

(** [send_and_recv(sock, msg, valid_handler, valid_data)], where [reply] is
    what the kernel queues on [sock] in answer to [msg]. *)
Definition send_and_recv {W} (K : kernel) (reply : list (list nl_msg))
    (valid_handler : option (Z -> list (Z * nlattr) -> W -> outcome (Z * W)))
    (valid_data : W) : outcome (Z * W) :=
  let err := k_send K in
  if err <? 0 then Ret (err, valid_data)
  else recv_while (S (length reply)) K (request_cb valid_handler) reply (1, valid_data).

Definition nl_get_multicast_ids (K : kernel) (P : platform)
    (res : nl80211_multicast_ids) : outcome (Z * nl80211_multicast_ids) :=
  send_and_recv K (k_family_reply K) (Some (family_handler P)) res.

(** The enumerators of [enum nl80211_commands] in the order of the switch,
    which is the order of the header: it numbers them from 0 without gaps. *)
Definition nl80211_commands : list string :=
  [ "NL80211_CMD_UNSPEC"; "NL80211_CMD_GET_WIPHY"; "NL80211_CMD_SET_WIPHY";
    "NL80211_CMD_NEW_WIPHY"; "NL80211_CMD_DEL_WIPHY";
    "NL80211_CMD_GET_INTERFACE"; "NL80211_CMD_SET_INTERFACE";
    "NL80211_CMD_NEW_INTERFACE"; "NL80211_CMD_DEL_INTERFACE";
    "NL80211_CMD_GET_KEY"; "NL80211_CMD_SET_KEY"; "NL80211_CMD_NEW_KEY";
    "NL80211_CMD_DEL_KEY"; "NL80211_CMD_GET_BEACON"; "NL80211_CMD_SET_BEACON";
    "NL80211_CMD_START_AP"; "NL80211_CMD_STOP_AP"; "NL80211_CMD_GET_STATION";
    "NL80211_CMD_SET_STATION"; "NL80211_CMD_NEW_STATION";
    "NL80211_CMD_DEL_STATION"; "NL80211_CMD_GET_MPATH";
    "NL80211_CMD_SET_MPATH"; "NL80211_CMD_NEW_MPATH"; "NL80211_CMD_DEL_MPATH";
    "NL80211_CMD_SET_BSS"; "NL80211_CMD_SET_REG"; "NL80211_CMD_REQ_SET_REG";
    "NL80211_CMD_GET_MESH_CONFIG"; "NL80211_CMD_SET_MESH_CONFIG";
    "NL80211_CMD_SET_MGMT_EXTRA_IE"; "NL80211_CMD_GET_REG";
    "NL80211_CMD_GET_SCAN"; "NL80211_CMD_TRIGGER_SCAN";
    "NL80211_CMD_NEW_SCAN_RESULTS"; "NL80211_CMD_SCAN_ABORTED";
    "NL80211_CMD_REG_CHANGE"; "NL80211_CMD_AUTHENTICATE";
    "NL80211_CMD_ASSOCIATE"; "NL80211_CMD_DEAUTHENTICATE";
    "NL80211_CMD_DISASSOCIATE"; "NL80211_CMD_MICHAEL_MIC_FAILURE";
    "NL80211_CMD_REG_BEACON_HINT"; "NL80211_CMD_JOIN_IBSS";
    "NL80211_CMD_LEAVE_IBSS"; "NL80211_CMD_TESTMODE"; "NL80211_CMD_CONNECT";
    "NL80211_CMD_ROAM"; "NL80211_CMD_DISCONNECT";
    "NL80211_CMD_SET_WIPHY_NETNS"; "NL80211_CMD_GET_SURVEY";
    "NL80211_CMD_NEW_SURVEY_RESULTS"; "NL80211_CMD_SET_PMKSA";
    "NL80211_CMD_DEL_PMKSA"; "NL80211_CMD_FLUSH_PMKSA";
    "NL80211_CMD_REMAIN_ON_CHANNEL"; "NL80211_CMD_CANCEL_REMAIN_ON_CHANNEL";
    "NL80211_CMD_SET_TX_BITRATE_MASK"; "NL80211_CMD_REGISTER_FRAME";
    "NL80211_CMD_FRAME"; "NL80211_CMD_FRAME_TX_STATUS";
    "NL80211_CMD_SET_POWER_SAVE"; "NL80211_CMD_GET_POWER_SAVE";
    "NL80211_CMD_SET_CQM"; "NL80211_CMD_NOTIFY_CQM"; "NL80211_CMD_SET_CHANNEL";
    "NL80211_CMD_SET_WDS_PEER"; "NL80211_CMD_FRAME_WAIT_CANCEL";
    "NL80211_CMD_JOIN_MESH"; "NL80211_CMD_LEAVE_MESH";
    "NL80211_CMD_UNPROT_DEAUTHENTICATE"; "NL80211_CMD_UNPROT_DISASSOCIATE";
    "NL80211_CMD_NEW_PEER_CANDIDATE"; "NL80211_CMD_GET_WOWLAN";
    "NL80211_CMD_SET_WOWLAN"; "NL80211_CMD_START_SCHED_SCAN";
    "NL80211_CMD_STOP_SCHED_SCAN"; "NL80211_CMD_SCHED_SCAN_RESULTS";
    "NL80211_CMD_SCHED_SCAN_STOPPED"; "NL80211_CMD_SET_REKEY_OFFLOAD";
    "NL80211_CMD_PMKSA_CANDIDATE"; "NL80211_CMD_TDLS_OPER";
    "NL80211_CMD_TDLS_MGMT"; "NL80211_CMD_UNEXPECTED_FRAME";
    "NL80211_CMD_PROBE_CLIENT"; "NL80211_CMD_REGISTER_BEACONS";
    "NL80211_CMD_UNEXPECTED_4ADDR_FRAME"; "NL80211_CMD_SET_NOACK_MAP";
    "NL80211_CMD_CH_SWITCH_NOTIFY"; "NL80211_CMD_START_P2P_DEVICE";
    "NL80211_CMD_STOP_P2P_DEVICE"; "NL80211_CMD_CONN_FAILED";
    "NL80211_CMD_SET_MCAST_RATE"; "NL80211_CMD_SET_MAC_ACL";
    "NL80211_CMD_RADAR_DETECT"; "NL80211_CMD_GET_PROTOCOL_FEATURES";
    "NL80211_CMD_UPDATE_FT_IES"; "NL80211_CMD_FT_EVENT";
    "NL80211_CMD_CRIT_PROTOCOL_START"; "NL80211_CMD_CRIT_PROTOCOL_STOP";
    "NL80211_CMD_GET_COALESCE"; "NL80211_CMD_SET_COALESCE";
    "NL80211_CMD_CHANNEL_SWITCH"; "NL80211_CMD_VENDOR";
    "NL80211_CMD_SET_QOS_MAP" ].

(** [&#x[12]]: the enumerator's name without its first twelve characters. *)
Definition C2S (x : string) : string :=
  String.substring 12 (String.length x - 12) x.

Definition nl80211_command_to_string (cmd : Z) : string :=
  if cmd <? 0 then "NL80211_CMD_UNKNOWN"
  else match nl80211_commands !! Z.to_nat cmd with
       | Some x => C2S x
       | None => "NL80211_CMD_UNKNOWN"
       end.

Definition observe_wlan_event (l : Listener) (ifindex : Z) (cmd : string)
    (extra : option (list (string * PyObject))) (w : world)
  : Z * (Listener * world) :=
  match exc_typ l, observer l with
  | Some _, _ => (NL_STOP, (l, w))
  | None, None => (NL_STOP, (l, w))
  | None, Some obs =>
      let arg := PyDict_SetItemString [] "cmd" (PyUnicode cmd) in
      let arg := PyDict_SetItemString arg "ifindex" (PyLong ifindex) in
      let arg := match extra with
                 | Some e => PyDict_Update arg e
                 | None => arg
                 end in
      let w := PyObject_CallMethod obs "wlan_event" [PyDict arg] w in
      (* exit: *)
      if PyErr_Occurred w then
        let '(t, v, tb, w) := PyErr_Fetch w in
        (NL_STOP, (with_exc t v tb l, w))
      else (NL_SKIP, (l, w))
  end.

Record scan_handler_params : Type := mkParams {
  ssid_list : option (list PyObject);   (* the Python list; [None] is null *)
  only_connected : bool;
}.

Definition bss_policy (ty : Z) : Z :=
  if ty =? NL80211_BSS_STATUS then 4 else 0.

Definition status_string (status : Z) : string :=
  if status =? NL80211_BSS_STATUS_ASSOCIATED then "Connected"
  else if status =? NL80211_BSS_STATUS_AUTHENTICATED then "Authenticated"
  else if status =? NL80211_BSS_STATUS_IBSS_JOINED then "Joined"
  else "no status".

(** [PyList_Append(lst, v)]: its result and the list it leaves.  It reads
    the type of [lst] first, through the pointer.  Without memory exhaustion
    it does not fail on a list. *)
Definition PyList_Append (lst : option (list PyObject)) (v : PyObject)
  : outcome (Z * list PyObject) :=
  match lst with
  | Some items => Ret (0, items ++ [v])
  | None => Fault NullDeref
  end.

(** [extract_ssid(data, p)].  The scan handlers reach the interpreter, so
    they carry the world next to [p]. *)
Definition extract_ssid (P : platform) (data : nlattr)
    (s : scan_handler_params * world) : outcome (scan_handler_params * world) :=
  let '(p, w) := s in
  let '(r, bss) := nla_parse_nested (NL80211_BSS_MAX P) data bss_policy in
  if negb (r =? 0) then Ret (p, w)
  else
    '(go_on, cstatus) ←
      match bss !! NL80211_BSS_STATUS with
      | Some a =>
          status ← nla_get_u32 a;
          Ret (true, status_string (int_of_u32 status))
      | None => Ret (negb (only_connected p), "no status"%string)
      end;
    if negb (go_on : bool) then Ret (p, w)
    else
      let ie := nla_data <$> bss !! NL80211_BSS_INFORMATION_ELEMENTS in
      ie_len ← nla_len_at (bss !! NL80211_BSS_INFORMATION_ELEMENTS);
      ssid ← nl80211_get_ie P ie 0;
      match ie, ssid with
      | Some buf, Some pos =>
          ssid_len ← read_char P buf (pos + 1);
          '(payload, w) ← Py_BuildValue_y P buf (pos + 2) ssid_len w;
          match payload with
          | None =>
              (* [v == NULL]: Py_CLEAR(p->ssid_list) *)
              Ret (mkParams None (only_connected p), w)
          | Some payload =>
              let v := PyTuple [PyBytes payload; PyUnicode cstatus] in
              '(r, items) ← PyList_Append (ssid_list p) v;
              if (r : Z) <? 0 then Ret (mkParams None (only_connected p), w)
              else Ret (mkParams (Some items) (only_connected p), w)
          end
      | _, _ => Fault NullDeref   (* [ssid[1]] through the null pointer *)
      end.

Definition nl80211_scan_handler (P : platform) (cmd : Z)
    (attrs : list (Z * nlattr)) (s : scan_handler_params * world)
  : outcome (Z * (scan_handler_params * world)) :=
  let tb := (nla_parse (NL80211_ATTR_MAX P) attrs no_policy).2 in
  ifidx ← match tb !! NL80211_ATTR_IFINDEX with
          | Some a => v ← nla_get_u32 a; Ret (int_of_u32 v)
          | None => Ret (-1)
          end;
  if ifidx <? 0 then Ret (NL_SKIP, s)
  else
    s ← match tb !! NL80211_ATTR_BSS with
        | Some a => extract_ssid P a s
        | None => Ret s
        end;
    match ssid_list s.1 with
    | None => Ret (NL_STOP, s)
    | Some _ => Ret (NL_SKIP, s)
    end.

Definition dump_scan_results (K : kernel) (P : platform) (l : Listener)
    (ifidx : Z) (only_connected : bool) (w : world)
  : outcome (option PyObject * world) :=
  let w := log_io [SocketAlloc] w in
  if negb (k_socket_alloc K) then
    Ret (None, PyErr_SetString PyExc_MemoryError "nl_socket_alloc failed" w)
  else
    let w := log_io [SocketConnect] w in
    let r := k_genl_connect K in
    if r <? 0 then
      Ret (None, log_io [SocketFree]
                   (PyErr_Format PyExc_MemoryError "genl_connect failed " r w))
    else
      let p := mkParams (Some []) only_connected in
      let w := log_io [SocketSend (GET_SCAN ifidx)] w in
      '(_, (p, w)) ← send_and_recv K (k_scan_reply K ifidx)
                       (Some (nl80211_scan_handler P)) (p, w);
      Ret (PyList <$> ssid_list p, log_io [SocketFree] w).

(** [event_handler(msg, listener)].  The two tests on [gnlh->cmd] exclude
    each other, so they are written as one cascade. *)
Definition event_handler (K : kernel) (P : platform) (cmd : Z)
    (attrs : list (Z * nlattr)) (s : Listener * world)
  : outcome (Z * (Listener * world)) :=
  let '(l, w) := s in
  let tb := (nla_parse (NL80211_ATTR_MAX P) attrs no_policy).2 in
  ifidx ← match tb !! NL80211_ATTR_IFINDEX with
          | Some a => v ← nla_get_u32 a; Ret (int_of_u32 v)
          | None => Ret (-1)
          end;
  let observe extra w :=
    Ret (observe_wlan_event l ifidx (nl80211_command_to_string cmd) extra w) in
  let dump_then_observe only_connected :=
    '(ssids, w) ← dump_scan_results K P l ifidx only_connected w;
    match ssids with
    | None => Ret (NL_STOP, (l, w))
    | Some ssids => observe (Some [("ssids"%string, ssids)]) w
    end in
  if ifidx >? 0 then
    if cmd =? NL80211_CMD_NEW_SCAN_RESULTS then dump_then_observe false
    else if (cmd =? NL80211_CMD_ASSOCIATE) || (cmd =? NL80211_CMD_NEW_INTERFACE)
         then dump_then_observe true
         else observe None w
  else observe None w.

(** The callbacks [listener_new] installs on the event socket: the three
    handlers on [listener->err], [event_handler] on the listener. *)
Definition event_cb (K : kernel) (P : platform) : nl_cb (Listener * world) :=
  mkCb
    (Some (event_handler K P))
    (fun s => let '(r, e) := finish_handler (err s.1) in (r, (with_err e s.1, s.2)))
    (fun s => let '(r, e) := ack_handler (err s.1) in (r, (with_err e s.1, s.2)))
    (fun error s =>
       let '(r, e) := error_handler error (err s.1) in (r, (with_err e s.1, s.2))).

(** The result of a method: the returned object ([None] is the null
    pointer, which tells the interpreter to raise the error indicator) and
    the listener and world it leaves. *)
Definition maybe_restore (s : Listener * world)
  : option PyObject * (Listener * world) :=
  let '(l, w) := s in
  match exc_typ l with
  | Some _ =>
      let w := PyErr_Restore (exc_typ l) (exc_val l) (exc_tb l) w in
      (None, (with_exc None None None l, w))
  | None =>
      let w := if negb (err l =? 0)
               then PyErr_Format PyExc_RuntimeError "random netlink error: " (err l) w
               else w in
      (Some PyNone, (l, w))
  end.

(** libnl's [nl_socket_add_memberships(sk, group, ...)]: joins the groups up
    to the first 0, refusing a negative one. *)
Fixpoint nl_socket_add_memberships (K : kernel) (groups : list Z) : Z :=
  match groups with
  | [] => 0
  | group :: rest =>
      if group =? 0 then 0
      else if group <? 0 then - NLE_INVAL
      else
        let e := k_add_membership K group in
        if e <? 0 then e else nl_socket_add_memberships K rest
  end.

(** [listener_start].  [ids] is declared without an initialiser: [stack] is
    what the two ints happen to hold when the function is entered. *)
Definition listener_start (K : kernel) (P : platform)
    (stack : nl80211_multicast_ids) (s : Listener * world)
  : outcome (option PyObject * (Listener * world)) :=
  let '(l, w) := s in
  let ids := stack in
  let w := log_io [SocketConnect] w in
  let r := k_genl_connect K in
  if r <? 0 then
    Ret (None, (l, PyErr_Format PyExc_RuntimeError "genl_connect failed: " r w))
  else
    let l := with_nl80211_id (k_ctrl_resolve K) l in
    let w := log_io [SocketSend GETFAMILY] w in
    '(r, ids) ← nl_get_multicast_ids K P ids;
    if r <? 0 then
      Ret (None, (l, PyErr_Format PyExc_RuntimeError
                       "nl_get_multicast_ids failed: " r w))
    else
      let w := log_io [SocketConnect] w in
      let r := k_genl_connect K in
      if r <? 0 then
        Ret (None, (l, PyErr_Format PyExc_RuntimeError "genl_connect failed: " r w))
      else
        let r := k_set_nonblocking K in
        if r <? 0 then
          Ret (None, (l, PyErr_Format PyExc_RuntimeError
                           "nl_socket_set_nonblocking failed: " r w))
        else
          let r := nl_socket_add_memberships K [mlme_id ids; scan_id ids; 0] in
          if r <? 0 then
            Ret (None, (l, PyErr_Format PyExc_RuntimeError
                             "nl_socket_add_memberships: " r w))
          else
            let w := log_io [SocketSend GET_INTERFACE] w in
            '(_, s) ← send_and_recv K (k_interface_reply K)
                        (Some (event_handler K P)) (l, w);
            Ret (maybe_restore s).

(** [listener_data_ready], with [queue] the datagrams pending on the event
    socket, which is non-blocking. *)
Definition listener_data_ready (K : kernel) (P : platform)
    (queue : list (list nl_msg)) (s : Listener * world)
  : outcome (option PyObject * (Listener * world)) :=
  '(_, _, s) ← nl_recvmsgs (k_syserr2nlerr K) false (event_cb K P) queue s;
  Ret (maybe_restore s).

(** [nl80211_trigger_scan(listener, ifidx)], with [reply] what the kernel
    queues on the call's own socket in answer to TRIGGER_SCAN.  The request
    goes out with an empty wildcard SSID and no handler for valid messages.
    Every path ends in [nl_socket_free], which does nothing for the null
    socket of a failed allocation. *)
Definition nl80211_trigger_scan (K : kernel) (l : Listener) (ifidx : Z)
    (reply : list (list nl_msg)) (w : world) : outcome (Z * world) :=
  let w := log_io [SocketAlloc] w in
  if negb (k_socket_alloc K) then Ret (-1, w)
  else
    let w := log_io [SocketConnect] w in
    let r := k_genl_connect K in
    if r <? 0 then Ret (r, log_io [SocketFree] w)
    else
      let w := log_io [SocketSend (TRIGGER_SCAN ifidx)] w in
      '(r, _) ← send_and_recv K reply None tt;
      Ret (r, log_io [SocketFree] w).

Definition listener_trigger_scan (K : kernel) (reply : list (list nl_msg))
    (ifindex : Z) (s : Listener * world)
  : outcome (option PyObject * (Listener * world)) :=
  let '(l, w) := s in
  '(r, w) ← nl80211_trigger_scan K l ifindex reply w;
  if (r : Z) <? 0 then
    Ret (None, (l, PyErr_Format_nl PyExc_RuntimeError "triggering scan failed " r w))
  else Ret (Some PyNone, (l, w)).

(** ** Vocabulary of the properties *)

(** The fault slot read as one exception; [None] when it is empty. *)
Definition fault_slot (l : Listener) : option PyErr :=
  t ← exc_typ l; Some (mkPyErr t (exc_val l) (exc_tb l)).

(** The invariant of fault containment, for a run that started in the world
    [w0]: among the observer invocations made since then, none has raised,
    or the last one has, and what it raised is in the fault slot. *)
Definition contained (w0 : world) (s : Listener * world) : Prop :=
  exists new, calls s.2 = calls w0 ++ new /\
    (Forall no_raise new \/
     exists pre c e, new = pre ++ [c] /\ Forall no_raise pre /\
                     c_raised c = Some e /\ fault_slot s.1 = Some e).

(** [event_handler] returns on every message of every queued datagram. *)
Definition events_handled (K : kernel) (P : platform)
    (queue : list (list nl_msg)) : Prop :=
  Forall (Forall (handled (event_cb K P))) queue.

(** The dictionary [wlan_event] receives for an event without scan data. *)
Definition wlan_event_arg (cmd : Z) (ifidx : Z) : PyObject :=
  PyDict [("cmd"%string, PyUnicode (nl80211_command_to_string cmd));
          ("ifindex"%string, PyLong ifidx)].

(** ** Inputs to evaluate the code on *)

Definition u32_attr (b0 : byte) : nlattr := Nla [b0; x00; x00; x00] [].

(** A multicast group as the kernel lists it: a NUL-terminated name and an id. *)
Definition mcast_group (name : string) (id : byte) : nlattr :=
  Nla [] [(CTRL_ATTR_MCAST_GRP_NAME, Nla (lit name ++ [x00]) []);
          (CTRL_ATTR_MCAST_GRP_ID, u32_attr id)].

(** The kernel's answer to GETFAMILY: the family with its groups, then the
    acknowledgement. *)
Definition getfamily_reply (groups : list (Z * nlattr)) : list (list nl_msg) :=
  [ [mkMsg false (GENL 1 [(CTRL_ATTR_MCAST_GROUPS, Nla [] groups)])];
    [mkMsg false (NLMSG_ERROR 0)] ].

Definition wlan_msg (multi : bool) (cmd : Z) (ifidx : byte) : nl_msg :=
  mkMsg multi (GENL cmd [(NL80211_ATTR_IFINDEX, u32_attr ifidx)]).

(** A BSS whose only attribute is the information elements [00 03 FF 00 41]:
    an SSID element of three bytes with a NUL in the middle. *)
Definition bss_with_nul_ssid : nlattr :=
  Nla [] [(NL80211_BSS_INFORMATION_ELEMENTS, Nla [x00; x03; xff; x00; x41] [])].

(** An associated BSS that carries no information elements. *)
Definition bss_without_ies : nlattr :=
  Nla [] [(NL80211_BSS_BSSID, Nla [x02; x00; x00; x00; x00; x01] []);
          (NL80211_BSS_STATUS, u32_attr x01)].

Definition scan_reply (bss : nlattr) : list (list nl_msg) :=
  [ [mkMsg true (GENL NL80211_CMD_NEW_SCAN_RESULTS
                   [(NL80211_ATTR_IFINDEX, u32_attr x02); (NL80211_ATTR_BSS, bss)])];
    [mkMsg true NLMSG_DONE] ].

(** A kernel with both groups and three interfaces, whose scan dumps list
    [bss_with_nul_ssid]. *)
Definition kernel_ok : kernel :=
  mkKernel true 0 28 0 Z.abs 0 (fun _ => 0)
    (getfamily_reply [(1, mcast_group "scan" x05); (2, mcast_group "mlme" x04)])
    [ [wlan_msg true NL80211_CMD_NEW_INTERFACE x02;
       wlan_msg true NL80211_CMD_NEW_INTERFACE x03;
       wlan_msg true NL80211_CMD_NEW_INTERFACE x04];
      [mkMsg true NLMSG_DONE] ]
    (fun _ => scan_reply bss_with_nul_ssid).

(** The same kernel without the group ["mlme"]. *)
Definition kernel_without_mlme : kernel :=
  mkKernel true 0 28 0 Z.abs 0 (fun _ => 0)
    (getfamily_reply [(1, mcast_group "scan" x05)])
    (k_interface_reply kernel_ok)
    (k_scan_reply kernel_ok).

(** The same kernel answering the interface dump with [-EOPNOTSUPP]. *)
Definition kernel_refusing_dump : kernel :=
  mkKernel true 0 28 0 Z.abs 0 (fun _ => 0)
    (k_family_reply kernel_ok)
    [ [mkMsg false (NLMSG_ERROR (-95))] ]
    (k_scan_reply kernel_ok).

Definition world0 : world := mkWorld None [] [].

Definition quiet_observer : observer_t := fun _ _ _ => None.

Definition boom : PyErr :=
  mkPyErr (PyType "ValueError") (Some (PyOpaque 1)) (Some (PyOpaque 2)).

(** An observer that raises [boom] the second time it is called. *)
Definition fails_second : observer_t :=
  fun history _ _ => if decide (length history = 1%nat) then Some boom else None.

(** Three events queued in one datagram: SCAN_ABORTED, NEW_SCAN_RESULTS,
    REG_CHANGE, all for interface 2. *)
Definition three_events : list (list nl_msg) :=
  [ [wlan_msg false 35 x02; wlan_msg false NL80211_CMD_NEW_SCAN_RESULTS x02;
     wlan_msg false 36 x02] ].

(** The headers the module is built against have the attributes it names. *)
Definition headers_cover (P : platform) : Prop :=
  NL80211_ATTR_BSS <= NL80211_ATTR_MAX P /\
  NL80211_BSS_STATUS <= NL80211_BSS_MAX P /\
  CTRL_ATTR_MCAST_GROUPS <= CTRL_ATTR_MAX P.

(** A multicast group as the kernel encodes it, for any name and id. *)
Definition group_entry (g : list byte * Z) : nlattr :=
  Nla [] [(CTRL_ATTR_MCAST_GRP_NAME, nla_put_string g.1);
          (CTRL_ATTR_MCAST_GRP_ID, nla_put_u32 g.2)].

(** The id a list of groups gives the name [name]: that of the last group
    of that name, and [d] when there is none. *)
Definition resolved (name : list byte) (groups : list (list byte * Z)) (d : Z) : Z :=
  foldl (fun acc g => if decide (g.1 = name) then int_of_u32 g.2 else acc) d groups.

(** A BSS of a scan dump: its information elements and, when the station
    has a relation to it, its status. *)
Definition bss_entry (b : list (byte * list byte) * option Z) : nlattr :=
  Nla [] ((NL80211_BSS_INFORMATION_ELEMENTS, Nla (ie_encode b.1) [])
          :: match b.2 with
             | Some st => [(NL80211_BSS_STATUS, nla_put_u32 st)]
             | None => []
             end).

Definition status_text (status : option Z) : string :=
  match status with
  | Some st => status_string (int_of_u32 st)
  | None => "no status"
  end.

(** The pair a dump lists for a BSS whose SSID element holds [ssid]. *)
Definition ssid_pair (ssid : list byte) (status : option Z) : PyObject :=
  PyTuple [PyBytes ssid; PyUnicode (status_text status)].

(** Whether a dump lists the BSS: always, unless it is restricted to
    connected ones and the BSS has no status. *)
Definition listed (only_connected : bool) (b : list (byte * list byte) * option Z)
  : bool :=
  negb only_connected || bool_decide (is_Some b.2).

(** A message of a scan dump. *)
Definition scan_msg (ifidx : Z) (b : list (byte * list byte) * option Z) : nl_msg :=
  mkMsg true (GENL NL80211_CMD_NEW_SCAN_RESULTS
                [(NL80211_ATTR_IFINDEX, nla_put_u32 ifidx);
                 (NL80211_ATTR_BSS, bss_entry b)]).

(** The interface index [event_handler] reads off a message. *)
Definition event_ifindex (P : platform) (attrs : list (Z * nlattr)) : outcome Z :=
  match (nla_parse (NL80211_ATTR_MAX P) attrs no_policy).2 !! NL80211_ATTR_IFINDEX with
  | Some a => v ← nla_get_u32 a; Ret (int_of_u32 v)
  | None => Ret (-1)
  end.

(** The call [c] delivers the event [m]: it is [wlan_event] with one
    dictionary whose ["cmd"] is the command's name and whose ["ifindex"] is
    the message's interface index. *)
Definition delivers (P : platform) (m : nl_msg) (c : call) : Prop :=
  exists cmd attrs ifidx d,
    nlm_body m = GENL cmd attrs /\ event_ifindex P attrs = Ret ifidx /\
    c_method c = "wlan_event"%string /\ c_args c = [PyDict d] /\ c_raised c = None /\
    PyDict_GetItemString d "cmd" = Some (PyUnicode (nl80211_command_to_string cmd)) /\
    PyDict_GetItemString d "ifindex" = Some (PyLong ifidx).

(** An example frame: a supported-rates element, then the SSID ["lab"], then
    a vendor element. *)
Definition example_elems : list (byte * list byte) :=
  [ (x01, [x82; x84]); (x00, lit "lab"); (xdd, [x00; x50; xf2]) ].

(** What a dump lists for a BSS, if anything. *)
Definition listing (only_connected : bool) (b : list (byte * list byte) * option Z)
  : option PyObject :=
  if listed only_connected b
  then ssid ← ie_payload x00 b.1; Some (ssid_pair ssid b.2)
  else None.

(** A BSS whose elements can be scanned on [P] and hold an SSID element. *)
Definition well_formed_bss (P : platform) (b : list (byte * list byte) * option Z)
  : Prop :=
  Forall (ie_fits P) b.1 /\ is_Some (ie_payload x00 b.1).

(** Every BSS dump the listener asks for gives a list. *)
Definition dumps_succeed (K : kernel) (P : platform) (l : Listener) : Prop :=
  forall ifidx only_connected w, exists ssids w',
    dump_scan_results K P l ifidx only_connected w = Ret (Some ssids, w').

(** A generic-netlink message whose interface index, if any, can be read. *)
Definition wlan_message (P : platform) (m : nl_msg) : Prop :=
  exists cmd attrs, nlm_body m = GENL cmd attrs /\ returns (event_ifindex P attrs).

(** Such a message that is not part of a multipart sequence. *)
Definition plain_event (P : platform) (m : nl_msg) : Prop :=
  nlm_multi m = false /\ wlan_message P m.

(** A scan dump in two datagrams: the associated BSS of [example_elems], then
    a BSS without status whose only element is the SSID ["guest"]. *)
Definition example_dump : list (list (list (byte * list byte) * option Z)) :=
  [ [(example_elems, Some 1)]; [([(x00, lit "guest")], None)] ].

(** [kernel_ok] answering every scan dump with [example_dump]. *)
Definition kernel_with_dump : kernel :=
  mkKernel true 0 28 0 Z.abs 0 (fun _ => 0)
    (k_family_reply kernel_ok) (k_interface_reply kernel_ok)
    (fun ifidx => map (map (scan_msg ifidx)) example_dump ++ [[mkMsg true NLMSG_DONE]]).

(** [kernel_ok] with no BSS in reach: every scan dump is empty. *)
Definition kernel_without_bss : kernel :=
  mkKernel true 0 28 0 Z.abs 0 (fun _ => 0)
    (k_family_reply kernel_ok) (k_interface_reply kernel_ok)
    (fun _ => [[mkMsg true NLMSG_DONE]]).

(** [kernel_ok] sending the end of the interface dump in the datagram of the
    interfaces. *)
Definition kernel_done_in_datagram : kernel :=
  mkKernel true 0 28 0 Z.abs 0 (fun _ => 0)
    (k_family_reply kernel_ok)
    [ [wlan_msg true NL80211_CMD_NEW_INTERFACE x02;
       wlan_msg true NL80211_CMD_NEW_INTERFACE x03;
       wlan_msg true NL80211_CMD_NEW_INTERFACE x04;
       mkMsg true NLMSG_DONE] ]
    (fun _ => [[mkMsg true NLMSG_DONE]]).

(** The error CPython 3.10 to 3.12 set for the ['#'] format. *)
Definition hash_error : PyErr :=
  mkPyErr PyExc_SystemError (Some (PyUnicode hash_format_refused)) None.

(** What a scan dump has made of the entries [bs] read so far, from the empty
    list and the world [w]: the pairs of the listed ones; on a build that
    refuses the ['#'] format, the null list and the error from the first
    listed entry on. *)
Definition dump_state (P : platform) (only_connected : bool) (w : world)
    (bs : list (list (byte * list byte) * option Z))
  : scan_handler_params * world :=
  if hash_length_is_int P || forallb (fun b => negb (listed only_connected b)) bs
  then (mkParams (Some (omap (listing only_connected) bs)) only_connected, w)
  else (mkParams None only_connected,
        PyErr_SetString PyExc_SystemError hash_format_refused w).

(** The call [c] reports the event [m]: it is [wlan_event] with one
    dictionary whose ["cmd"] is the command's name and whose ["ifindex"] is
    the message's interface index.  ([delivers] adds that it did not raise.) *)
Definition reports (P : platform) (m : nl_msg) (c : call) : Prop :=
  exists cmd attrs ifidx d,
    nlm_body m = GENL cmd attrs /\ event_ifindex P attrs = Ret ifidx /\
    c_method c = "wlan_event"%string /\ c_args c = [PyDict d] /\
    PyDict_GetItemString d "cmd" = Some (PyUnicode (nl80211_command_to_string cmd)) /\
    PyDict_GetItemString d "ifindex" = Some (PyLong ifidx).

(** Where the delivery of the events [msgs] to [obs] stands, for a listener
    that was [l0], its fault slot empty, in the world [w0]: the observer has
    been invoked for the first events, in order, and each invocation records
    what [obs] answered; no error is pending; and either none has raised and
    every event has been reported, or the last one raised and what it raised
    is in the fault slot. *)
Definition delivering (P : platform) (obs : observer_t) (l0 : Listener)
    (w0 : world) (msgs : list nl_msg) (s : Listener * world) : Prop :=
  exists new,
    calls s.2 = calls w0 ++ new /\
    answered obs (calls w0) new /\
    Forall2 (reports P) (take (length new) msgs) new /\
    py_err s.2 = None /\
    ((Forall no_raise new /\ length new = length msgs /\ s.1 = l0) \/
     (exists pre c e, new = pre ++ [c] /\ Forall no_raise pre /\
        c_raised c = Some e /\
        s.1 = with_exc (Some (err_type e)) (err_value e) (err_traceback e) l0)).

(** What a public call that delivers the events [msgs] to [obs] leaves, from
    the world [w0]: the observer was invoked for the first events, in order,
    each invocation recording what [obs] answered, and the fault slot is
    empty.  Either no invocation raised: then every event was reported and
    the call returns [None].  Or the last invocation raised [e]: then no
    event was reported after it, and the call returns the null pointer with
    exactly [e] as the error. *)
Definition delivered_until_fault (P : platform) (obs : observer_t) (w0 : world)
    (msgs : list nl_msg) (res : option PyObject) (s : Listener * world) : Prop :=
  exists new,
    calls s.2 = calls w0 ++ new /\
    answered obs (calls w0) new /\
    Forall2 (reports P) (take (length new) msgs) new /\
    fault_slot s.1 = None /\
    ((Forall no_raise new /\ length new = length msgs /\ res = Some PyNone) \/
     (exists pre c e, new = pre ++ [c] /\ Forall no_raise pre /\
        c_raised c = Some e /\ res = None /\ py_err s.2 = Some e)).

End Nl80211.

(** * The routing listener, [_rtnetlinkmodule.c] *)

Module Rtnetlink.

Definition NL_ACT_UNSPEC : Z := 0.
Definition NL_ACT_NEW : Z := 1.
Definition NL_ACT_DEL : Z := 2.
Definition NL_ACT_GET : Z := 3.
Definition NL_ACT_SET : Z := 4.
Definition NL_ACT_CHANGE : Z := 5.

(** [&#x[7]] drops ["NL_ACT_"]. *)
Definition act2str (act : Z) : string :=
  if act =? NL_ACT_UNSPEC then "UNSPEC"
  else if act =? NL_ACT_NEW then "NEW"
  else if act =? NL_ACT_DEL then "DEL"
  else if act =? NL_ACT_GET then "GET"
  else if act =? NL_ACT_SET then "SET"
  else if act =? NL_ACT_CHANGE then "CHANGE"
  else "???".

(** libnl's objects, with the fields the client reads through the getters;
    each field holds a value of its C type. *)
Record rtnl_link : Type := mkLink {
  l_index : Z;
  l_flags : Z;
  l_flag_mask : Z;
  l_arptype : Z;
  l_family : Z;
  l_name : option string;
}.

Record nl_addr : Type := mkAddr {
  a_family : Z;
  a_prefixlen : Z;
  a_addr : list byte;   (* the binary address; [nl_addr_get_len] is its length *)
}.

Definition nl_addr_get_len (a : nl_addr) : Z := Z.of_nat (length (a_addr a)).

Record rtnl_nexthop : Type := mkNexthop {
  rtnh_ifindex : Z;
  rtnh_gateway : option nl_addr;
}.

Record rtnl_route : Type := mkRoute {
  rt_family : Z;
  rt_type : Z;
  rt_table : Z;
  rt_dst : option nl_addr;             (* [None] is the null pointer *)
  rt_nexthops : list rtnl_nexthop;
}.

Definition rtnl_route_get_nnexthops (r : rtnl_route) : Z :=
  Z.of_nat (length (rt_nexthops r)).

Definition rtnl_route_nexthop_n (r : rtnl_route) (n : nat) : option rtnl_nexthop :=
  rt_nexthops r !! n.

(** What libnl and the kernel answer to the client. *)
Record kernel : Type := mkKernel {
  nl_addr2str : nl_addr -> string;
  k_socket_alloc : bool;             (* [nl_socket_alloc()] is not null *)
  k_connect : Z;                     (* result of [nl_connect] *)
  k_link_change : rtnl_link -> Z;    (* result of [rtnl_link_change] *)
}.

Record Listener : Type := mkListener {
  link_cache : option (gmap Z rtnl_link);   (* by interface index; null before [start] *)
  observer : option observer_t;             (* [None] is [Py_None] *)
  exc_typ : option PyObject;
  exc_val : option PyObject;
  exc_tb : option PyObject;
}.

Definition with_exc (t v tb : option PyObject) (l : Listener) : Listener :=
  mkListener (link_cache l) (observer l) t v tb.

Definition with_link_cache (c : gmap Z rtnl_link) (l : Listener) : Listener :=
  mkListener (Some c) (observer l) (exc_typ l) (exc_val l) (exc_tb l).

Definition observe_route_change (K : kernel) (act : Z) (route : rtnl_route)
    (s : Listener * world) : Listener * world :=
  let '(l, w) := s in
  match exc_typ l, observer l with
  | Some _, _ => (l, w)
  | None, None => (l, w)
  | None, Some obs =>
      let cdst :=
        match rt_dst route with
        | None => "default"%string
        | Some dst =>
            if nl_addr_get_len dst =? 0 then "default"%string
            else nl_addr2str K dst
        end in
      let nnexthops := rtnl_route_get_nnexthops route in
      let ifindex :=
        if nnexthops >? 0 then
          match rtnl_route_nexthop_n route 0 with
          | Some nh => rtnh_ifindex nh
          | None => -1
          end
        else -1 in
      let data :=
        [ ("family"%string, PyLong (rt_family route));
          ("type"%string, PyLong (rt_type route));
          ("table"%string, PyLong (rt_table route));
          ("dst"%string, PyBytes (lit cdst));
          ("ifindex"%string, PyLong ifindex) ] in
      let w := PyObject_CallMethod obs "route_change"
                 [PyUnicode (act2str act); PyDict data] w in
      (* exit: *)
      if PyErr_Occurred w then
        let '(t, v, tb, w) := PyErr_Fetch w in (with_exc t v tb l, w)
      else (l, w)
  end.

Definition maybe_restore (s : Listener * world)
  : option PyObject * (Listener * world) :=
  let '(l, w) := s in
  match exc_typ l with
  | Some _ =>
      let w := PyErr_Restore (exc_typ l) (exc_val l) (exc_tb l) w in
      (None, (with_exc None None None l, w))
  | None => (Some PyNone, (l, w))
  end.

(** [int] to [unsigned int]. *)
Definition u32_of_int (v : Z) : Z := v mod 2 ^ 32.

Definition rtnl_link_set_flags (link : rtnl_link) (flags : Z) : rtnl_link :=
  mkLink (l_index link) (Z.lor (l_flags link) flags)
         (Z.lor (l_flag_mask link) flags)
         (l_arptype link) (l_family link) (l_name link).

Definition rtnl_link_unset_flags (link : rtnl_link) (flags : Z) : rtnl_link :=
  mkLink (l_index link) (Z.ldiff (l_flags link) flags)
         (Z.lor (l_flag_mask link) flags)
         (l_arptype link) (l_family link) (l_name link).

(** The common text of [listener_set_link_flags] and
    [listener_unset_link_flags], which differ in the one libnl call
    [change].  [rtnl_link_get] hands out the cached object itself, so the
    flags are changed in the cache. *)
Definition change_link_flags (change : rtnl_link -> Z -> rtnl_link)
    (K : kernel) (ifindex flags : Z) (s : Listener * world)
  : outcome (option PyObject * (Listener * world)) :=
  let '(l, w) := s in
  match link_cache l with
  | None => Fault NullDeref   (* [rtnl_link_get] reads [cache->c_ops] *)
  | Some cache =>
      match cache !! ifindex with
      | None =>
          Ret (None, (l, PyErr_SetString PyExc_RuntimeError "link not found" w))
      | Some link =>
          let w := log_io [SocketAlloc] w in
          if negb (k_socket_alloc K) then
            Ret (None, (l, PyErr_SetString PyExc_MemoryError
                             "nl_socket_alloc() failed" w))
          else
            let w := log_io [SocketConnect] w in
            let r := k_connect K in
            if r <? 0 then
              Ret (None, (l, log_io [SocketFree]
                               (PyErr_Format PyExc_RuntimeError
                                  "nl_connect failed " r w)))
            else
              let link := change link (u32_of_int flags) in
              let l := with_link_cache (<[ifindex := link]> cache) l in
              let w := log_io [SocketSend (LINK_CHANGE ifindex (l_flags link)
                                             (l_flag_mask link))] w in
              let r := k_link_change K link in
              let w := log_io [SocketFree] w in
              if r <? 0 then
                Ret (None, (l, PyErr_Format PyExc_RuntimeError
                                 "rtnl_link_change failed " r w))
              else Ret (Some PyNone, (l, w))
      end
  end.

Definition listener_set_link_flags := change_link_flags rtnl_link_set_flags.
Definition listener_unset_link_flags := change_link_flags rtnl_link_unset_flags.

(** ** The rest of the listener *)

Record rtnl_addr : Type := mkRtAddr {
  ra_ifindex : Z;
  ra_flags : Z;
  ra_family : Z;
  ra_scope : Z;
  ra_local : option nl_addr;   (* [None] is the null pointer *)
}.

(** The dictionary [observe_link_change] builds. *)
Definition link_change_data (link : rtnl_link) : list (string * PyObject) :=
  let data :=
    [ ("ifindex"%string, PyLong (l_index link));
      ("flags"%string, PyLong (l_flags link));
      ("arptype"%string, PyLong (l_arptype link));
      ("family"%string, PyLong (l_family link)) ] in
  match l_name link with
  | Some name => PyDict_SetItemString data "name" (PyBytes (lit name))
  | None => data
  end.

Definition observe_link_change (act : Z) (link : rtnl_link)
    (s : Listener * world) : Listener * world :=
  let '(l, w) := s in
  match exc_typ l, observer l with
  | Some _, _ => (l, w)
  | None, None => (l, w)
  | None, Some obs =>
      let data := link_change_data link in
      let w := PyObject_CallMethod obs "link_change"
                 [PyUnicode (act2str act); PyDict data] w in
      (* exit: *)
      if PyErr_Occurred w then
        let '(t, v, tb, w) := PyErr_Fetch w in (with_exc t v tb l, w)
      else (l, w)
  end.

(** The dictionary [observe_addr_change] builds. *)
Definition addr_change_data (K : kernel) (addr : rtnl_addr)
  : list (string * PyObject) :=
  let data :=
    [ ("ifindex"%string, PyLong (ra_ifindex addr));
      ("flags"%string, PyLong (ra_flags addr));
      ("family"%string, PyLong (ra_family addr));
      ("scope"%string, PyLong (ra_scope addr)) ] in
  match ra_local addr with
  | Some local => PyDict_SetItemString data "local" (PyBytes (lit (nl_addr2str K local)))
  | None => data
  end.

Definition observe_addr_change (K : kernel) (act : Z) (addr : rtnl_addr)
    (s : Listener * world) : Listener * world :=
  let '(l, w) := s in
  match exc_typ l, observer l with
  | Some _, _ => (l, w)
  | None, None => (l, w)
  | None, Some obs =>
      let data := addr_change_data K addr in
      let w := PyObject_CallMethod obs "addr_change"
                 [PyUnicode (act2str act); PyDict data] w in
      (* exit: *)
      if PyErr_Occurred w then
        let '(t, v, tb, w) := PyErr_Fetch w in (with_exc t v tb l, w)
      else (l, w)
  end.

(** An object of one of the three caches. *)
Inductive nl_object : Type :=
| ObjLink (link : rtnl_link)
| ObjAddr (addr : rtnl_addr)
| ObjRoute (route : rtnl_route).

(** The change callbacks [_cb_link], [_cb_addr], [_cb_route], each on the
    objects of the cache it is registered for. *)
Definition _cb (K : kernel) (ob : nl_object) (act : Z) (s : Listener * world)
  : Listener * world :=
  match ob with
  | ObjLink link => observe_link_change act link s
  | ObjAddr addr => observe_addr_change K act addr s
  | ObjRoute route => observe_route_change K act route s
  end.

(** The replay callbacks [_e_link], [_e_addr], [_e_route]. *)
Definition _e (K : kernel) (ob : nl_object) (s : Listener * world)
  : Listener * world :=
  _cb K ob NL_ACT_NEW s.

(** libnl's [nl_cache_foreach]: the callback on every object, in the order
    of the cache. *)
Definition nl_cache_foreach (K : kernel) (objs : list nl_object)
    (s : Listener * world) : Listener * world :=
  foldl (fun s ob => _e K ob s) s objs.

(** What libnl answers while [listener_start] sets the caches up: the result
    of each call, and the objects the kernel has when the caches are filled. *)
Record boot : Type := mkBoot {
  b_link_alloc : Z;           (* result of [rtnl_link_alloc_cache] *)
  b_links : list rtnl_link;
  b_link_add : Z;             (* result of [nl_cache_mngr_add_cache] *)
  b_addr_alloc : Z;           (* result of [rtnl_addr_alloc_cache] *)
  b_addrs : list rtnl_addr;
  b_addr_add : Z;
  b_route_alloc : Z;          (* result of [rtnl_route_alloc_cache] *)
  b_routes : list rtnl_route;
  b_route_add : Z;
}.

Definition with_no_link_cache (l : Listener) : Listener :=
  mkListener None (observer l) (exc_typ l) (exc_val l) (exc_tb l).

(** The link cache that holds [links]. *)
Definition link_cache_of (links : list rtnl_link) : gmap Z rtnl_link :=
  list_to_map ((fun link => (l_index link, link)) <$> links).

Definition listener_start (K : kernel) (B : boot) (s : Listener * world)
  : option PyObject * (Listener * world) :=
  let '(l, w) := s in
  let r := b_link_alloc B in
  if r <? 0 then
    (None, (l, PyErr_Format_nl PyExc_MemoryError "rtnl_link_alloc_cache failed " r w))
  else
    let l := with_link_cache (link_cache_of (b_links B)) l in
    let r := b_link_add B in
    if r <? 0 then
      (None, (with_no_link_cache l,
              PyErr_Format_nl PyExc_RuntimeError "nl_cache_mngr_add_cache failed " r w))
    else
      let r := b_addr_alloc B in
      if r <? 0 then
        (None, (l, PyErr_Format_nl PyExc_MemoryError "rtnl_link_alloc_cache failed " r w))
      else
        let r := b_addr_add B in
        if r <? 0 then
          (None, (l, PyErr_Format_nl PyExc_RuntimeError
                       "nl_cache_mngr_add_cache failed " r w))
        else
          let r := b_route_alloc B in
          if r <? 0 then
            (None, (l, PyErr_Format_nl PyExc_MemoryError
                         "rtnl_route_alloc_cache failed " r w))
          else
            let r := b_route_add B in
            if r <? 0 then
              (None, (l, PyErr_Format_nl PyExc_RuntimeError
                           "nl_cache_mngr_add_cache failed " r w))
            else
              let s := nl_cache_foreach K (ObjLink <$> b_links B) (l, w) in
              let s := nl_cache_foreach K (ObjAddr <$> b_addrs B) s in
              let s := nl_cache_foreach K (ObjRoute <$> b_routes B) s in
              maybe_restore s.

(** [listener_data_ready]: libnl's [nl_cache_mngr_data_ready] brings the
    caches up to date, the link cache to [links], and calls the change
    callback for every change it read, in order. *)
Definition listener_data_ready (K : kernel) (links : gmap Z rtnl_link)
    (changes : list (nl_object * Z)) (s : Listener * world)
  : option PyObject * (Listener * world) :=
  let '(l, w) := s in
  let l := match link_cache l with
           | Some _ => with_link_cache links l
           | None => l
           end in
  maybe_restore (foldl (fun s ch => _cb K ch.1 ch.2 s) (l, w) changes).

(** ** Vocabulary of the properties *)

(** The fault slot read as one exception; [None] when it is empty. *)
Definition fault_slot (l : Listener) : option PyErr :=
  t ← exc_typ l; Some (mkPyErr t (exc_val l) (exc_tb l)).

(** The invariant of fault containment, as for the Wi-Fi listener. *)
Definition contained (w0 : world) (s : Listener * world) : Prop :=
  exists new, calls s.2 = calls w0 ++ new /\
    (Forall no_raise new \/
     exists pre c e, new = pre ++ [c] /\ Forall no_raise pre /\
                     c_raised c = Some e /\ fault_slot s.1 = Some e).

(** The dictionary [observe_route_change] builds. *)
Definition route_change_data (K : kernel) (route : rtnl_route)
  : list (string * PyObject) :=
  [ ("family"%string, PyLong (rt_family route));
    ("type"%string, PyLong (rt_type route));
    ("table"%string, PyLong (rt_table route));
    ("dst"%string,
     PyBytes (lit match rt_dst route with
                  | None => "default"%string
                  | Some dst =>
                      if nl_addr_get_len dst =? 0 then "default"%string
                      else nl_addr2str K dst
                  end));
    ("ifindex"%string,
     PyLong match rt_nexthops route with
            | nh :: _ => rtnh_ifindex nh
            | [] => -1
            end) ].

(** The invocation that reports [ob] with the action [act], for an observer
    that does not raise. *)
Definition report (K : kernel) (act : Z) (ob : nl_object) : call :=
  match ob with
  | ObjLink link =>
      mkCall "link_change" [PyUnicode (act2str act); PyDict (link_change_data link)] None
  | ObjAddr addr =>
      mkCall "addr_change" [PyUnicode (act2str act); PyDict (addr_change_data K addr)] None
  | ObjRoute route =>
      mkCall "route_change" [PyUnicode (act2str act); PyDict (route_change_data K route)]
             None
  end.

(** ** Inputs to evaluate the code on *)

Definition kernel_ok : kernel :=
  mkKernel (fun _ => "192.0.2.0/24"%string) true 0 (fun _ => 0).

(** A default route over two next hops, on interfaces 3 and 4. *)
Definition multipath_default : rtnl_route :=
  mkRoute 2 1 254 (Some (mkAddr 2 0 []))
          [mkNexthop 3 None; mkNexthop 4 None].

Definition quiet_observer : observer_t := fun _ _ _ => None.

(** A started listener whose link cache holds the loopback device only. *)
Definition started : Listener :=
  mkListener (Some {[ 1 := mkLink 1 73 0 772 0 (Some "lo"%string) ]})
             (Some quiet_observer) None None None.

Definition world0 : world := mkWorld None [] [].

(** A machine with the loopback device, its address and a default route. *)
Definition boot_ok : boot :=
  mkBoot 0 [mkLink 1 73 0 772 0 (Some "lo"%string)] 0
         0 [mkRtAddr 1 128 2 254 (Some (mkAddr 2 8 [x7f; x00; x00; x01]))] 0
         0 [multipath_default] 0.

Definition constructed : Listener :=
  mkListener None (Some quiet_observer) None None None.

(** The loopback device, as [started] and [boot_ok] have it. *)
Definition loopback : rtnl_link := mkLink 1 73 0 772 0 (Some "lo"%string).

(** A machine on which [rtnl_link_alloc_cache] fails. *)
Definition boot_without_links : boot := mkBoot (-5) [] 0 0 [] 0 0 [] 0.

(** [kernel_ok] refusing every link change with [-ENODEV]. *)
Definition kernel_refusing_change : kernel :=
  mkKernel (nl_addr2str kernel_ok) true 0 (fun _ => -19).

End Rtnetlink.

(** * Properties *)

(** ** Bytes, chars and outcomes *)

Lemma byte_val_range b : 0 <= byte_val b < 256.
Proof. unfold byte_val. pose proof (Byte.to_N_bounded b). lia. Qed.

Lemma byte_val_inj a b : byte_val a = byte_val b -> a = b.
Proof.
  unfold byte_val. intros H. apply N2Z.inj in H.
  assert (Byte.of_N (Byte.to_N a) = Byte.of_N (Byte.to_N b)) as E by (by rewrite H).
  rewrite !Byte.of_to_N in E. congruence.
Qed.

Lemma byte_val_zero b : byte_val b = 0 <-> b = x00.
Proof. split; [intros H; by apply byte_val_inj | by intros ->]. Qed.

Lemma char_val_unsigned P b : char_signed P = false -> 0 <= char_val P b < 256.
Proof. intros H. unfold char_val. rewrite H. apply byte_val_range. Qed.

Lemma obind_ret {A B} (m : outcome A) (k : A -> outcome B) b :
  m ≫= k = Ret b -> exists a, m = Ret a /\ k a = Ret b.
Proof. destruct m; cbn; intros; try discriminate. eauto. Qed.

Lemma read_char_not_hang P buf i : read_char P buf i <> Hang.
Proof. unfold read_char. repeat case_match; discriminate. Qed.

Lemma read_char_ret P buf i v :
  read_char P buf i = Ret v ->
  0 <= i < Z.of_nat (length buf) /\
  exists b, buf !! Z.to_nat i = Some b /\ v = char_val P b.
Proof.
  unfold read_char. case_match; [|discriminate].
  destruct (buf !! Z.to_nat i) eqn:E; [|discriminate].
  intros [= <-]. apply lookup_lt_Some in E. split; [lia|eauto].
Qed.

Lemma read_char_in P buf i :
  0 <= i < Z.of_nat (length buf) ->
  exists b, buf !! Z.to_nat i = Some b /\ read_char P buf i = Ret (char_val P b).
Proof.
  intros Hi. unfold read_char. rewrite (proj2 (Z.leb_le 0 i)) by lia.
  destruct (buf !! Z.to_nat i) as [b|] eqn:E; [eauto|].
  apply lookup_ge_None in E. lia.
Qed.

(** ** The information-element scan *)

Module IEFacts.
Import IE.

Lemma body_not_hang P ies ie pos : body P ies ie pos <> Hang.
Proof.
  unfold body. case_match; [|discriminate].
  destruct (read_char P ies (pos + 1)) eqn:E1; cbn; try discriminate.
  - case_match; [discriminate|].
    destruct (read_char P ies pos) eqn:E2; cbn; try discriminate.
    + case_match; discriminate.
    + by apply read_char_not_hang in E2.
  - by apply read_char_not_hang in E1.
Qed.

(** A round goes on only from a position inside the buffer, and by
    [2 + pos[1]]. *)
Lemma body_go P ies ie pos pos' :
  body P ies ie pos = Ret (Go pos') ->
  0 <= pos < Z.of_nat (length ies) - 1 /\
  exists len, read_char P ies (pos + 1) = Ret len /\ pos' = pos + 2 + len
              /\ pos + 2 + len <= Z.of_nat (length ies).
Proof.
  unfold body. case_match eqn:E0; [|discriminate].
  intros (len & E1 & H)%obind_ret.
  case_match eqn:E2; [discriminate|].
  apply obind_ret in H as (id & E3 & H).
  case_match; [discriminate|]. injection H as <-.
  apply read_char_ret in E3 as [? _].
  split; [lia|]. exists len. repeat split; [done|lia].
Qed.

Lemma loop_S fuel P ies ie pos :
  loop (S fuel) P ies ie pos =
  body P ies ie pos ≫= fun c =>
    match c with Stop r => Ret r | Go pos' => loop fuel P ies ie pos' end.
Proof. done. Qed.

Lemma loop_hang_steps n P ies ie pos :
  loop n P ies ie pos = Hang <-> is_Some (steps n P ies ie pos).
Proof.
  revert pos. induction n as [|n IH]; intros pos; cbn.
  - split; eauto.
  - destruct (body P ies ie pos) as [[r|pos']| |] eqn:E; cbn.
    + split; [discriminate|by intros [? ?]].
    + apply IH.
    + split; [discriminate|by intros [? ?]].
    + by apply body_not_hang in E.
Qed.

Lemma steps_add n m P ies ie pos :
  steps (n + m) P ies ie pos = steps n P ies ie pos ≫= steps m P ies ie.
Proof.
  revert pos. induction n as [|n IH]; intros pos; cbn; [done|].
  destruct (body P ies ie pos) as [[r|pos']| |]; cbn; auto.
Qed.

Lemma steps_prefix n m P ies ie pos :
  (n <= m)%nat -> is_Some (steps m P ies ie pos) -> is_Some (steps n P ies ie pos).
Proof.
  intros Hle. replace m with (n + (m - n))%nat by lia. rewrite steps_add.
  destruct (steps n P ies ie pos); cbn; [eauto|by intros [? ?]].
Qed.

Lemma steps_bound n P ies ie pos q :
  steps n P ies ie pos = Some q -> is_Some (steps (S n) P ies ie pos) ->
  0 <= q < Z.of_nat (length ies) - 1.
Proof.
  intros Hq. replace (S n) with (n + 1)%nat by lia. rewrite steps_add, Hq. cbn.
  destruct (body P ies ie q) as [[r|pos']| |] eqn:E; try by intros [? ?].
  intros _. by apply body_go in E as [? _].
Qed.

Lemma steps_cycle d P ies ie q :
  (0 < d)%nat -> steps d P ies ie q = Some q ->
  forall n, is_Some (steps n P ies ie q).
Proof.
  intros Hd Hc n. induction (lt_wf n) as [n _ IH].
  destruct (decide (n < d)%nat) as [Hlt|Hge].
  - apply steps_prefix with d; [lia|eauto].
  - replace n with (d + (n - d))%nat by lia. rewrite steps_add, Hc. cbn.
    apply IH. lia.
Qed.

(** A scan that is still in its loop after one round more than the buffer
    has bytes has been at some position twice, so it stays in the loop
    whatever the number of rounds. *)
Lemma loop_exhausted P ies ie :
  loop (S (length ies)) P ies ie 0 = Hang -> forall n, loop n P ies ie 0 = Hang.
Proof.
  intros H n. apply loop_hang_steps. apply loop_hang_steps in H.
  set (f i := match steps i P ies ie 0 with Some q => Z.to_nat q | None => O end).
  assert (forall i, (i < S (length ies))%nat ->
            exists q, steps i P ies ie 0 = Some q
                      /\ 0 <= q < Z.of_nat (length ies) - 1) as Hb.
  { intros i Hi.
    destruct (steps_prefix i (S (length ies)) P ies ie 0) as [q Hq]; [lia|done|].
    exists q. split; [done|]. eapply steps_bound; [done|].
    apply steps_prefix with (S (length ies)); [lia|done]. }
  destruct (nat_pigeonhole f (S (length ies)) (length ies)) as (i1 & i2 & Hi & Hf).
  { lia. }
  { intros i Hi. unfold f. destruct (Hb i Hi) as (q & -> & ?). lia. }
  unfold f in Hf.
  destruct (Hb i1) as (q1 & E1 & ?); [lia|].
  destruct (Hb i2) as (q2 & E2 & ?); [lia|].
  rewrite E1, E2 in Hf. assert (q1 = q2) as <- by lia.
  assert (steps (i2 - i1) P ies ie q1 = Some q1) as Hc.
  { replace i2 with (i1 + (i2 - i1))%nat in E2 by lia.
    by rewrite steps_add, E1 in E2. }
  apply steps_prefix with (i1 + n)%nat; [lia|].
  rewrite steps_add, E1. cbn. apply steps_cycle with (i2 - i1)%nat; [lia|done].
Qed.

(** With an unsigned [char] every round moves at least two bytes forward
    and stays inside the buffer. *)
Lemma loop_unsigned P ies ie :
  char_signed P = false ->
  forall fuel pos,
    0 <= pos -> Z.of_nat (length ies) < Z.of_nat fuel + pos -> (0 < fuel)%nat ->
    exists r, loop fuel P ies ie pos = Ret r /\
      forall p, r = Some p ->
        pos <= p /\ exists len, read_char P ies (p + 1) = Ret len /\ 0 <= len
                  /\ p + 2 + len <= Z.of_nat (length ies)
                  /\ read_char P ies p = Ret ie.
Proof.
  intros Hu. induction fuel as [|fuel IH]; intros pos Hpos Hfuel Hpos'; [lia|].
  rewrite loop_S. unfold body.
  destruct (pos + 1 <? Z.of_nat (length ies)) eqn:E0; [|eexists; split; [done|done]].
  apply Z.ltb_lt in E0.
  destruct (read_char_in P ies (pos + 1)) as (b & Eb & ->); [lia|].
  pose proof (char_val_unsigned P b Hu) as Hlen. cbn [mbind outcome_bind obind].
  destruct (pos + 2 + char_val P b >? Z.of_nat (length ies)) eqn:E1;
    [eexists; split; [done|done]|].
  assert (pos + 2 + char_val P b <= Z.of_nat (length ies)) as Hin by lia.
  destruct (read_char_in P ies pos) as (b0 & Eb0 & Hr0); [lia|]. rewrite Hr0.
  cbn [mbind outcome_bind obind].
  destruct (char_val P b0 =? ie) eqn:E2; cbn [mbind outcome_bind obind].
  - eexists; split; [done|]. intros p [= <-]. split; [lia|].
    exists (char_val P b). apply Z.eqb_eq in E2.
    destruct (read_char_in P ies (pos + 1)) as (b' & Eb' & ->); [lia|].
    rewrite Hr0, E2. repeat split; try lia; congruence.
  - destruct (IH (pos + 2 + char_val P b)) as (r & Hr & Hs); [lia|lia|lia|].
    exists r. split; [done|]. intros p Hp. destruct (Hs p Hp) as [? ?].
    split; [lia|done].
Qed.

End IEFacts.

(** [Hang] is the right reading of a scan that uses up its rounds: the C
    loop does not end then. *)
Lemma nl80211_get_ie_hang P ies ie :
  nl80211_get_ie P (Some ies) ie = Hang ->
  forall rounds, IE.loop rounds P ies ie 0 = Hang.
Proof. apply IEFacts.loop_exhausted. Qed.

(** Where plain [char] is unsigned the scan of any buffer ends, reads inside
    the buffer only, and what it returns is an element with the wanted id
    whose payload lies inside the buffer. *)
Lemma nl80211_get_ie_unsigned P ies ie :
  char_signed P = false ->
  exists r, nl80211_get_ie P (Some ies) ie = Ret r /\
    forall p, r = Some p ->
      0 <= p /\ exists len, read_char P ies (p + 1) = Ret len /\ 0 <= len
                /\ p + 2 + len <= Z.of_nat (length ies)
                /\ read_char P ies p = Ret ie.
Proof.
  intros Hu. apply (IEFacts.loop_unsigned P ies ie Hu (S (length ies)) 0); lia.
Qed.

(** C3 (defect of the code).  The claim holds where plain [char] is unsigned
    ([nl80211_get_ie_unsigned]).  Where it is signed, as on x86, the length
    byte is read as a negative number from 0x80 on: on the buffer [01 FE]
    the scan advances by [2 + (-2) = 0] and never leaves its loop, and on
    [01 80] it steps back by 126 bytes and reads before the buffer. *)
Theorem nl80211_get_ie_signed_length_byte P :
  char_signed P = true ->
  (forall rounds, IE.loop rounds P [x01; xfe] 0 0 = Hang) /\
  nl80211_get_ie P (Some [x01; xfe]) 0 = Hang /\
  nl80211_get_ie P (Some [x01; x80]) 0 = Fault OutOfBounds.
Proof.
  destruct P as [[] amax bmax cmax py]; [intros _|discriminate].
  split; [|split; reflexivity].
  induction rounds as [|rounds IH]; [done|].
  rewrite IEFacts.loop_S.
  change (IE.body (mkPlatform true amax bmax cmax py) [x01; xfe] 0 0) with (Ret (IE.Go 0)).
  exact IH.
Qed.

Lemma nl80211_get_ie_signed_length_byte_x86_64 :
  char_signed x86_64 = true /\
  (forall rounds, IE.loop rounds x86_64 [x01; xfe] 0 0 = Hang) /\
  nl80211_get_ie x86_64 (Some [x01; xfe]) 0 = Hang /\
  nl80211_get_ie x86_64 (Some [x01; x80]) 0 = Fault OutOfBounds.
Proof.
  split; [reflexivity|].
  apply (nl80211_get_ie_signed_length_byte x86_64). reflexivity.
Defined.

(** ** libnl's receive loop *)

Section ReceiveLoop.
Context {S : Type} (f : Z -> Z) (cb : nl_cb S) (I : S -> Prop).
Hypothesis Hvalid : forall h cmd attrs s r s',
  cb_valid cb = Some h -> h cmd attrs s = Ret (r, s') -> I s -> I s'.
Hypothesis Hfinish : forall s, I s -> I (cb_finish cb s).2.
Hypothesis Hack : forall s, I s -> I (cb_ack cb s).2.
Hypothesis Herr : forall e s, I s -> I (cb_err cb e s).2.

(** What every callback keeps, the receive loop keeps. *)
Lemma recv_msg_inv m mp s c mp' s' :
  recv_msg f cb m mp s = Ret (c, mp', s') -> I s -> I s'.
Proof using Hvalid Hfinish Hack Herr.
  unfold recv_msg. intros H Hs. destruct (nlm_body m) as [|e|cmd attrs].
  - specialize (Hfinish s Hs). destruct (cb_finish cb s). by injection H as <- <- <-.
  - destruct (e =? 0).
    + specialize (Hack s Hs). destruct (cb_ack cb s). by injection H as <- <- <-.
    + specialize (Herr e s Hs). destruct (cb_err cb e s).
      repeat case_match; by injection H as <- <- <-.
  - destruct (cb_valid cb) as [h|] eqn:Eh.
    + apply obind_ret in H as ([r s1] & E & H). injection H as <- <- <-. eauto.
    + by injection H as <- <- <-.
Qed.

Lemma recv_datagram_inv msgs mp s c mp' s' :
  recv_datagram f cb msgs mp s = Ret (c, mp', s') -> I s -> I s'.
Proof using Hvalid Hfinish Hack Herr.
  revert mp s. induction msgs as [|m rest IH]; intros mp s; cbn.
  - by intros [= <- <- <-].
  - intros ([[c1 mp1] s1] & E & H)%obind_ret Hs.
    apply recv_msg_inv in E; [|done].
    destruct c1; [by eapply IH| |]; by injection H as <- <- <-.
Qed.

Lemma nl_recvmsgs_from_inv blocking queue mp s res queue' s' :
  nl_recvmsgs_from f blocking cb queue mp s = Ret (res, queue', s') -> I s -> I s'.
Proof using Hvalid Hfinish Hack Herr.
  revert mp s. induction queue as [|d q IH]; intros mp s; cbn.
  - destruct blocking; [discriminate|]. by intros [= <- <- <-].
  - intros ([[c1 mp1] s1] & E & H)%obind_ret Hs.
    apply recv_datagram_inv in E; [|done].
    destruct c1; [destruct mp1; [by eapply IH|]| |]; by injection H as <- <- <-.
Qed.

End ReceiveLoop.

Section ReceiveLoopReturns.
Context {S : Type} (f : Z -> Z) (cb : nl_cb S).

(** A call on a blocking socket that returns has taken a datagram. *)
Lemma nl_recvmsgs_from_shorter queue mp s res queue' s' :
  nl_recvmsgs_from f true cb queue mp s = Ret (res, queue', s') ->
  (length queue' < length queue)%nat.
Proof.
  revert mp s. induction queue as [|d q IH]; intros mp s; cbn; [discriminate|].
  intros ([[c1 mp1] s1] & E & H)%obind_ret.
  destruct c1; [destruct mp1; [apply IH in H; lia|]| |];
    injection H as <- <- <-; lia.
Qed.

Lemma recv_msg_returns m mp s : handled cb m -> returns (recv_msg f cb m mp s).
Proof.
  unfold handled, recv_msg, returns. intros H.
  destruct (nlm_body m) as [|e|cmd attrs].
  - destruct (cb_finish cb s). eauto.
  - destruct (e =? 0); [destruct (cb_ack cb s); eauto|].
    destruct (cb_err cb e s). repeat case_match; eauto.
  - destruct (cb_valid cb) as [h|]; [|eauto].
    destruct (H s) as [[r s'] ->]. cbn. eauto.
Qed.

Lemma recv_datagram_returns msgs mp s :
  Forall (handled cb) msgs -> returns (recv_datagram f cb msgs mp s).
Proof.
  intros H. revert mp s. induction H as [|m rest Hm _ IH]; intros mp s; cbn.
  - unfold returns; eauto.
  - destruct (recv_msg_returns m mp s Hm) as [[[c mp'] s'] ->]. cbn.
    destruct c; [apply IH| |]; unfold returns; eauto.
Qed.

(** On a non-blocking socket the receive loop returns when the callbacks do. *)
Lemma nl_recvmsgs_nonblocking_returns queue mp s :
  Forall (Forall (handled cb)) queue ->
  returns (nl_recvmsgs_from f false cb queue mp s).
Proof.
  intros H. revert mp s. induction H as [|d q Hd _ IH]; intros mp s; cbn.
  - unfold returns; eauto.
  - destruct (recv_datagram_returns d mp s Hd) as [[[c mp'] s'] ->]. cbn.
    destruct c; [destruct mp'; [apply IH|]| |]; unfold returns; eauto.
Qed.

End ReceiveLoopReturns.

(** ** Attributes *)

Lemma nla_parse_into_policy tb maxtype attrs policy r tb' :
  (forall t a, tb !! t = Some a -> policy t <= nla_len a) ->
  nla_parse_into tb maxtype attrs policy = (r, tb') ->
  forall t a, tb' !! t = Some a -> policy t <= nla_len a.
Proof.
  revert tb. induction attrs as [|[ty a0] rest IH]; intros tb Htb; cbn.
  - by intros [= <- <-].
  - destruct ((ty <? 0) || (maxtype <? ty)); [by apply IH|].
    destruct (nla_len a0 <? policy ty) eqn:E; [by intros [= <- <-]|].
    apply IH. intros t a. rewrite lookup_insert. case_decide; [|by apply Htb].
    intros [= <-]. subst t. lia.
Qed.

(** Every attribute in a parsed table is as long as the policy asks. *)
Lemma nla_parse_policy maxtype attrs policy r tb t a :
  nla_parse maxtype attrs policy = (r, tb) -> tb !! t = Some a ->
  policy t <= nla_len a.
Proof.
  intros H. eapply nla_parse_into_policy; [|exact H].
  intros t' a'. by rewrite lookup_empty.
Qed.

Lemma nla_get_u32_long a : 4 <= nla_len a -> exists v, nla_get_u32 a = Ret v.
Proof.
  unfold nla_len, nla_get_u32, load_u32.
  destruct (nla_data a) as [|b0 [|b1 [|b2 [|b3 rest]]]]; cbn; try lia. eauto.
Qed.

Lemma nla_len_length a : Z.to_nat (nla_len a) = length (nla_data a).
Proof. unfold nla_len. lia. Qed.

(** ** [strncmp] over an attribute's length *)

Lemma strncmp_zero s1 s2 :
  x00 ∉ s2 -> strncmp s1 s2 (length s1) = 0 <-> name_is s1 s2.
Proof.
  unfold name_is. revert s2. induction s1 as [|a s1 IH]; intros s2 Hs2; cbn.
  - split; [|done]. intros _. right. split; [apply not_elem_of_nil|apply prefix_nil].
  - destruct s2 as [|b s2]; cbn.
    + change (byte_val x00) with 0.
      destruct (byte_val a =? 0) eqn:Ea.
      * split; [by left|done].
      * apply Z.eqb_neq in Ea. split; [lia|].
        intros [?|[_ Hp]]; [done|]. by apply prefix_nil_not in Hp.
    + apply not_elem_of_cons in Hs2 as [Hb Hs2].
      destruct (byte_val a =? byte_val b) eqn:Eab.
      * apply Z.eqb_eq, byte_val_inj in Eab. subst b.
        assert ((byte_val a =? 0) = false) as ->.
        { apply Z.eqb_neq. intros ?%byte_val_zero. congruence. }
        rewrite IH by done. split.
        -- intros [->|[Hn Hp]]; [by left|right]. split.
           ++ apply not_elem_of_cons. split; [congruence|done].
           ++ by apply prefix_cons.
        -- intros [[= ->]|[Hn Hp]]; [by left|right].
           apply not_elem_of_cons in Hn as [_ Hn]. split; [done|].
           by apply prefix_cons_inv_2 in Hp.
      * apply Z.eqb_neq in Eab. split; [lia|].
        assert (a <> b) by congruence.
        intros [Hu|[Hn Hp]].
        -- destruct (byte_val a =? 0); congruence.
        -- by apply prefix_cons_inv_1 in Hp.
Qed.

Lemma lit_scan_no_nul : x00 ∉ lit "scan".
Proof.
  vm_compute. intros H.
  repeat (apply elem_of_cons in H as [H|H]; [discriminate|]).
  by apply elem_of_nil in H.
Qed.

Lemma lit_mlme_no_nul : x00 ∉ lit "mlme".
Proof.
  vm_compute. intros H.
  repeat (apply elem_of_cons in H as [H|H]; [discriminate|]).
  by apply elem_of_nil in H.
Qed.

(** ** The Wi-Fi listener *)

Module WifiFacts.
Import Nl80211.

Section RequestLoop.
Context {W : Type} (K : kernel)
        (vh : option (Z -> list (Z * nlattr) -> W -> outcome (Z * W)))
        (J : W -> Prop).
Hypothesis Hvh : forall h cmd attrs w r w',
  vh = Some h -> h cmd attrs w = Ret (r, w') -> J w -> J w'.

Lemma recv_while_inv fuel reply s s' :
  recv_while fuel K (request_cb vh) reply s = Ret s' -> J s.2 -> J s'.2.
Proof using Hvh.
  revert reply s. induction fuel as [|fuel IH]; intros reply s; cbn.
  - destruct (s.1 >? 0); [discriminate|]. by intros [= <-].
  - destruct (s.1 >? 0); [|by intros [= <-]].
    intros ([[res reply'] s1] & E & H)%obind_ret Hs.
    apply IH in H; [done|].
    assert (J s1.2) as Hs1.
    { eapply (nl_recvmsgs_from_inv _ (request_cb vh) (fun s => J s.2));
        [| | | |exact E|done].
      - intros h cmd attrs [e w] r [e' w']. cbn.
        destruct vh as [h0|] eqn:Ev; cbn; [|discriminate].
        intros [= <-] ([r1 w1] & E1 & [= <- <- <-])%obind_ret. cbn. eauto.
      - by intros [e w].
      - by intros [e w].
      - by intros e0 [e w]. }
    by destruct ((res <? 0) && (s1.1 >? 0)).
Qed.

(** What the caller's handler keeps, [send_and_recv] keeps. *)
Lemma send_and_recv_inv reply w r w' :
  send_and_recv K reply vh w = Ret (r, w') -> J w -> J w'.
Proof using Hvh.
  unfold send_and_recv. destruct (k_send K <? 0); [by intros [= <- <-]|].
  intros H Hw. by apply recv_while_inv in H.
Qed.

End RequestLoop.

(** The rounds [send_and_recv] allows its loop are never used up: any number
    above the datagrams of the reply gives the same result. *)
Lemma recv_while_fuel {W} K n m reply (s : Z * W) cb :
  (length reply < n)%nat -> (length reply < m)%nat ->
  recv_while n K cb reply s = recv_while m K cb reply s.
Proof.
  revert m reply s. induction n as [|n IH]; intros m reply s Hn Hm; [lia|].
  destruct m as [|m]; [lia|]. cbn. destruct (s.1 >? 0); [|done].
  unfold nl_recvmsgs.
  destruct (nl_recvmsgs_from (k_syserr2nlerr K) true cb reply false s)
    as [[[res reply'] s1]| |] eqn:E; cbn; [|done|done].
  apply nl_recvmsgs_from_shorter in E. apply IH; lia.
Qed.

Lemma fault_slot_with_exc e l :
  fault_slot (with_exc (Some (err_type e)) (err_value e) (err_traceback e) l)
  = Some e.
Proof. by destruct e. Qed.

(** [observe_wlan_event] keeps the invariant: it calls the observer only
    with an empty slot, and puts what the call raised into the slot. *)
Lemma observe_wlan_event_contained w0 l ifindex cmd extra w :
  contained w0 (l, w) -> contained w0 (observe_wlan_event l ifindex cmd extra w).2.
Proof.
  intros (new & Hc & Hnew). unfold observe_wlan_event.
  destruct (exc_typ l) as [t|] eqn:Et; [by exists new|].
  destruct (observer l) as [obs|]; [|by exists new].
  set (arg := match extra with Some e => _ | None => _ end).
  cbn in Hc. unfold PyObject_CallMethod, PyErr_Occurred, PyErr_Fetch. cbn.
  set (c := mkCall _ _ _).
  assert (Forall no_raise new) as Hok.
  { destruct Hnew as [|(pre & c' & e & _ & _ & _ & Hs)]; [done|].
    unfold fault_slot in Hs. cbn in Hs. by rewrite Et in Hs. }
  destruct (obs (calls w) "wlan_event"%string [PyDict arg]) as [e|] eqn:Er.
  - rewrite bool_decide_eq_true_2 by eauto. cbn.
    exists (new ++ [c]). split; [by rewrite Hc, app_assoc|].
    right. exists new, c, e. repeat split; [done|apply fault_slot_with_exc].
  - assert (Forall no_raise (new ++ [c])) as Hok'.
    { apply Forall_app. split; [done|]. constructor; [|done]. by subst c. }
    destruct (py_err w) as [e|]; cbn;
      exists (new ++ [c]); (split; [by rewrite Hc, app_assoc|by left]).
Qed.

(** [extract_ssid] calls no observer and opens no socket; when it leaves a
    list there was one before, and the error indicator is as it was. *)
Lemma extract_ssid_inv P data p w p' w' :
  extract_ssid P data (p, w) = Ret (p', w') ->
  calls w' = calls w /\ io w' = io w /\
  (is_Some (ssid_list p') -> is_Some (ssid_list p) /\ py_err w' = py_err w).
Proof.
  unfold extract_ssid.
  destruct (nla_parse_nested _ _ _) as [r bss].
  destruct (negb (r =? 0)); [by intros [= <- <-]|].
  intros ([go_on cstatus] & _ & H)%obind_ret. revert H.
  destruct (negb go_on); [by intros [= <- <-]|].
  intros (ie_len & _ & (ssid & _ & H)%obind_ret)%obind_ret. revert H.
  destruct (nla_data <$> bss !! NL80211_BSS_INFORMATION_ELEMENTS) as [buf|];
    [|discriminate].
  destruct ssid as [pos|]; [|discriminate].
  intros (ssid_len & _ & ([payload w1] & Eb & H)%obind_ret)%obind_ret. revert Eb H.
  unfold Py_BuildValue_y. destruct (negb (hash_length_is_int P)).
  { intros [= <- <-] [= <- <-]. cbn. repeat split; first [done|by intros [? ?]]. }
  destruct (pos + 2 <? 0); [discriminate|].
  assert (forall bs, Ret (Some bs, w) = Ret (payload, w1) ->
            ('(r, items) ← PyList_Append (ssid_list p)
                              (PyTuple [PyBytes bs; PyUnicode cstatus]);
             if (r : Z) <? 0 then Ret (mkParams None (only_connected p), w1)
             else Ret (mkParams (Some items) (only_connected p), w1))
            = Ret (p', w') ->
            calls w' = calls w /\ io w' = io w /\
            (is_Some (ssid_list p') -> is_Some (ssid_list p) /\ py_err w' = py_err w))
    as Happ.
  { intros bs [= <- <-]. destruct (ssid_list p) as [items|]; [|discriminate].
    cbn. intros [= <- <-]. eauto. }
  destruct (ssid_len <? 0).
  - intros (bs & _ & [= <- <-])%obind_ret. by apply Happ.
  - destruct (_ <=? _); [|discriminate]. intros [= <- <-]. by apply Happ.
Qed.

Lemma nl80211_scan_handler_inv P cmd attrs p w r p' w' :
  nl80211_scan_handler P cmd attrs (p, w) = Ret (r, (p', w')) ->
  calls w' = calls w /\ io w' = io w /\
  (is_Some (ssid_list p') -> is_Some (ssid_list p) /\ py_err w' = py_err w).
Proof.
  unfold nl80211_scan_handler. intros (ifidx & _ & H)%obind_ret. revert H.
  destruct (ifidx <? 0); [by intros [= <- <- <-]|].
  intros ([p1 w1] & E & H)%obind_ret.
  assert (p' = p1 /\ w' = w1) as [-> ->]
    by (cbn in H; destruct (ssid_list p1); by injection H as <- <- <-).
  destruct (_ !! NL80211_ATTR_BSS) as [a|].
  - by apply extract_ssid_inv in E.
  - by injection E as <- <-.
Qed.

(** A dump calls no observer; the one socket it allocates it also frees;
    and when it gives a list the error indicator is as it was. *)
Lemma dump_scan_results_inv K P l ifidx oc w r w' :
  dump_scan_results K P l ifidx oc w = Ret (r, w') ->
  calls w' = calls w /\
  released (k_socket_alloc K) (io w) (io w') /\
  (is_Some r -> py_err w' = py_err w).
Proof.
  unfold dump_scan_results, released.
  destruct (k_socket_alloc K); cbn [negb].
  - destruct (k_genl_connect K <? 0).
    + intros [= <- <-]. cbn. split; [done|]. split; [|by intros [? ?]].
      exists [SocketConnect]. rewrite <- !app_assoc.
      split; [done|]. split; by intros ?%list_elem_of_singleton.
    + intros ([e [p w1]] & E & [= <- <-])%obind_ret.
      apply (send_and_recv_inv K (Some (nl80211_scan_handler P))
               (fun s => calls s.2 = calls w /\
                         io s.2 = io w ++ [SocketAlloc; SocketConnect;
                                           SocketSend (GET_SCAN ifidx)] /\
                         (is_Some (ssid_list s.1) -> py_err s.2 = py_err w))) in E.
      * cbn in E. destruct E as (Hc & Hio & He). cbn. rewrite Hio.
        split; [done|]. split.
        -- exists [SocketConnect; SocketSend (GET_SCAN ifidx)].
           rewrite <- !app_assoc. split; [done|].
           split; intros [?|?%list_elem_of_singleton]%elem_of_cons; done.
        -- intros H. apply He. destruct (ssid_list p); [eauto|by destruct H].
      * intros h cmd attrs [p0 w0] r0 [p1 w2] [= <-] Eh (Hc & Hio & He).
        apply nl80211_scan_handler_inv in Eh as (Hc' & Hio' & He'). cbn in *.
        repeat split; [congruence|congruence|].
        intros Hs. destruct (He' Hs) as [Hs0 ->]. by apply He.
      * cbn. repeat split. by rewrite <- !app_assoc.
  - intros [= <- <-]. cbn. split; [done|]. split; [|by intros [? ?]].
    exists []. split; [done|]. split; apply not_elem_of_nil.
Qed.

Lemma dump_scan_results_calls K P l ifidx oc w r w' :
  dump_scan_results K P l ifidx oc w = Ret (r, w') -> calls w' = calls w.
Proof. intros H. by apply dump_scan_results_inv in H as [? _]. Qed.

Lemma event_handler_contained K P w0 cmd attrs s r s' :
  event_handler K P cmd attrs s = Ret (r, s') -> contained w0 s -> contained w0 s'.
Proof.
  destruct s as [l w]. unfold event_handler.
  intros (ifidx & _ & H)%obind_ret Hs.
  assert (forall extra w1, calls w1 = calls w ->
            Ret (observe_wlan_event l ifidx (nl80211_command_to_string cmd) extra w1)
              = Ret (r, s') -> contained w0 s') as Hobs.
  { intros extra w1 Hw1 [= E].
    replace s' with
      (observe_wlan_event l ifidx (nl80211_command_to_string cmd) extra w1).2
      by (by rewrite E).
    apply observe_wlan_event_contained.
    destruct Hs as (new & Hc & Hnew). exists new. cbn in *. by rewrite Hw1. }
  assert (forall oc,
            ('(ssids, w1) ← dump_scan_results K P l ifidx oc w;
             match ssids with
             | None => Ret (NL_STOP, (l, w1))
             | Some ssids =>
                 Ret (observe_wlan_event l ifidx (nl80211_command_to_string cmd)
                        (Some [("ssids"%string, ssids)]) w1)
             end) = Ret (r, s') -> contained w0 s') as Hdump.
  { intros oc ([ssids w1] & E & H')%obind_ret.
    apply dump_scan_results_calls in E.
    destruct ssids as [ssids|]; [by eapply Hobs|].
    injection H' as <- <-. destruct Hs as (new & Hc & Hnew). exists new. cbn in *.
    by rewrite E. }
  repeat case_match; eauto.
Qed.

Lemma event_cb_contained K P w0 blocking queue mp s res queue' s' :
  nl_recvmsgs_from (k_syserr2nlerr K) blocking (event_cb K P) queue mp s
    = Ret (res, queue', s') ->
  contained w0 s -> contained w0 s'.
Proof.
  apply (nl_recvmsgs_from_inv _ (event_cb K P) (contained w0)).
  - intros h cmd attrs s0 r s1 [= <-]. apply event_handler_contained.
  - by intros [l w].
  - by intros [l w].
  - by intros e [l w].
Qed.

Lemma contained_refl l w : contained w (l, w).
Proof. exists []. split; [by rewrite app_nil_r|by left]. Qed.

(** What [maybe_restore] makes of a contained run. *)
Lemma maybe_restore_contained w0 s res l' w' :
  contained w0 s -> maybe_restore s = (res, (l', w')) ->
  exists new, calls w' = calls w0 ++ new /\
    forall c e, c ∈ new -> c_raised c = Some e ->
      (exists pre, new = pre ++ [c] /\ Forall no_raise pre) /\
      res = None /\ py_err w' = Some e /\ exc_typ l' = None.
Proof.
  destruct s as [l w]. intros (new & Hc & Hnew). unfold maybe_restore.
  cbn in Hc. intros H. exists new. split.
  { destruct (exc_typ l); injection H as <- <- <-; [done|by destruct (negb _)]. }
  intros c e Hin Hr. destruct Hnew as [Hok|(pre & c0 & e0 & -> & Hpre & Hr0 & Hs)].
  { rewrite Forall_forall in Hok. apply Hok in Hin. unfold no_raise in Hin.
    congruence. }
  apply elem_of_app in Hin as [Hin|Hin%list_elem_of_singleton].
  { rewrite Forall_forall in Hpre. apply Hpre in Hin. unfold no_raise in Hin.
    congruence. }
  subst c0. assert (e0 = e) as -> by congruence.
  unfold fault_slot in Hs. cbn in Hs.
  destruct (exc_typ l) as [t|] eqn:Et; [|done]. cbn in Hs. injection Hs as <-.
  injection H as <- <- <-. cbn. eauto 10.
Qed.

(** The invariant carried through the public calls, whatever is queued:
    [new] is the list of observer invocations a call makes, and whenever one
    of them raises [e], it is the last one, the call returns the null
    pointer with exactly [e] as the error, and the fault slot is empty
    again.  [data_ready] returns whenever [event_handler] returns on the
    queued messages. *)
Lemma public_calls_contain_faults K P :
  (forall queue l w,
     events_handled K P queue ->
     exists res l' w' new,
       listener_data_ready K P queue (l, w) = Ret (res, (l', w')) /\
       calls w' = calls w ++ new /\
       forall c e, c ∈ new -> c_raised c = Some e ->
         (exists pre, new = pre ++ [c] /\ Forall no_raise pre) /\
         res = None /\ py_err w' = Some e /\ exc_typ l' = None) /\
  (forall stack l w res l' w',
     listener_start K P stack (l, w) = Ret (res, (l', w')) ->
     exists new,
       calls w' = calls w ++ new /\
       forall c e, c ∈ new -> c_raised c = Some e ->
         (exists pre, new = pre ++ [c] /\ Forall no_raise pre) /\
         res = None /\ py_err w' = Some e /\ exc_typ l' = None).
Proof.
  split.
  - intros queue l w Hq. unfold listener_data_ready, nl_recvmsgs.
    destruct (nl_recvmsgs_nonblocking_returns (k_syserr2nlerr K) (event_cb K P)
                queue false (l, w) Hq) as [[[r q'] s1] E].
    rewrite E. cbn.
    apply event_cb_contained with (w0 := w) in E; [|apply contained_refl].
    destruct (maybe_restore s1) as [res [l' w']] eqn:Em.
    exists res, l', w'.
    destruct (maybe_restore_contained _ _ _ _ _ E Em) as (new & ? & ?). eauto.
  - intros stack l w res l' w'. unfold listener_start.
    assert (forall typ pre n w1, calls w1 = calls w -> exists new,
              calls (PyErr_Format typ pre n w1) = calls w ++ new /\
              forall c e, c ∈ new -> c_raised c = Some e ->
                (exists pre, new = pre ++ [c] /\ Forall no_raise pre) /\
                (@None PyObject) = None
                /\ py_err (PyErr_Format typ pre n w1) = Some e
                /\ exc_typ (with_nl80211_id (k_ctrl_resolve K) l) = None) as Hearly.
    { intros typ pre n w1 Hw1. exists []. split; [by rewrite app_nil_r|].
      by intros c e ?%elem_of_nil. }
    destruct (k_genl_connect K <? 0) eqn:E1.
    { intros [= <- <- <-]. exists []. split; [by rewrite app_nil_r|].
      by intros c e ?%elem_of_nil. }
    intros ([r ids] & _ & H)%obind_ret. revert H.
    destruct (r <? 0). { intros [= <- <- <-]. by apply Hearly. }
    destruct (k_set_nonblocking K <? 0). { intros [= <- <- <-]. by apply Hearly. }
    destruct (nl_socket_add_memberships K _ <? 0).
    { intros [= <- <- <-]. by apply Hearly. }
    intros ([r' s1] & E & [= Em])%obind_ret.
    apply (send_and_recv_inv K _ (contained w)) in E.
    + eapply maybe_restore_contained; [exact E|exact Em].
    + intros h cmd attrs s r0 s' [= <-]. apply event_handler_contained.
    + destruct (contained_refl (with_nl80211_id (k_ctrl_resolve K) l) w)
        as (new & ? & ?).
      exists new. done.
Qed.

Lemma bss_status_loads P data bss a :
  nla_parse_nested (NL80211_BSS_MAX P) data bss_policy = (0, bss) ->
  bss !! NL80211_BSS_STATUS = Some a -> exists v, nla_get_u32 a = Ret v.
Proof.
  intros Hp Ha. apply nla_get_u32_long.
  by apply (nla_parse_policy _ _ _ _ _ _ _ Hp Ha).
Qed.

(** A BSS that is not left out for its status gets a status text. *)
Lemma bss_status_text P data p bss :
  nla_parse_nested (NL80211_BSS_MAX P) data bss_policy = (0, bss) ->
  (bss !! NL80211_BSS_STATUS = None -> only_connected p = false) ->
  exists cstatus,
    match bss !! NL80211_BSS_STATUS with
    | Some a => status ← nla_get_u32 a;
                Ret (true, status_string (int_of_u32 status))
    | None => Ret (negb (only_connected p), "no status"%string)
    end = Ret (true, cstatus).
Proof.
  intros Hp Hst. destruct (bss !! NL80211_BSS_STATUS) as [a|] eqn:Ea.
  - destruct (bss_status_loads P data bss a Hp Ea) as [v ->]. cbn. eauto.
  - rewrite Hst by done. cbn. eauto.
Qed.

(** Where the ['#'] format takes an [int], as up to CPython 3.9: for a BSS
    whose information elements are [00 03 FF 00 41], and which is not left
    out for lacking a status, [extract_ssid] appends one entry whose SSID is
    the three bytes [FF 00 41], the payload in its stated length, the NUL in
    the middle included, whatever the BSS's other attributes and the entries
    listed before. *)
Lemma extract_ssid_keeps_interior_nul P data p w bss ie_attr items :
  hash_length_is_int P = true ->
  nla_parse_nested (NL80211_BSS_MAX P) data bss_policy = (0, bss) ->
  bss !! NL80211_BSS_INFORMATION_ELEMENTS = Some ie_attr ->
  nla_data ie_attr = [x00; x03; xff; x00; x41] ->
  (bss !! NL80211_BSS_STATUS = None -> only_connected p = false) ->
  ssid_list p = Some items ->
  exists cstatus,
    extract_ssid P data (p, w) =
    Ret (mkParams
           (Some (items ++ [PyTuple [PyBytes [xff; x00; x41]; PyUnicode cstatus]]))
           (only_connected p), w).
Proof.
  intros Hpy Hp Hie Hbuf Hst Hitems. unfold extract_ssid. rewrite Hp.
  cbn [negb Z.eqb].
  destruct (bss_status_text P data p bss Hp Hst) as [cstatus ->].
  exists cstatus. cbn [mbind outcome_bind obind negb].
  rewrite Hie. cbn [fmap option_fmap option_map nla_len_at mbind outcome_bind obind].
  rewrite Hbuf, Hitems.
  assert (nl80211_get_ie P (Some [x00; x03; xff; x00; x41]) 0 = Ret (Some 0)) as ->
    by (destruct P as [[] ? ? ? ?]; reflexivity).
  cbn [mbind outcome_bind obind].
  assert (read_char P [x00; x03; xff; x00; x41] (0 + 1) = Ret 3) as ->
    by (destruct P as [[] ? ? ? ?]; reflexivity).
  unfold Py_BuildValue_y. rewrite Hpy. reflexivity.
Qed.

Example extract_ssid_keeps_interior_nul_at_example :
  exists cstatus,
    extract_ssid x86_64 bss_with_nul_ssid (mkParams (Some []) false, world0) =
    Ret (mkParams
           (Some ([] ++ [PyTuple [PyBytes [xff; x00; x41]; PyUnicode cstatus]]))
           false, world0).
Proof.
  apply (extract_ssid_keeps_interior_nul x86_64 bss_with_nul_ssid
           (mkParams (Some []) false) world0
           (nla_parse_nested (NL80211_BSS_MAX x86_64) bss_with_nul_ssid bss_policy).2
           (Nla [x00; x03; xff; x00; x41] []) []); reflexivity.
Qed.

(** C2 (defect of the code).  The module passes the SSID's length to a
    ["y#"] format without defining [PY_SSIZE_T_CLEAN].  Built against CPython
    3.10 to 3.12, [Py_BuildValue] refuses that format: for the BSS of the
    claim, information elements [00 03 FF 00 41], not left out for lacking a
    status, [extract_ssid] yields no SSID at all; it drops the list of the
    dump (the entries listed before with it) and leaves [SystemError] in the
    error indicator.  Where the format takes an [int] the claim holds
    ([extract_ssid_keeps_interior_nul]). *)
Theorem extract_ssid_hash_format_refused P data p w bss ie_attr :
  hash_length_is_int P = false ->
  nla_parse_nested (NL80211_BSS_MAX P) data bss_policy = (0, bss) ->
  bss !! NL80211_BSS_INFORMATION_ELEMENTS = Some ie_attr ->
  nla_data ie_attr = [x00; x03; xff; x00; x41] ->
  (bss !! NL80211_BSS_STATUS = None -> only_connected p = false) ->
  extract_ssid P data (p, w)
  = Ret (mkParams None (only_connected p),
         PyErr_SetString PyExc_SystemError hash_format_refused w).
Proof.
  intros Hpy Hp Hie Hbuf Hst. unfold extract_ssid. rewrite Hp.
  cbn [negb Z.eqb].
  destruct (bss_status_text P data p bss Hp Hst) as [cstatus ->].
  cbn [mbind outcome_bind obind negb].
  rewrite Hie. cbn [fmap option_fmap option_map nla_len_at mbind outcome_bind obind].
  rewrite Hbuf.
  assert (nl80211_get_ie P (Some [x00; x03; xff; x00; x41]) 0 = Ret (Some 0)) as ->
    by (destruct P as [[] ? ? ? ?]; reflexivity).
  cbn [mbind outcome_bind obind].
  assert (read_char P [x00; x03; xff; x00; x41] (0 + 1) = Ret 3) as ->
    by (destruct P as [[] ? ? ? ?]; reflexivity).
  unfold Py_BuildValue_y. rewrite Hpy. reflexivity.
Qed.

Lemma extract_ssid_hash_format_refused_at_example :
  extract_ssid x86_64_py310 bss_with_nul_ssid (mkParams (Some []) false, world0)
  = Ret (mkParams None false,
         PyErr_SetString PyExc_SystemError hash_format_refused world0).
Proof.
  apply (extract_ssid_hash_format_refused x86_64_py310 bss_with_nul_ssid
           (mkParams (Some []) false) world0
           (nla_parse_nested (NL80211_BSS_MAX x86_64_py310) bss_with_nul_ssid
              bss_policy).2
           (Nla [x00; x03; xff; x00; x41] [])); reflexivity.
Defined.

(** The same, seen from the callers, for a scan dump that holds this BSS:
    the handler stops the parse, the dump returns the null pointer with
    [SystemError] set, and the NEW_SCAN_RESULTS event that asked for the dump
    never reaches the observer. *)
Example dump_of_nul_ssid_where_hash_is_refused :
  nl80211_scan_handler x86_64_py310 NL80211_CMD_NEW_SCAN_RESULTS
    [(NL80211_ATTR_IFINDEX, u32_attr x02); (NL80211_ATTR_BSS, bss_with_nul_ssid)]
    (mkParams (Some []) false, world0)
  = Ret (NL_STOP, (mkParams None false, mkWorld (Some hash_error) [] [])) /\
  dump_scan_results kernel_ok x86_64_py310 (listener_new None) 2 false world0
  = Ret (None, mkWorld (Some hash_error) []
                 [SocketAlloc; SocketConnect; SocketSend (GET_SCAN 2); SocketFree]) /\
  exists l' w',
    listener_data_ready kernel_ok x86_64_py310
      [[wlan_msg false NL80211_CMD_NEW_SCAN_RESULTS x02]]
      (listener_new (Some quiet_observer), world0) = Ret (Some PyNone, (l', w')) /\
    calls w' = [] /\ py_err w' = Some hash_error.
Proof. repeat split. eexists _, _. repeat split. Qed.

(** C4 (defect of the code).  A BSS without a status is left out of a dump
    restricted to connected BSSes, as the claim says.  A BSS without the
    information-elements attribute is not left out: unless the status rule
    has already dropped it, [extract_ssid] takes [nla_len] of the null
    pointer. *)
Theorem extract_ssid_without_information_elements P data p w bss :
  nla_parse_nested (NL80211_BSS_MAX P) data bss_policy = (0, bss) ->
  (bss !! NL80211_BSS_STATUS = None -> only_connected p = true ->
   extract_ssid P data (p, w) = Ret (p, w)) /\
  (bss !! NL80211_BSS_INFORMATION_ELEMENTS = None ->
   (only_connected p = true -> is_Some (bss !! NL80211_BSS_STATUS)) ->
   extract_ssid P data (p, w) = Fault NullDeref).
Proof.
  intros Hp. unfold extract_ssid. rewrite Hp. cbn [negb Z.eqb]. split.
  - intros -> ->. reflexivity.
  - intros Hie Hst.
    destruct (bss_status_text P data p bss Hp) as [cstatus ->].
    { intros E. destruct (only_connected p); [|done].
      destruct Hst as [a Ha]; [done|]. congruence. }
    cbn [mbind outcome_bind obind negb]. rewrite Hie. reflexivity.
Qed.

Lemma extract_ssid_without_information_elements_at_example :
  extract_ssid x86_64 bss_without_ies (mkParams (Some []) true, world0)
  = Fault NullDeref /\
  nl80211_scan_handler x86_64 NL80211_CMD_NEW_SCAN_RESULTS
    [(NL80211_ATTR_IFINDEX, u32_attr x02); (NL80211_ATTR_BSS, bss_without_ies)]
    (mkParams (Some []) false, world0) = Fault NullDeref.
Proof.
  split; [|reflexivity].
  apply (extract_ssid_without_information_elements x86_64 bss_without_ies
           (mkParams (Some []) true) world0
           (nla_parse_nested (NL80211_BSS_MAX x86_64) bss_without_ies bss_policy).2);
    [reflexivity|reflexivity|].
  intros _. eexists. reflexivity.
Defined.

(** C5 (defect of the code).  With an empty fault slot and a kernel error
    code in [listener->err], [maybe_restore] formats the error and then
    returns [None], the object of a successful call, so [data_ready] on a
    queued error message returns [None].  [start] never looks at what
    [send_and_recv] returns: a dump the kernel refuses with -95 ends in
    [None] with no error set at all. *)
Theorem kernel_error_code_returns_none :
  (forall l w,
     exc_typ l = None -> err l <> 0 ->
     maybe_restore (l, w)
     = (Some PyNone,
        (l, PyErr_Format PyExc_RuntimeError "random netlink error: " (err l) w))) /\
  (forall K P code l w,
     exc_typ l = None -> code <> 0 ->
     listener_data_ready K P [[mkMsg false (NLMSG_ERROR code)]] (l, w)
     = Ret (Some PyNone,
            (with_err code l,
             PyErr_Format PyExc_RuntimeError "random netlink error: " code w))) /\
  (forall obs stack w,
     send_and_recv kernel_refusing_dump (k_interface_reply kernel_refusing_dump)
       (Some (event_handler kernel_refusing_dump x86_64))
       (with_nl80211_id 28 (listener_new obs),
        log_io [SocketConnect; SocketSend GETFAMILY; SocketConnect;
                SocketSend GET_INTERFACE] w)
     = Ret (-95, (with_nl80211_id 28 (listener_new obs),
                  log_io [SocketConnect; SocketSend GETFAMILY; SocketConnect;
                          SocketSend GET_INTERFACE] w)) /\
     listener_start kernel_refusing_dump x86_64 stack (listener_new obs, w)
     = Ret (Some PyNone,
            (with_nl80211_id 28 (listener_new obs),
             log_io [SocketConnect; SocketSend GETFAMILY; SocketConnect;
                     SocketSend GET_INTERFACE] w))).
Proof.
  split; [|split].
  - intros l w Ht He. unfold maybe_restore. rewrite Ht.
    by rewrite (proj2 (Z.eqb_neq _ _) He).
  - intros K P code l w Ht Hc. unfold listener_data_ready, nl_recvmsgs. cbn.
    rewrite (proj2 (Z.eqb_neq _ _) Hc). cbn.
    unfold maybe_restore. cbn. rewrite Ht, (proj2 (Z.eqb_neq _ _) Hc). done.
  - intros obs [m s] w. split; [reflexivity|].
    unfold listener_start, log_io. cbn. rewrite <- !app_assoc. reflexivity.
Qed.

Lemma nl_socket_add_memberships_negative K group rest :
  group < 0 -> nl_socket_add_memberships K (group :: rest) = - NLE_INVAL.
Proof.
  intros Hg. cbn. destruct (group =? 0) eqn:E0; [lia|].
  by assert ((group <? 0) = true) as -> by lia.
Qed.

(** C6 (defect of the code).  [listener_start] declares [ids] without an
    initialiser, so there is no "unset" value: when the kernel lists no
    group ["mlme"], the id handed on is whatever the stack held, and with a
    negative one there [nl_socket_add_memberships] refuses and [start]
    fails, on account of the missing name. *)
Theorem listener_start_passes_uninitialised_group_id :
  (forall stack,
     nl_get_multicast_ids kernel_without_mlme x86_64 stack
     = Ret (0, mkIds (mlme_id stack) 5)) /\
  (forall stack obs w,
     mlme_id stack < 0 ->
     exists l' w',
       listener_start kernel_without_mlme x86_64 stack (listener_new obs, w)
       = Ret (None, (l', w')) /\
       py_err w' = Some (mkPyErr PyExc_RuntimeError
                           (Some (PyUnicode "nl_socket_add_memberships: -7")) None)).
Proof.
  assert (forall stack,
     nl_get_multicast_ids kernel_without_mlme x86_64 stack
     = Ret (0, mkIds (mlme_id stack) 5)) as Hids by (by intros []).
  split; [done|].
  intros stack obs w Hm. unfold listener_start.
  change (k_genl_connect kernel_without_mlme) with 0.
  change (k_set_nonblocking kernel_without_mlme) with 0.
  rewrite Hids. cbn [mbind outcome_bind obind mlme_id scan_id Z.ltb Z.compare].
  rewrite (nl_socket_add_memberships_negative _ _ _ Hm).
  eexists _, _. split; reflexivity.
Qed.

(** C9 (amended).  The name of a group entry is compared by [strncmp] over
    the attribute's length: the id is recorded for ["scan"] (for ["mlme"])
    exactly when the attribute reads as that name up to its first NUL, or
    holds no NUL and is a prefix of the name, the empty attribute included.
    An entry without a name or without an id records nothing. *)
Theorem family_handler_group_matches_by_strncmp mcgrp res :
  (forall name_attr id_attr v,
     (nla_parse CTRL_ATTR_MCAST_GRP_MAX (nla_nest mcgrp) no_policy).2
       !! CTRL_ATTR_MCAST_GRP_NAME = Some name_attr ->
     (nla_parse CTRL_ATTR_MCAST_GRP_MAX (nla_nest mcgrp) no_policy).2
       !! CTRL_ATTR_MCAST_GRP_ID = Some id_attr ->
     nla_get_u32 id_attr = Ret v ->
     exists res',
       family_handler_group mcgrp res = Ret res' /\
       (name_is (nla_data name_attr) (lit "scan") -> scan_id res' = int_of_u32 v) /\
       (~ name_is (nla_data name_attr) (lit "scan") -> scan_id res' = scan_id res) /\
       (name_is (nla_data name_attr) (lit "mlme") -> mlme_id res' = int_of_u32 v) /\
       (~ name_is (nla_data name_attr) (lit "mlme") -> mlme_id res' = mlme_id res)) /\
  ((nla_parse CTRL_ATTR_MCAST_GRP_MAX (nla_nest mcgrp) no_policy).2
     !! CTRL_ATTR_MCAST_GRP_NAME = None \/
   (nla_parse CTRL_ATTR_MCAST_GRP_MAX (nla_nest mcgrp) no_policy).2
     !! CTRL_ATTR_MCAST_GRP_ID = None ->
   family_handler_group mcgrp res = Ret res).
Proof.
  unfold family_handler_group. split.
  - intros name_attr id_attr v -> -> Hv. rewrite Hv, !nla_len_length.
    pose proof (strncmp_zero (nla_data name_attr) _ lit_scan_no_nul) as Hs.
    pose proof (strncmp_zero (nla_data name_attr) _ lit_mlme_no_nul) as Hm.
    destruct (strncmp (nla_data name_attr) (lit "scan") _ =? 0) eqn:Es;
      destruct (strncmp (nla_data name_attr) (lit "mlme") _ =? 0) eqn:Em;
      cbn [mbind outcome_bind obind]; eexists; (split; [reflexivity|]); cbn;
      rewrite ?Z.eqb_eq, ?Z.eqb_neq in *; tauto.
  - intros [-> | ->]; [done|]. by case_match.
Qed.

Lemma family_handler_group_matches_by_strncmp_at_scan :
  exists res',
    family_handler_group (mcast_group "scan" x05) (mkIds 0 0) = Ret res' /\
    (name_is (lit "scan" ++ [x00]) (lit "scan") -> scan_id res' = int_of_u32 5) /\
    (~ name_is (lit "scan" ++ [x00]) (lit "scan") -> scan_id res' = 0) /\
    (name_is (lit "scan" ++ [x00]) (lit "mlme") -> mlme_id res' = int_of_u32 5) /\
    (~ name_is (lit "scan" ++ [x00]) (lit "mlme") -> mlme_id res' = 0).
Proof.
  exact (proj1 (family_handler_group_matches_by_strncmp
                  (mcast_group "scan" x05) (mkIds 0 0))
           (Nla (lit "scan" ++ [x00]) []) (u32_attr x05) 5
           eq_refl eq_refl eq_refl).
Defined.

(** C9, where the claim fails: a name attribute holding the three bytes
    ["sca"] is not the name ["scan"], yet its id is recorded as the scan
    group's; an empty name attribute records its id for both groups. *)
Lemma family_handler_group_prefix_and_empty_names :
  lit "sca" <> lit "scan" /\
  family_handler_group
    (Nla [] [(CTRL_ATTR_MCAST_GRP_NAME, Nla (lit "sca") []);
             (CTRL_ATTR_MCAST_GRP_ID, u32_attr x07)])
    (mkIds 0 0) = Ret (mkIds 0 7) /\
  family_handler_group
    (Nla [] [(CTRL_ATTR_MCAST_GRP_NAME, Nla [] []);
             (CTRL_ATTR_MCAST_GRP_ID, u32_attr x07)])
    (mkIds 0 0) = Ret (mkIds 7 7).
Proof. split; [discriminate|]. split; reflexivity. Qed.

(** The kernel's NUL-terminated names are matched exactly. *)
Example family_handler_group_kernel_names :
  family_handler_group (mcast_group "scan" x05) (mkIds 0 0) = Ret (mkIds 0 5) /\
  family_handler_group (mcast_group "mlme" x04) (mkIds 0 0) = Ret (mkIds 4 0) /\
  family_handler_group (mcast_group "sca" x07) (mkIds 0 0) = Ret (mkIds 0 0) /\
  family_handler_group (mcast_group "scanner" x07) (mkIds 0 0) = Ret (mkIds 0 0).
Proof. repeat split. Qed.

(** C10 (amended).  With an empty fault slot and an observer set, an event
    whose interface index is not positive is passed to [wlan_event] without
    any socket traffic and without an ["ssids"] entry.  The index passed is
    -1 when the attribute is absent, and the attribute's own value, as an
    [int], when it is there: 0 stays 0. *)
Theorem event_without_positive_ifindex K P cmd attrs l w obs ifidx :
  exc_typ l = None -> observer l = Some obs ->
  match (nla_parse (NL80211_ATTR_MAX P) attrs no_policy).2 !! NL80211_ATTR_IFINDEX with
  | None => ifidx = -1
  | Some a => exists v, nla_get_u32 a = Ret v /\ ifidx = int_of_u32 v /\ ifidx <= 0
  end ->
  exists r l' w',
    event_handler K P cmd attrs (l, w) = Ret (r, (l', w')) /\
    calls w' = calls w ++ [mkCall "wlan_event" [wlan_event_arg cmd ifidx]
                             (obs (calls w) "wlan_event"%string
                                  [wlan_event_arg cmd ifidx])] /\
    io w' = io w.
Proof.
  intros Ht Ho Hidx. unfold event_handler.
  assert (match (nla_parse (NL80211_ATTR_MAX P) attrs no_policy).2
                  !! NL80211_ATTR_IFINDEX with
          | Some a => v ← nla_get_u32 a; Ret (int_of_u32 v)
          | None => Ret (-1)
          end = Ret ifidx /\ ifidx <= 0) as [-> Hle].
  { destruct (_ !! NL80211_ATTR_IFINDEX) as [a|].
    - destruct Hidx as (v & -> & -> & ?). done.
    - subst ifidx. done. }
  cbn [mbind outcome_bind obind].
  assert ((ifidx >? 0) = false) as -> by lia.
  unfold observe_wlan_event. rewrite Ht, Ho.
  change (PyDict_SetItemString (PyDict_SetItemString [] "cmd" _) "ifindex" _)
    with [("cmd"%string, PyUnicode (nl80211_command_to_string cmd));
          ("ifindex"%string, PyLong ifidx)].
  fold (wlan_event_arg cmd ifidx).
  destruct (PyErr_Occurred _) eqn:E.
  - unfold PyErr_Fetch, PyErr_Occurred in *.
    destruct (py_err (PyObject_CallMethod _ _ _ _)) eqn:Ep.
    + eexists _, _, _. split; [reflexivity|]. split; reflexivity.
    + by rewrite bool_decide_eq_false_2 in E by (by intros [? ?]).
  - eexists _, _, _. split; [reflexivity|]. split; reflexivity.
Qed.

Lemma event_without_positive_ifindex_at_zero :
  exists r l' w',
    event_handler kernel_ok x86_64 35 [(NL80211_ATTR_IFINDEX, u32_attr x00)]
      (listener_new (Some quiet_observer), world0) = Ret (r, (l', w')) /\
    calls w' = calls world0 ++ [mkCall "wlan_event" [wlan_event_arg 35 0]
                                  (quiet_observer (calls world0) "wlan_event"%string
                                     [wlan_event_arg 35 0])] /\
    io w' = io world0.
Proof.
  apply (event_without_positive_ifindex kernel_ok x86_64 35
           [(NL80211_ATTR_IFINDEX, u32_attr x00)]
           (listener_new (Some quiet_observer)) world0 quiet_observer 0);
    [reflexivity|reflexivity|].
  exists 0. repeat split. discriminate.
Defined.

(** C10, where the claim fails: an event that carries the interface index 0
    reaches the observer with [ifindex] 0, not -1; and with the fault slot
    occupied the observer is not invoked at all. *)
Lemma event_handler_passes_ifindex_zero :
  (exists l' w',
     event_handler kernel_ok x86_64 35 [(NL80211_ATTR_IFINDEX, u32_attr x00)]
       (listener_new (Some quiet_observer), world0) = Ret (NL_SKIP, (l', w')) /\
     calls w' = [mkCall "wlan_event"
                   [PyDict [("cmd"%string, PyUnicode "SCAN_ABORTED");
                            ("ifindex"%string, PyLong 0)]] None]) /\
  (exists l' w',
     event_handler kernel_ok x86_64 35 []
       (with_exc (Some (PyType "ValueError")) None None
          (listener_new (Some quiet_observer)), world0) = Ret (NL_STOP, (l', w')) /\
     calls w' = []).
Proof. split; eexists _, _; split; reflexivity. Qed.

End WifiFacts.

(** ** The routing listener *)

Module RouteFacts.
Import Rtnetlink.

Lemma fetch_keeps_calls l w1 :
  exists l' w',
    (if PyErr_Occurred w1
     then let '(t, v, tb, w) := PyErr_Fetch w1 in (with_exc t v tb l, w)
     else (l, w1)) = (l', w') /\ calls w' = calls w1.
Proof.
  unfold PyErr_Occurred, PyErr_Fetch. destruct (py_err w1); cbn; eauto.
Qed.

(** C7.  Whenever [route_change] is invoked (the fault slot is empty and an
    observer is set), the [dst] field is the bytes ["default"] for a route
    whose destination is absent or has length 0, and the [ifindex] field of
    a route with next hops is the interface of the first one, however many
    follow. *)
Theorem route_change_default_dst_and_first_nexthop K act route l w obs :
  exc_typ l = None -> observer l = Some obs ->
  exists data l' w',
    observe_route_change K act route (l, w) = (l', w') /\
    calls w' = calls w ++ [mkCall "route_change" [PyUnicode (act2str act); PyDict data]
                             (obs (calls w) "route_change"%string
                                  [PyUnicode (act2str act); PyDict data])] /\
    (rt_dst route = None \/
     (exists dst, rt_dst route = Some dst /\ nl_addr_get_len dst = 0) ->
     PyDict_GetItemString data "dst" = Some (PyBytes (lit "default"))) /\
    (forall nh rest, rt_nexthops route = nh :: rest ->
     PyDict_GetItemString data "ifindex" = Some (PyLong (rtnh_ifindex nh))).
Proof.
  intros Ht Ho. unfold observe_route_change. rewrite Ht, Ho.
  match goal with
  | |- context [PyObject_CallMethod obs _ [_; PyDict ?d] w] => set (data := d)
  end.
  destruct (fetch_keeps_calls l
              (PyObject_CallMethod obs "route_change"
                 [PyUnicode (act2str act); PyDict data] w)) as (l' & w' & E & Hc).
  exists data, l', w'. split; [exact E|]. split; [by rewrite Hc|]. split.
  - subst data. cbn. intros [-> | (dst & -> & ->)]; reflexivity.
  - intros nh rest Hnh. subst data. cbn.
    unfold rtnl_route_get_nnexthops, rtnl_route_nexthop_n. rewrite Hnh. reflexivity.
Qed.

Lemma route_change_default_dst_and_first_nexthop_at_multipath :
  exists data l' w',
    observe_route_change kernel_ok NL_ACT_NEW multipath_default (started, world0)
    = (l', w') /\
    calls w' = calls world0
               ++ [mkCall "route_change" [PyUnicode (act2str NL_ACT_NEW); PyDict data]
                     (quiet_observer (calls world0) "route_change"%string
                        [PyUnicode (act2str NL_ACT_NEW); PyDict data])] /\
    (rt_dst multipath_default = None \/
     (exists dst, rt_dst multipath_default = Some dst /\ nl_addr_get_len dst = 0) ->
     PyDict_GetItemString data "dst" = Some (PyBytes (lit "default"))) /\
    (forall nh rest, rt_nexthops multipath_default = nh :: rest ->
     PyDict_GetItemString data "ifindex" = Some (PyLong (rtnh_ifindex nh))).
Proof.
  apply (route_change_default_dst_and_first_nexthop kernel_ok NL_ACT_NEW
           multipath_default started world0 quiet_observer); reflexivity.
Defined.

(** The default route over two next hops is reported with [dst] "default"
    and the first next hop's interface, 3. *)
Example route_change_of_multipath_default :
  calls (observe_route_change kernel_ok NL_ACT_NEW multipath_default
           (started, world0)).2
  = [mkCall "route_change"
       [PyUnicode "NEW";
        PyDict [("family"%string, PyLong 2); ("type"%string, PyLong 1);
                ("table"%string, PyLong 254);
                ("dst"%string, PyBytes (lit "default"));
                ("ifindex"%string, PyLong 3)]] None].
Proof. reflexivity. Qed.

(** C8.  For an interface index that the link cache does not hold,
    [set_link_flags] and [unset_link_flags] fail with the error "link not
    found" and leave the listener and the record of socket operations as
    they were: no socket is allocated, connected or sent on. *)
Theorem link_flags_of_unknown_ifindex K ifindex flags l w cache :
  link_cache l = Some cache -> cache !! ifindex = None ->
  listener_set_link_flags K ifindex flags (l, w)
  = Ret (None, (l, PyErr_SetString PyExc_RuntimeError "link not found" w)) /\
  listener_unset_link_flags K ifindex flags (l, w)
  = Ret (None, (l, PyErr_SetString PyExc_RuntimeError "link not found" w)) /\
  io (PyErr_SetString PyExc_RuntimeError "link not found" w) = io w.
Proof.
  intros Hc Hi.
  unfold listener_set_link_flags, listener_unset_link_flags, change_link_flags.
  by rewrite Hc, Hi.
Qed.

Lemma link_flags_of_unknown_ifindex_at_example :
  listener_set_link_flags kernel_ok 7 1 (started, world0)
  = Ret (None, (started, PyErr_SetString PyExc_RuntimeError "link not found" world0)) /\
  listener_unset_link_flags kernel_ok 7 1 (started, world0)
  = Ret (None, (started, PyErr_SetString PyExc_RuntimeError "link not found" world0)) /\
  io (PyErr_SetString PyExc_RuntimeError "link not found" world0) = io world0.
Proof.
  apply (link_flags_of_unknown_ifindex kernel_ok 7 1 started world0
           {[ 1 := mkLink 1 73 0 772 0 (Some "lo"%string) ]}); reflexivity.
Defined.

(** On an interface the cache holds, the same call opens a socket, sends the
    change and closes the socket. *)
Example set_link_flags_of_known_ifindex :
  exists l',
    listener_set_link_flags kernel_ok 1 2 (started, world0)
    = Ret (Some PyNone,
           (l', mkWorld None []
                  [SocketAlloc; SocketConnect; SocketSend (LINK_CHANGE 1 75 2);
                   SocketFree])).
Proof. eexists. reflexivity. Qed.

End RouteFacts.

(** * Further properties

    What the code shows beyond the claims above: how the decoders answer
    the kernel's encodings, what the request and receive loops return, the
    order in which events reach the observer, and what the routing listener
    does to its link cache. *)

(** ** Integers, bytes and attributes *)

Lemma gtb_false a b : a <= b -> (a >? b) = false.
Proof. intros. rewrite Z.gtb_ltb. by apply Z.ltb_ge. Qed.

Lemma gtb_true a b : b < a -> (a >? b) = true.
Proof. intros. rewrite Z.gtb_ltb. by apply Z.ltb_lt. Qed.

Lemma int_of_u32_mod v : int_of_u32 (v mod 2 ^ 32) = int_of_u32 v.
Proof. unfold int_of_u32. by rewrite Z.mod_mod. Qed.

Lemma int_of_u32_small v : 0 <= v < 2 ^ 31 -> int_of_u32 v = v.
Proof.
  intros H. unfold int_of_u32. rewrite Z.mod_small by lia.
  by rewrite (proj2 (Z.leb_gt _ _)) by lia.
Qed.

Lemma nla_len_nonneg a : (nla_len a <? 0) = false.
Proof. apply Z.ltb_ge. unfold nla_len. lia. Qed.

Lemma byte_val_byte_of_Z_mod v : byte_val (byte_of_Z v) = v mod 256.
Proof.
  unfold byte_of_Z, byte_val.
  pose proof (Z.mod_pos_bound v 256 ltac:(lia)) as Hv.
  pose proof (Byte.to_of_N_option_map (Z.to_N (v mod 256))) as H.
  rewrite (proj2 (N.leb_le _ _)) in H by lia.
  destruct (Byte.of_N (Z.to_N (v mod 256))) as [b|]; [|discriminate].
  cbn in H. injection H as H. cbn. rewrite H. lia.
Qed.

Lemma byte_val_byte_of_Z v : 0 <= v < 256 -> byte_val (byte_of_Z v) = v.
Proof. intros Hv. rewrite byte_val_byte_of_Z_mod. by apply Z.mod_small. Qed.

Lemma char_val_inj P a b : char_val P a = char_val P b -> a = b.
Proof.
  unfold char_val. pose proof (byte_val_range a). pose proof (byte_val_range b).
  intros Heq. apply byte_val_inj.
  destruct (char_signed P); cbn in Heq; [|done].
  destruct (128 <=? byte_val a) eqn:Ea; destruct (128 <=? byte_val b) eqn:Eb; lia.
Qed.

Lemma char_val_nul P : char_val P x00 = 0.
Proof. unfold char_val. change (byte_val x00) with 0. by rewrite andb_false_r. Qed.

(** What [nla_put_u32] writes, [nla_get_u32] reads. *)
Lemma nla_get_put_u32 v : nla_get_u32 (nla_put_u32 v) = Ret (v mod 2 ^ 32).
Proof.
  unfold nla_get_u32, nla_put_u32, load_u32. cbn [nla_data]. f_equal.
  rewrite !byte_val_byte_of_Z_mod.
  change (2 ^ 8) with 256. change (2 ^ 16) with 65536. change (2 ^ 24) with 16777216.
  change (2 ^ 32) with 4294967296.
  Z.div_mod_to_equations. lia.
Qed.

(** The length byte of an element that fits reads back as the length. *)
Lemma char_val_fits P v :
  0 <= v < (if char_signed P then 128 else 256) -> char_val P (byte_of_Z v) = v.
Proof.
  intros H. unfold char_val.
  rewrite byte_val_byte_of_Z by (destruct (char_signed P); lia).
  destruct (char_signed P); [|done]. cbn [andb].
  by rewrite (proj2 (Z.leb_gt _ _)) by lia.
Qed.

(** ** The element scan on well-formed elements *)

Lemma read_char_app P pre x rest :
  read_char P (pre ++ x :: rest) (Z.of_nat (length pre)) = Ret (char_val P x).
Proof.
  unfold read_char. rewrite (proj2 (Z.leb_le _ _)) by lia.
  rewrite Nat2Z.id, lookup_app_r by lia. by rewrite Nat.sub_diag.
Qed.

Lemma read_char_app1 P pre x y rest :
  read_char P (pre ++ x :: y :: rest) (Z.of_nat (length pre) + 1) = Ret (char_val P y).
Proof.
  replace (Z.of_nat (length pre) + 1) with (Z.of_nat (length (pre ++ [x])))
    by (rewrite length_app; cbn; lia).
  rewrite (cons_middle x pre), app_assoc. apply read_char_app.
Qed.

Lemma ie_encode_cons e rest :
  ie_encode (e :: rest) = e.1 :: byte_of_Z (Z.of_nat (length e.2)) :: e.2 ++ ie_encode rest.
Proof. done. Qed.

(** The scan started at an element boundary of well-formed elements walks
    from element to element and stops at the first one with the wanted id. *)
Lemma loop_encoded P id elems :
  Forall (ie_fits P) elems ->
  forall pre fuel,
    (length elems < fuel)%nat ->
    IE.loop fuel P (pre ++ ie_encode elems) (char_val P id) (Z.of_nat (length pre))
    = Ret ((fun o => Z.of_nat (length pre) + o) <$> ie_offset id elems).
Proof.
  induction 1 as [|e rest He _ IH]; intros pre fuel Hfuel.
  - destruct fuel as [|fuel]; [cbn in Hfuel; lia|].
    rewrite IEFacts.loop_S. unfold IE.body. cbn [ie_encode flat_map].
    rewrite app_nil_r.
    by rewrite (proj2 (Z.ltb_ge _ _)) by lia.
  - unfold ie_fits in He. destruct fuel as [|fuel]; [cbn in Hfuel; lia|]. cbn in Hfuel.
    rewrite IEFacts.loop_S. unfold IE.body. rewrite ie_encode_cons.
    rewrite (proj2 (Z.ltb_lt _ _)) by (rewrite length_app; cbn; lia).
    rewrite read_char_app1. rewrite (char_val_fits P _ (conj (Zle_0_nat _) He)).
    cbn [mbind outcome_bind obind].
    assert ((Z.of_nat (length pre) + 2 + Z.of_nat (length e.2)
             >? Z.of_nat (length (pre ++ e.1 :: byte_of_Z (Z.of_nat (length e.2))
                                       :: e.2 ++ ie_encode rest))) = false) as ->.
    { rewrite Z.gtb_ltb. apply Z.ltb_ge. rewrite length_app. cbn [length].
      rewrite length_app. lia. }
    rewrite read_char_app. cbn [mbind outcome_bind obind ie_offset].
    destruct (decide (e.1 = id)) as [->|Hne].
    + rewrite Z.eqb_refl. cbn. f_equal. f_equal. lia.
    + assert ((char_val P e.1 =? char_val P id) = false) as ->.
      { apply Z.eqb_neq. intros ?%char_val_inj. done. }
      specialize (IH (pre ++ e.1 :: byte_of_Z (Z.of_nat (length e.2)) :: e.2) fuel).
      rewrite <- app_assoc in IH. cbn [app] in IH.
      replace (Z.of_nat (length pre) + 2 + Z.of_nat (length e.2))
        with (Z.of_nat (length (pre ++ e.1 :: byte_of_Z (Z.of_nat (length e.2)) :: e.2)))
        by (rewrite length_app; cbn; lia).
      cbn [mbind outcome_bind obind]. rewrite IH by lia.
      destruct (ie_offset id rest) as [o|]; cbn; [|done].
      f_equal. f_equal. rewrite length_app. cbn. lia.
Qed.

Lemma ie_encode_length elems : (2 * length elems <= length (ie_encode elems))%nat.
Proof.
  induction elems as [|e rest IH]; [done|].
  rewrite ie_encode_cons. cbn. rewrite length_app. lia.
Qed.

Lemma loop_encoded_from_start P id elems :
  Forall (ie_fits P) elems ->
  IE.loop (S (length (ie_encode elems))) P (ie_encode elems) (char_val P id) 0
  = Ret (ie_offset id elems).
Proof.
  intros H.
  pose proof (loop_encoded P id elems H [] (S (length (ie_encode elems)))) as E.
  cbn [app length] in E. change (Z.of_nat 0) with 0 in E. rewrite E.
  - destruct (ie_offset id elems); cbn; done.
  - pose proof (ie_encode_length elems). lia.
Qed.

(** Where the first element with an id is, its length byte and payload are. *)
Lemma ie_split id elems o s :
  ie_offset id elems = Some o -> ie_payload id elems = Some s ->
  exists pre post,
    ie_encode elems = pre ++ id :: byte_of_Z (Z.of_nat (length s)) :: s ++ post /\
    Z.of_nat (length pre) = o.
Proof.
  revert o. induction elems as [|e rest IH]; intros o; cbn [ie_offset ie_payload];
    [discriminate|].
  rewrite ie_encode_cons. destruct (decide (e.1 = id)) as [<-|Hne].
  - intros [= <-] [= <-]. by exists [], (ie_encode rest).
  - destruct (ie_offset id rest) as [o'|] eqn:Eo; [|discriminate].
    intros [= <-] Hs. destruct (IH o' eq_refl Hs) as (pre & post & -> & <-).
    exists (e.1 :: byte_of_Z (Z.of_nat (length e.2)) :: e.2 ++ pre), post.
    split; [by rewrite <- !app_comm_cons, <- app_assoc|].
    cbn [length]. rewrite length_app. lia.
Qed.

Lemma ie_offset_payload id elems :
  is_Some (ie_offset id elems) <-> is_Some (ie_payload id elems).
Proof.
  induction elems as [|e rest IH]; cbn; [done|].
  destruct (decide (e.1 = id)); [by split; eauto|].
  rewrite <- IH. destruct (ie_offset id rest); cbn; split; intros [? ?]; eauto; done.
Qed.

(** X1.  Where plain [char] is unsigned, the scan of any buffer for any id
    ends; it reads inside the buffer only; and an offset it returns is that
    of an element with the wanted id whose length byte and payload lie
    inside the buffer.  (On a signed [char] the same scan can run for ever:
    [nl80211_get_ie_signed_length_byte].) *)
Theorem nl80211_get_ie_ends_where_char_is_unsigned P ies ie :
  char_signed P = false ->
  exists r, nl80211_get_ie P (Some ies) ie = Ret r /\
    forall p, r = Some p ->
      0 <= p /\ exists len, read_char P ies (p + 1) = Ret len /\ 0 <= len
                /\ p + 2 + len <= Z.of_nat (length ies)
                /\ read_char P ies p = Ret ie.
Proof.
  intros Hu. unfold nl80211_get_ie.
  apply (IEFacts.loop_unsigned P ies ie Hu (S (length ies)) 0); lia.
Qed.

Lemma nl80211_get_ie_ends_where_char_is_unsigned_aarch64 :
  char_signed aarch64 = false /\
  exists r, nl80211_get_ie aarch64 (Some [x01; xfe]) 0 = Ret r /\
    forall p, r = Some p ->
      0 <= p /\ exists len, read_char aarch64 [x01; xfe] (p + 1) = Ret len /\ 0 <= len
                /\ p + 2 + len <= Z.of_nat (length [x01; xfe])
                /\ read_char aarch64 [x01; xfe] p = Ret 0.
Proof.
  split; [reflexivity|].
  apply (nl80211_get_ie_ends_where_char_is_unsigned aarch64 [x01; xfe] 0). reflexivity.
Defined.

(** X2.  Decoding inverts encoding.  On the encoding of any list of
    elements that fit (payloads up to 127 bytes on a signed [char], 255 on
    an unsigned one), the scan for the id of the byte [id] returns the
    offset of the first element with that id, and the null pointer when
    there is none. *)
Theorem nl80211_get_ie_finds_first_element P id elems :
  Forall (ie_fits P) elems ->
  nl80211_get_ie P (Some (ie_encode elems)) (char_val P id) = Ret (ie_offset id elems).
Proof. intros H. unfold nl80211_get_ie. by apply loop_encoded_from_start. Qed.

Lemma example_elems_fit P : Forall (ie_fits P) Nl80211.example_elems.
Proof. repeat constructor; unfold ie_fits; destruct (char_signed P); reflexivity. Defined.

Lemma nl80211_get_ie_finds_first_element_at_example :
  Forall (ie_fits x86_64) Nl80211.example_elems /\
  nl80211_get_ie x86_64 (Some (ie_encode Nl80211.example_elems)) (char_val x86_64 xdd)
  = Ret (ie_offset xdd Nl80211.example_elems).
Proof.
  split; [apply example_elems_fit|].
  apply (nl80211_get_ie_finds_first_element x86_64 xdd Nl80211.example_elems).
  apply example_elems_fit.
Defined.

(** ** Requests on the Wi-Fi client's sockets *)

Module RequestFacts.
Import Nl80211.

Lemma command_names_NoDup :
  NoDup ("NL80211_CMD_UNKNOWN"%string :: (C2S <$> nl80211_commands)).
Proof. apply (bool_decide_unpack _). vm_compute. exact I. Qed.

Lemma command_name_known cmd :
  0 <= cmd < Z.of_nat (length nl80211_commands) ->
  (C2S <$> nl80211_commands) !! Z.to_nat cmd = Some (nl80211_command_to_string cmd).
Proof.
  intros H. unfold nl80211_command_to_string.
  rewrite (proj2 (Z.ltb_ge _ _)) by lia. rewrite list_lookup_fmap.
  destruct (lookup_lt_is_Some_2 nl80211_commands (Z.to_nat cmd)) as [x ->]; [lia|done].
Qed.

Lemma command_name_unknown cmd :
  ~ 0 <= cmd < Z.of_nat (length nl80211_commands) ->
  nl80211_command_to_string cmd = "NL80211_CMD_UNKNOWN"%string.
Proof.
  intros H. unfold nl80211_command_to_string.
  destruct (cmd <? 0) eqn:E; [done|]. apply Z.ltb_ge in E.
  rewrite lookup_ge_None_2; [done|lia].
Qed.

(** X3.  A command of the switch is determined by the name
    [nl80211_command_to_string] gives it: no two commands share a name, and
    none is named like the fallback ["NL80211_CMD_UNKNOWN"], which keeps
    its prefix while the known names lose theirs. *)
Theorem command_name_determines_code c1 c2 :
  0 <= c1 < Z.of_nat (length nl80211_commands) ->
  nl80211_command_to_string c1 = nl80211_command_to_string c2 ->
  c1 = c2.
Proof.
  intros H1 Heq. pose proof command_names_NoDup as Hnd.
  apply NoDup_cons in Hnd as [Hun Hnd].
  pose proof (command_name_known c1 H1) as E1.
  destruct (decide (0 <= c2 < Z.of_nat (length nl80211_commands))) as [H2|H2].
  - pose proof (command_name_known c2 H2) as E2. rewrite <- Heq in E2.
    pose proof (NoDup_lookup _ _ _ _ Hnd E1 E2). lia.
  - rewrite (command_name_unknown c2 H2) in Heq. rewrite Heq in E1.
    apply list_elem_of_lookup_2 in E1. done.
Qed.

Lemma command_name_determines_code_at_new_scan_results :
  0 <= NL80211_CMD_NEW_SCAN_RESULTS < Z.of_nat (length nl80211_commands) /\
  NL80211_CMD_NEW_SCAN_RESULTS = 34.
Proof.
  split; [vm_compute; split; [discriminate|reflexivity]|].
  apply (command_name_determines_code NL80211_CMD_NEW_SCAN_RESULTS 34).
  - vm_compute. split; [discriminate|reflexivity].
  - reflexivity.
Defined.

Lemma recv_while_done {W} fuel K cb reply (s : Z * W) :
  s.1 <= 0 -> recv_while fuel K cb reply s = Ret s.
Proof. intros H. destruct fuel; cbn; by rewrite gtb_false. Qed.

Lemma recv_while_never_positive {W} fuel K cb reply (s s' : Z * W) :
  recv_while fuel K cb reply s = Ret s' -> s'.1 <= 0.
Proof.
  revert reply s. induction fuel as [|fuel IH]; intros reply s; cbn.
  - destruct (s.1 >? 0) eqn:E; [discriminate|]. intros [= <-].
    rewrite Z.gtb_ltb in E. by apply Z.ltb_ge in E.
  - destruct (s.1 >? 0) eqn:E.
    + intros ([[res reply'] s1] & _ & H)%obind_ret. by apply IH in H.
    + intros [= <-]. rewrite Z.gtb_ltb in E. by apply Z.ltb_ge in E.
Qed.

(** X4.  What [send_and_recv] returns is never positive: its loop is left
    only with [err <= 0], and a failed send is negative.  With no handler
    for valid messages the caller's data is not touched. *)
Theorem send_and_recv_never_positive {W} K reply vh (d : W) r d' :
  send_and_recv K reply vh d = Ret (r, d') ->
  r <= 0 /\ (vh = None -> d' = d).
Proof.
  intros H. split.
  - revert H. unfold send_and_recv. destruct (k_send K <? 0) eqn:E.
    + intros [= <- <-]. apply Z.ltb_lt in E. lia.
    + intros H%recv_while_never_positive. done.
  - intros ->.
    apply (WifiFacts.send_and_recv_inv K None (fun x => x = d)) in H; [done| |done].
    intros h cmd attrs w r0 w' [=].
Qed.

Lemma send_and_recv_never_positive_at_eopnotsupp :
  -95 <= 0 /\
  ((@None (Z -> list (Z * nlattr) -> unit -> outcome (Z * unit))) = None -> tt = tt).
Proof.
  apply (send_and_recv_never_positive kernel_ok [[mkMsg false (NLMSG_ERROR (-95))]]
           None tt (-95) tt).
  reflexivity.
Defined.

Lemma send_and_recv_kernel_code {W} K mp e more rest vh (d : W) :
  0 <= k_send K -> e <= 0 ->
  send_and_recv K ((mkMsg mp (NLMSG_ERROR e) :: more) :: rest) vh d = Ret (e, d).
Proof.
  intros Hsend He. unfold send_and_recv.
  rewrite (proj2 (Z.ltb_ge _ _)) by lia.
  cbn [length recv_while fst]. cbn [Z.gtb Z.compare].
  unfold nl_recvmsgs. cbn [nl_recvmsgs_from recv_datagram recv_msg nlm_body].
  destruct (e =? 0) eqn:E0.
  - apply Z.eqb_eq in E0. subst e. cbn. by rewrite ?recv_while_done.
  - apply Z.eqb_neq in E0. cbn. rewrite (gtb_false e 0), andb_false_r by lia.
    cbn [fst]. by rewrite gtb_false by lia.
Qed.

(** X5.  The kernel's answer to a request it acknowledges ([e = 0]) or
    refuses ([e < 0]) is what [send_and_recv] returns, whatever libnl makes
    of the code, and whatever follows in the datagram or on the socket; the
    caller's data is as it was. *)
Theorem send_and_recv_returns_kernel_code {W} K mp e more rest vh (d : W) :
  0 <= k_send K -> e <= 0 ->
  send_and_recv K ((mkMsg mp (NLMSG_ERROR e) :: more) :: rest) vh d = Ret (e, d).
Proof. intros Hsend He. by apply send_and_recv_kernel_code. Qed.

Lemma send_and_recv_returns_kernel_code_at_eopnotsupp :
  0 <= k_send kernel_ok /\ -95 <= 0 /\
  send_and_recv kernel_ok [[mkMsg false (NLMSG_ERROR (-95))]]
    (Some (family_handler x86_64)) (mkIds 0 0)
  = Ret (-95, mkIds 0 0).
Proof.
  split; [reflexivity|]. split; [vm_compute; discriminate|].
  apply (send_and_recv_returns_kernel_code kernel_ok false (-95) [] []
           (Some (family_handler x86_64)) (mkIds 0 0)).
  - reflexivity.
  - vm_compute. discriminate.
Defined.

(** X6.  [trigger_scan] hands the kernel's answer on.  It allocates,
    connects, sends on and frees one socket of its own; when the kernel
    acknowledges the request the method returns [None] and leaves the error
    indicator as it was; when it refuses with the code [e] the method
    returns the null pointer with RuntimeError "triggering scan failed e"
    and a newline.  The listener is as it was and the observer is not called
    either way. *)
Theorem listener_trigger_scan_reports_kernel_answer K mp e more rest ifindex l w :
  k_socket_alloc K = true -> 0 <= k_genl_connect K -> 0 <= k_send K -> e <= 0 ->
  listener_trigger_scan K ((mkMsg mp (NLMSG_ERROR e) :: more) :: rest) ifindex (l, w)
  = Ret (if e <? 0
         then (None,
               (l, mkWorld (Some (mkPyErr PyExc_RuntimeError
                                    (Some (PyUnicode ("triggering scan failed "
                                                      +:+ pretty e +:+ newline)))
                                    None))
                           (calls w)
                           (io w ++ [SocketAlloc; SocketConnect;
                                     SocketSend (TRIGGER_SCAN ifindex); SocketFree])))
         else (Some PyNone,
               (l, mkWorld (py_err w) (calls w)
                           (io w ++ [SocketAlloc; SocketConnect;
                                     SocketSend (TRIGGER_SCAN ifindex); SocketFree])))).
Proof.
  intros Ha Hc Hs He. unfold listener_trigger_scan, nl80211_trigger_scan.
  rewrite Ha. cbn [negb]. rewrite (proj2 (Z.ltb_ge _ _)) by lia.
  rewrite send_and_recv_kernel_code by done.
  cbn [mbind outcome_bind obind].
  unfold PyErr_Format_nl, PyErr_SetString, with_py_err, log_io. cbn [py_err calls io].
  rewrite <- !app_assoc. by destruct (e <? 0).
Qed.

Lemma listener_trigger_scan_reports_kernel_answer_at_ebusy :
  listener_trigger_scan kernel_ok [[mkMsg false (NLMSG_ERROR (-16))]] 2
    (listener_new (Some quiet_observer), world0)
  = Ret (if -16 <? 0
         then (None,
               (listener_new (Some quiet_observer),
                mkWorld (Some (mkPyErr PyExc_RuntimeError
                                 (Some (PyUnicode ("triggering scan failed "
                                                   +:+ pretty (-16) +:+ newline)))
                                 None))
                        (calls world0)
                        (io world0 ++ [SocketAlloc; SocketConnect;
                                       SocketSend (TRIGGER_SCAN 2); SocketFree])))
         else (Some PyNone,
               (listener_new (Some quiet_observer),
                mkWorld (py_err world0) (calls world0)
                        (io world0 ++ [SocketAlloc; SocketConnect;
                                       SocketSend (TRIGGER_SCAN 2); SocketFree])))).
Proof.
  apply (listener_trigger_scan_reports_kernel_answer kernel_ok false (-16) [] [] 2
           (listener_new (Some quiet_observer)) world0).
  - reflexivity.
  - vm_compute. discriminate.
  - vm_compute. discriminate.
  - vm_compute. discriminate.
Defined.

Lemma until_nul_terminated s : x00 ∉ s -> until_nul (s ++ [x00]) = s.
Proof.
  induction s as [|b s IH]; [done|]. intros [Hb Hs]%not_elem_of_cons. cbn.
  assert ((byte_val b =? 0) = false) as ->.
  { apply Z.eqb_neq. intros ?%byte_val_zero. congruence. }
  by rewrite IH.
Qed.

Lemma strncmp_terminated s name :
  x00 ∉ s -> x00 ∉ name ->
  (strncmp (s ++ [x00]) name (Z.to_nat (nla_len (nla_put_string s))) =? 0)
  = bool_decide (s = name).
Proof.
  intros Hs Hname. rewrite nla_len_length. cbn [nla_put_string nla_data].
  pose proof (strncmp_zero (s ++ [x00]) name Hname) as H.
  unfold name_is in H. rewrite until_nul_terminated in H by done.
  destruct (decide (s = name)) as [->|Hne].
  - rewrite bool_decide_true by done. apply Z.eqb_eq, H. by left.
  - rewrite bool_decide_false by done. apply Z.eqb_neq. intros E.
    apply H in E as [?|[Hn _]]; [done|]. apply Hn, elem_of_app. right. left.
Qed.

Lemma parse_group_entry g :
  nla_parse CTRL_ATTR_MCAST_GRP_MAX (nla_nest (group_entry g)) no_policy
  = (0, <[CTRL_ATTR_MCAST_GRP_ID := nla_put_u32 g.2]>
          {[CTRL_ATTR_MCAST_GRP_NAME := nla_put_string g.1]}).
Proof.
  unfold nla_parse, group_entry. cbn [nla_nest nla_parse_into].
  change (no_policy _) with 0. rewrite !nla_len_nonneg. done.
Qed.

Lemma family_handler_group_entry g res :
  x00 ∉ g.1 ->
  family_handler_group (group_entry g) res
  = Ret (mkIds (if decide (g.1 = lit "mlme") then int_of_u32 g.2 else mlme_id res)
               (if decide (g.1 = lit "scan") then int_of_u32 g.2 else scan_id res)).
Proof.
  intros Hg. unfold family_handler_group. rewrite parse_group_entry. cbn [snd].
  rewrite lookup_insert_ne by done. rewrite lookup_singleton_eq, lookup_insert_eq.
  cbn [nla_data nla_put_string].
  change (Nla (g.1 ++ [x00]) []) with (nla_put_string g.1).
  rewrite !(strncmp_terminated g.1) by (done || apply lit_scan_no_nul || apply lit_mlme_no_nul).
  rewrite !nla_get_put_u32. destruct res as [m s].
  destruct (decide (g.1 = lit "scan")) as [Es|Es];
    destruct (decide (g.1 = lit "mlme")) as [Em|Em];
    rewrite ?(bool_decide_true (g.1 = lit "scan")), ?(bool_decide_false (g.1 = lit "scan")),
            ?(bool_decide_true (g.1 = lit "mlme")), ?(bool_decide_false (g.1 = lit "mlme"))
      by done;
    cbn [mbind outcome_bind obind mlme_id scan_id]; by rewrite ?int_of_u32_mod.
Qed.

Lemma family_handler_groups_entries attrs groups res :
  attrs.*2 = group_entry <$> groups ->
  Forall (fun g => x00 ∉ g.1) groups ->
  family_handler_groups attrs res
  = Ret (mkIds (resolved (lit "mlme") groups (mlme_id res))
               (resolved (lit "scan") groups (scan_id res))).
Proof.
  intros Hattrs Hg. revert attrs res Hattrs.
  induction Hg as [|g groups Hg _ IH]; intros attrs res Hattrs.
  - destruct attrs; [|done]. by destruct res.
  - destruct attrs as [|[ty a] attrs]; [done|]. cbn in Hattrs.
    injection Hattrs as -> Hattrs. cbn [family_handler_groups].
    rewrite family_handler_group_entry by done. cbn [mbind outcome_bind obind].
    rewrite (IH attrs _ Hattrs). done.
Qed.

Lemma family_handler_of_groups P cmd attrs groups res :
  CTRL_ATTR_MCAST_GROUPS <= CTRL_ATTR_MAX P ->
  attrs.*2 = group_entry <$> groups ->
  Forall (fun g => x00 ∉ g.1) groups ->
  family_handler P cmd [(CTRL_ATTR_MCAST_GROUPS, Nla [] attrs)] res
  = Ret (NL_SKIP, mkIds (resolved (lit "mlme") groups (mlme_id res))
                        (resolved (lit "scan") groups (scan_id res))).
Proof.
  intros Hmax Hattrs Hg. unfold family_handler, nla_parse. cbn [nla_parse_into].
  assert (((CTRL_ATTR_MCAST_GROUPS <? 0) || (CTRL_ATTR_MAX P <? CTRL_ATTR_MCAST_GROUPS))
          = false) as ->.
  { apply orb_false_iff. split; apply Z.ltb_ge; [done|lia]. }
  change (no_policy _) with 0. rewrite nla_len_nonneg.
  cbn [snd]. rewrite lookup_insert_eq. cbn [nla_nest].
  by rewrite (family_handler_groups_entries attrs groups res Hattrs Hg).
Qed.

Lemma nl_get_multicast_ids_of_groups K P attrs groups stack :
  0 <= k_send K ->
  CTRL_ATTR_MCAST_GROUPS <= CTRL_ATTR_MAX P ->
  attrs.*2 = group_entry <$> groups ->
  Forall (fun g => x00 ∉ g.1) groups ->
  k_family_reply K = getfamily_reply attrs ->
  nl_get_multicast_ids K P stack
  = Ret (0, mkIds (resolved (lit "mlme") groups (mlme_id stack))
                  (resolved (lit "scan") groups (scan_id stack))).
Proof.
  intros Hsend Hmax Hattrs Hg Hreply. unfold nl_get_multicast_ids, send_and_recv.
  rewrite (proj2 (Z.ltb_ge _ _)) by lia. rewrite Hreply. unfold getfamily_reply.
  cbn [length recv_while fst]. cbn [Z.gtb Z.compare]. unfold nl_recvmsgs.
  cbn -[family_handler].
  rewrite (family_handler_of_groups P 1 attrs groups stack Hmax Hattrs Hg).
  cbn. done.
Qed.



End RequestFacts.

(** ** Replies that end with NLMSG_DONE *)

Module DrainFacts.
Import Nl80211 RequestFacts.

Section Drain.
Context {W : Type} (K : kernel) (h : Z -> list (Z * nlattr) -> W -> outcome (Z * W)).
Context (J : nat -> W -> Prop) (dgs : list (list nl_msg)).
Hypothesis Hstep : forall n dg s mp,
  dgs !! n = Some dg -> J n s ->
  exists c mp' s',
    recv_datagram (k_syserr2nlerr K) (request_cb (Some h)) dg mp (1, s)
    = Ret (c, mp', (1, s')) /\
    (c = PNext \/ c = PStop) /\ J (S n) s'.

Lemma recv_drain rest :
  forall n mp s fuel,
    drop n dgs = rest -> (n <= length dgs)%nat -> J n s -> (length rest <= fuel)%nat ->
    exists s',
      (x ← nl_recvmsgs_from (k_syserr2nlerr K) true (request_cb (Some h))
             (rest ++ [[mkMsg true NLMSG_DONE]]) mp (1, s);
       recv_while fuel K (request_cb (Some h)) x.1.2
         (if (x.1.1 <? 0) && (x.2.1 >? 0) then (x.1.1, x.2.2) else x.2))
      = Ret (0, s') /\ J (length dgs) s'.
Proof using Hstep.
  induction rest as [|dg rest IH]; intros n mp s fuel Hdrop Hn Hs Hfuel.
  - exists s. cbn. rewrite recv_while_done by done. split; [done|].
    assert (n = length dgs) as <-; [|done].
    pose proof (length_drop dgs n) as Hl. rewrite Hdrop in Hl. cbn in Hl. lia.
  - assert (dgs !! n = Some dg) as Hdg.
    { pose proof (lookup_drop dgs n 0) as H. rewrite Hdrop in H. cbn in H.
      by rewrite Nat.add_0_r in H. }
    assert (drop (S n) dgs = rest) as Hdrop'.
    { replace (S n) with (n + 1)%nat by lia. rewrite <- drop_drop, Hdrop. done. }
    assert (S n <= length dgs)%nat as Hn' by (apply lookup_lt_Some in Hdg; lia).
    destruct (Hstep n dg s mp Hdg Hs) as (c & mp' & s1 & E & Hc & Hs1).
    cbn [app nl_recvmsgs_from]. rewrite E. cbn [mbind outcome_bind obind].
    cbn in Hfuel.
    assert (exists s',
              (x ← Ret (0, rest ++ [[mkMsg true NLMSG_DONE]], (1, s1));
               recv_while fuel K (request_cb (Some h)) x.1.2
                 (if (x.1.1 <? 0) && (x.2.1 >? 0) then (x.1.1, x.2.2) else x.2))
              = Ret (0, s') /\ J (length dgs) s') as Hround.
    { destruct fuel as [|fuel]; [lia|].
      cbn [mbind outcome_bind obind fst snd Z.ltb Z.compare andb recv_while].
      cbn [Z.gtb Z.compare]. unfold nl_recvmsgs.
      destruct (IH (S n) false s1 fuel Hdrop' Hn' Hs1) as (s' & E' & Hs'); [lia|].
      exists s'. split; [|done]. rewrite <- E'. unfold mbind, outcome_bind, obind.
      destruct (nl_recvmsgs_from _ _ _ _ _ _) as [[[res q] s2]| |]; done. }
    destruct Hc as [-> | ->]; [|exact Hround].
    destruct mp'; [|exact Hround].
    apply (IH (S n) true s1 fuel Hdrop' Hn' Hs1). lia.
Qed.

(** A request whose reply ends with NLMSG_DONE in a datagram of its own:
    [send_and_recv] handles the datagrams before it one after the other, each
    from the state the one before left, whether or not a handler stopped the
    parse of a datagram, and returns 0. *)
Lemma send_and_recv_drain s :
  0 <= k_send K -> J 0%nat s ->
  exists s',
    send_and_recv K (dgs ++ [[mkMsg true NLMSG_DONE]]) (Some h) s = Ret (0, s') /\
    J (length dgs) s'.
Proof using Hstep.
  intros Hsend Hs. unfold send_and_recv.
  rewrite (proj2 (Z.ltb_ge _ _)) by lia.
  cbn [recv_while fst]. cbn [Z.gtb Z.compare]. unfold nl_recvmsgs.
  destruct (recv_drain dgs 0%nat false s (length (dgs ++ [[mkMsg true NLMSG_DONE]])))
    as (s' & E & Hs'); [done|lia|done|rewrite length_app; lia|].
  exists s'. split; [|done]. rewrite <- E.
  unfold mbind, outcome_bind, obind.
  destruct (nl_recvmsgs_from _ _ _ _ _ _) as [[[res q] s2]| |]; done.
Qed.

End Drain.
End DrainFacts.

(** ** Scan dumps *)

Module ScanFacts.
Import Nl80211 RequestFacts DrainFacts.

Lemma ie_payload_In id elems s : ie_payload id elems = Some s -> (id, s) ∈ elems.
Proof.
  induction elems as [|e rest IH]; cbn; [done|].
  destruct (decide (e.1 = id)) as [<-|].
  - intros [= <-]. destruct e. left.
  - intros. right. auto.
Qed.

Lemma parse_bss_entry P b :
  NL80211_BSS_STATUS <= NL80211_BSS_MAX P ->
  nla_parse_nested (NL80211_BSS_MAX P) (bss_entry b) bss_policy
  = (0, match b.2 with
        | Some st => <[NL80211_BSS_STATUS := nla_put_u32 st]>
                       {[NL80211_BSS_INFORMATION_ELEMENTS := Nla (ie_encode b.1) []]}
        | None => {[NL80211_BSS_INFORMATION_ELEMENTS := Nla (ie_encode b.1) []]}
        end).
Proof.
  unfold NL80211_BSS_STATUS. intros Hmax.
  unfold nla_parse_nested, nla_parse, bss_entry. cbn [nla_nest nla_parse_into].
  assert ((NL80211_BSS_MAX P <? NL80211_BSS_INFORMATION_ELEMENTS) = false) as ->
    by (apply Z.ltb_ge; unfold NL80211_BSS_INFORMATION_ELEMENTS; lia).
  destruct b as [elems [st|]]; cbn [fst snd nla_parse_into orb].
  - assert ((NL80211_BSS_MAX P <? NL80211_BSS_STATUS) = false) as ->
      by (apply Z.ltb_ge; unfold NL80211_BSS_STATUS; lia).
    cbn. rewrite (proj2 (Z.ltb_ge _ 0)) by (unfold nla_len; lia). done.
  - cbn. rewrite (proj2 (Z.ltb_ge _ 0)) by (unfold nla_len; lia). done.
Qed.

(** [extract_ssid] on an encoded BSS, up to the call of [PyList_Append]. *)
Lemma extract_ssid_bss_entry P b p w ssid :
  NL80211_BSS_STATUS <= NL80211_BSS_MAX P ->
  Forall (ie_fits P) b.1 ->
  ie_payload x00 b.1 = Some ssid ->
  extract_ssid P (bss_entry b) (p, w)
  = if listed (only_connected p) b
    then if hash_length_is_int P
         then match ssid_list p with
              | Some items =>
                  Ret (mkParams (Some (items ++ [ssid_pair ssid b.2])) (only_connected p), w)
              | None => Fault NullDeref
              end
         else Ret (mkParams None (only_connected p),
                   PyErr_SetString PyExc_SystemError hash_format_refused w)
    else Ret (p, w).
Proof.
  intros Hmax Hlen Hssid. unfold extract_ssid.
  rewrite (parse_bss_entry P b Hmax). cbn [negb Z.eqb].
  destruct (ie_offset_payload x00 b.1) as [_ [o Ho]]; [eauto|].
  destruct (ie_split _ _ _ _ Ho Hssid) as (pre & post & Henc & Hpre).
  assert (ie_fits P (x00, ssid)) as Hs.
  { apply ie_payload_In in Hssid. rewrite Forall_forall in Hlen.
    apply (Hlen _ Hssid). }
  unfold ie_fits in Hs. cbn [snd] in Hs.
  assert (forall st,
    (ie_len ← nla_len_at (Some (Nla (ie_encode b.1) []));
     ssid0 ← nl80211_get_ie P (Some (ie_encode b.1)) 0;
     match Some (ie_encode b.1), ssid0 with
     | Some buf, Some pos =>
         ssid_len ← read_char P buf (pos + 1);
         '(payload, w) ← Py_BuildValue_y P buf (pos + 2) ssid_len w;
         match payload with
         | None => Ret (mkParams None (only_connected p), w)
         | Some payload =>
             let v := PyTuple [PyBytes payload; PyUnicode st] in
             '(r, items) ← PyList_Append (ssid_list p) v;
             if (r : Z) <? 0 then Ret (mkParams None (only_connected p), w)
             else Ret (mkParams (Some items) (only_connected p), w)
         end
     | _, _ => Fault NullDeref
     end)
    = if hash_length_is_int P
      then match ssid_list p with
           | Some items =>
               Ret (mkParams (Some (items ++ [PyTuple [PyBytes ssid; PyUnicode st]]))
                             (only_connected p), w)
           | None => Fault NullDeref
           end
      else Ret (mkParams None (only_connected p),
                PyErr_SetString PyExc_SystemError hash_format_refused w)) as Hbody.
  { intros st. cbn [nla_len_at mbind outcome_bind obind].
    rewrite <- (char_val_nul P) at 1.
    unfold nl80211_get_ie. rewrite (loop_encoded_from_start P x00 b.1 Hlen), Ho.
    cbn [mbind outcome_bind obind]. rewrite Henc, <- Hpre.
    rewrite read_char_app1, char_val_fits by (split; [lia|exact Hs]).
    cbn [mbind outcome_bind obind]. unfold Py_BuildValue_y.
    destruct (hash_length_is_int P); cbn [negb]; [|done].
    rewrite (proj2 (Z.ltb_ge _ _)) by lia.
    rewrite (proj2 (Z.ltb_ge _ _)) by lia.
    rewrite (proj2 (Z.leb_le _ _))
      by (rewrite length_app; cbn [length]; rewrite length_app; lia).
    replace (Z.to_nat (Z.of_nat (length pre) + 2))
      with (length (pre ++ [x00; byte_of_Z (Z.of_nat (length ssid))]))
      by (rewrite length_app; cbn; lia).
    replace (pre ++ x00 :: byte_of_Z (Z.of_nat (length ssid)) :: ssid ++ post)
      with ((pre ++ [x00; byte_of_Z (Z.of_nat (length ssid))]) ++ ssid ++ post)
      by (by rewrite <- app_assoc).
    rewrite drop_app_length, Nat2Z.id, take_app_length.
    cbn [mbind outcome_bind obind]. by destruct (ssid_list p). }
  destruct b as [elems [st|]]; cbn [fst snd] in *.
  - rewrite lookup_insert_eq. rewrite nla_get_put_u32.
    cbn [mbind outcome_bind obind negb].
    rewrite lookup_insert_ne by done. rewrite lookup_singleton_eq.
    cbn [fmap option_fmap option_map nla_data].
    rewrite Hbody. unfold listed, ssid_pair, status_text. cbn [snd].
    rewrite int_of_u32_mod.
    rewrite bool_decide_true by eauto. by rewrite orb_true_r.
  - rewrite (lookup_singleton_ne NL80211_BSS_INFORMATION_ELEMENTS NL80211_BSS_STATUS) by done.
    cbn [mbind outcome_bind obind]. unfold listed. cbn [snd].
    rewrite bool_decide_false by (by intros [? ?]). rewrite orb_false_r.
    destruct (only_connected p) eqn:Hoc; cbn [negb]; [done|].
    rewrite lookup_singleton_eq. cbn [fmap option_fmap option_map nla_data].
    by rewrite Hbody.
Qed.



(** The same BSS on a build against CPython 3.10 to 3.12. *)
Example extract_ssid_of_encoded_bss_where_hash_is_refused :
  extract_ssid x86_64_py310 (bss_entry (example_elems, Some 1))
    (mkParams (Some []) true, world0)
  = Ret (mkParams None true, mkWorld (Some hash_error) [] []).
Proof. reflexivity. Qed.



Lemma parse_scan_msg P ifidx b :
  NL80211_ATTR_BSS <= NL80211_ATTR_MAX P ->
  nla_parse (NL80211_ATTR_MAX P)
    [(NL80211_ATTR_IFINDEX, nla_put_u32 ifidx); (NL80211_ATTR_BSS, bss_entry b)]
    no_policy
  = (0, <[NL80211_ATTR_BSS := bss_entry b]>
          {[NL80211_ATTR_IFINDEX := nla_put_u32 ifidx]}).
Proof.
  intros Hmax. unfold nla_parse. cbn [nla_parse_into].
  assert ((NL80211_ATTR_MAX P <? NL80211_ATTR_IFINDEX) = false) as ->
    by (apply Z.ltb_ge; unfold NL80211_ATTR_IFINDEX, NL80211_ATTR_BSS in *; lia).
  assert ((NL80211_ATTR_MAX P <? NL80211_ATTR_BSS) = false) as ->
    by (apply Z.ltb_ge; lia).
  change (no_policy _) with 0. rewrite !nla_len_nonneg. done.
Qed.

(** Once the list is dropped, what follows does not bring it back. *)
Lemma dump_state_null P oc w pre more :
  ssid_list (dump_state P oc w pre).1 = None ->
  dump_state P oc w (pre ++ more) = dump_state P oc w pre.
Proof.
  unfold dump_state. rewrite forallb_app.
  destruct (hash_length_is_int P); cbn [orb]; [done|].
  by destruct (forallb _ pre).
Qed.

Lemma listing_listed P oc b :
  well_formed_bss P b -> listed oc b = false <-> listing oc b = None.
Proof.
  intros [_ [ssid Hssid]]. unfold listing. rewrite Hssid.
  by destruct (listed oc b).
Qed.

(** One message of a scan dump takes the handler from what the entries
    before it gave to what they give together with its own. *)
Lemma nl80211_scan_handler_scan_msg P cmd ifidx b oc w pre :
  headers_cover P -> 0 <= ifidx < 2 ^ 31 -> well_formed_bss P b ->
  exists r,
    nl80211_scan_handler P cmd
      [(NL80211_ATTR_IFINDEX, nla_put_u32 ifidx); (NL80211_ATTR_BSS, bss_entry b)]
      (dump_state P oc w pre)
    = Ret (r, dump_state P oc w (pre ++ [b])) /\
    (r = NL_SKIP \/
     (r = NL_STOP /\ ssid_list (dump_state P oc w (pre ++ [b])).1 = None)).
Proof.
  intros (Hattr & Hbss & _) Hidx [Hlen [ssid Hssid]]. unfold nl80211_scan_handler.
  rewrite (parse_scan_msg P ifidx b Hattr). cbn [snd].
  rewrite (lookup_insert_ne _ NL80211_ATTR_BSS NL80211_ATTR_IFINDEX) by done.
  rewrite lookup_singleton_eq, lookup_insert_eq.
  rewrite nla_get_put_u32. cbn [mbind outcome_bind obind].
  rewrite int_of_u32_mod, int_of_u32_small by done.
  rewrite (proj2 (Z.ltb_ge _ _)) by lia.
  assert (listing oc b = if listed oc b then Some (ssid_pair ssid b.2) else None)
    as Hl by (unfold listing; by rewrite Hssid).
  unfold dump_state. rewrite forallb_app, omap_app. cbn [forallb omap list_omap].
  rewrite Hl.
  destruct (hash_length_is_int P) eqn:Hpy, (forallb _ pre) eqn:Hpre,
    (listed oc b) eqn:Hb; cbn [orb andb negb];
    rewrite (extract_ssid_bss_entry P b _ _ ssid Hbss Hlen Hssid);
    cbn [only_connected ssid_list]; rewrite ?Hb, ?Hpy;
    cbn [mbind outcome_bind obind fst snd ssid_list option_list app];
    rewrite ?app_nil_r; eauto.
Qed.

Section Dump.
Context (K : kernel) (P : platform) (ifidx : Z) (oc : bool) (w : world).
Hypothesis Hcover : headers_cover P.
Hypothesis Hidx : 0 <= ifidx < 2 ^ 31.

Lemma recv_datagram_scan_msgs bs :
  Forall (well_formed_bss P) bs ->
  forall pre mp e,
    exists c mp',
      recv_datagram (k_syserr2nlerr K) (request_cb (Some (nl80211_scan_handler P)))
        (map (scan_msg ifidx) bs) mp (e, dump_state P oc w pre)
      = Ret (c, mp', (e, dump_state P oc w (pre ++ bs))) /\
      (c = PNext \/ c = PStop).
Proof using Hcover Hidx.
  induction 1 as [|b bs Hb _ IH]; intros pre mp e.
  - exists PNext, mp. cbn. rewrite app_nil_r. eauto.
  - cbn [map recv_datagram]. unfold recv_msg at 1.
    cbn [scan_msg nlm_body nlm_multi request_cb cb_valid mbind option_bind snd fst].
    destruct (nl80211_scan_handler_scan_msg P NL80211_CMD_NEW_SCAN_RESULTS ifidx b oc w
                pre Hcover Hidx Hb) as (r & -> & Hr).
    cbn [mbind outcome_bind obind].
    destruct Hr as [->|[-> Hnull]].
    + cbn [NL_CB_CALL NL_SKIP NL_OK Z.eqb].
      destruct (IH (pre ++ [b]) (mp || true) e) as (c & mp' & E & Hc).
      rewrite <- app_assoc in E. cbn [app] in E. rewrite E. eauto.
    + cbn [NL_CB_CALL NL_STOP NL_SKIP NL_OK Z.eqb].
      exists PStop, (mp || true). split; [|by right].
      rewrite <- (dump_state_null P oc w (pre ++ [b]) bs Hnull).
      by rewrite <- app_assoc.
Qed.

Lemma send_and_recv_dump dgs :
  0 <= k_send K ->
  Forall (Forall (well_formed_bss P)) dgs ->
  send_and_recv K (map (map (scan_msg ifidx)) dgs ++ [[mkMsg true NLMSG_DONE]])
    (Some (nl80211_scan_handler P)) (mkParams (Some []) oc, w)
  = Ret (0, dump_state P oc w (concat dgs)).
Proof using Hcover Hidx.
  intros Hsend Hdgs.
  destruct (send_and_recv_drain K (nl80211_scan_handler P)
              (fun n s => s = dump_state P oc w (concat (take n dgs)))
              (map (map (scan_msg ifidx)) dgs)) with (s := (mkParams (Some []) oc, w))
    as (s' & E & Hs').
  - intros n dg s mp Hdg ->.
    rewrite list_lookup_fmap in Hdg.
    destruct (dgs !! n) as [bs|] eqn:Hbs; [|done]. injection Hdg as <-.
    assert (Forall (well_formed_bss P) bs) as Hwf.
    { rewrite Forall_forall in Hdgs. apply Hdgs. by eapply list_elem_of_lookup_2. }
    destruct (recv_datagram_scan_msgs bs Hwf (concat (take n dgs)) mp 1)
      as (c & mp' & E & Hc).
    exists c, mp', (dump_state P oc w (concat (take n dgs) ++ bs)).
    split; [exact E|]. split; [exact Hc|].
    rewrite (take_S_r _ _ _ Hbs), concat_app. cbn. by rewrite app_nil_r.
  - done.
  - unfold dump_state. cbn. by rewrite orb_true_r.
  - rewrite E. rewrite Hs', length_map, firstn_all. done.
Qed.

End Dump.


Lemma headers_cover_x86_64 : headers_cover x86_64.
Proof. repeat split; vm_compute; discriminate. Defined.

Lemma example_dump_well_formed : Forall (Forall (well_formed_bss x86_64)) example_dump.
Proof.
  repeat constructor; try (unfold ie_fits; reflexivity); cbn; eauto.
Defined.


(** The example dump, evaluated: the SSID ["lab"] as connected, then
    ["guest"] without status. *)
Example dump_of_example_dump :
  omap (listing false) (concat example_dump)
  = [PyTuple [PyBytes (lit "lab"); PyUnicode "Connected"];
     PyTuple [PyBytes (lit "guest"); PyUnicode "no status"]].
Proof. reflexivity. Qed.

(** The same dump on a build against CPython 3.10 to 3.12: nothing is
    listed, and the dump restricted to connected entries fails as well. *)
Example dump_of_example_dump_where_hash_is_refused :
  dump_scan_results kernel_with_dump x86_64_py310 (listener_new None) 2 false world0
  = Ret (None, mkWorld (Some hash_error) []
                 [SocketAlloc; SocketConnect; SocketSend (GET_SCAN 2); SocketFree]) /\
  dump_scan_results kernel_with_dump x86_64_py310 (listener_new None) 2 true world0
  = Ret (None, mkWorld (Some hash_error) []
                 [SocketAlloc; SocketConnect; SocketSend (GET_SCAN 2); SocketFree]).
Proof. split; reflexivity. Qed.

End ScanFacts.

(** ** Events of the Wi-Fi listener *)

Module EventFacts.
Import Nl80211 RequestFacts.

Lemma dump_scan_results_success K P l ifidx oc w ssids w' :
  dump_scan_results K P l ifidx oc w = Ret (Some ssids, w') ->
  py_err w' = py_err w /\ calls w' = calls w.
Proof.
  intros H. apply WifiFacts.dump_scan_results_inv in H as (Hc & _ & He).
  split; [|done]. apply He. eauto.
Qed.

Lemma observe_wlan_event_quiet l ifindex cmd extra w obs :
  observer l = Some obs -> never_raises obs -> exc_typ l = None -> py_err w = None ->
  exists d,
    observe_wlan_event l ifindex cmd extra w
    = (NL_SKIP, (l, mkWorld None (calls w ++ [mkCall "wlan_event" [PyDict d] None]) (io w)))
    /\ d = match extra with
           | Some e => PyDict_Update [("cmd"%string, PyUnicode cmd);
                                      ("ifindex"%string, PyLong ifindex)] e
           | None => [("cmd"%string, PyUnicode cmd); ("ifindex"%string, PyLong ifindex)]
           end.
Proof.
  intros Ho Hq Ht Hw. unfold observe_wlan_event. rewrite Ht, Ho.
  unfold PyObject_CallMethod, PyErr_Occurred. cbn [py_err calls io PyDict_SetItemString].
  cbn [String.eqb Ascii.eqb Bool.eqb]. rewrite !Hq, Hw.
  rewrite bool_decide_false by (by intros [? ?]).
  eexists. split; [reflexivity|done].
Qed.

Lemma event_handler_delivers K P cmd attrs mp l w obs :
  observer l = Some obs -> never_raises obs -> exc_typ l = None -> py_err w = None ->
  dumps_succeed K P l ->
  returns (event_ifindex P attrs) ->
  exists c w',
    event_handler K P cmd attrs (l, w) = Ret (NL_SKIP, (l, w')) /\
    py_err w' = None /\ calls w' = calls w ++ [c] /\
    delivers P (mkMsg mp (GENL cmd attrs)) c.
Proof.
  intros Ho Hq Ht Hw Hdump [ifidx Hidx]. unfold event_handler.
  unfold event_ifindex in Hidx. rewrite Hidx. cbn [mbind outcome_bind obind].
  assert (forall extra w1, py_err w1 = None -> calls w1 = calls w ->
            (extra = None \/ exists v, extra = Some [("ssids"%string, v)]) ->
            exists c w',
              Ret (observe_wlan_event l ifidx (nl80211_command_to_string cmd) extra w1)
              = Ret (NL_SKIP, (l, w')) /\
              py_err w' = None /\ calls w' = calls w ++ [c] /\
              delivers P (mkMsg mp (GENL cmd attrs)) c) as Hobs.
  { intros extra w1 Hw1 Hc1 Hextra.
    destruct (observe_wlan_event_quiet l ifidx (nl80211_command_to_string cmd)
                extra w1 obs Ho Hq Ht Hw1) as (d & -> & Hd).
    eexists _, _. split; [reflexivity|]. cbn [py_err calls].
    split; [done|]. split; [by rewrite Hc1|].
    exists cmd, attrs, ifidx, d. cbn [nlm_body c_method c_args c_raised].
    unfold event_ifindex. rewrite Hidx.
    repeat split; destruct Hextra as [->|[v ->]]; subst d; reflexivity. }
  assert (forall oc, exists c w',
            ('(ssids, w1) ← dump_scan_results K P l ifidx oc w;
             match ssids with
             | None => Ret (NL_STOP, (l, w1))
             | Some ssids =>
                 Ret (observe_wlan_event l ifidx (nl80211_command_to_string cmd)
                        (Some [("ssids"%string, ssids)]) w1)
             end) = Ret (NL_SKIP, (l, w')) /\
            py_err w' = None /\ calls w' = calls w ++ [c] /\
            delivers P (mkMsg mp (GENL cmd attrs)) c) as Hd.
  { intros oc. destruct (Hdump ifidx oc w) as (ssids & w1 & E). rewrite E.
    cbn [mbind outcome_bind obind].
    destruct (dump_scan_results_success _ _ _ _ _ _ _ _ E) as [He Hc].
    apply Hobs; [congruence|done|eauto]. }
  repeat case_match; eauto.
Qed.

Lemma recv_datagram_events K P msgs l w obs :
  observer l = Some obs -> never_raises obs -> exc_typ l = None -> py_err w = None ->
  dumps_succeed K P l ->
  Forall (plain_event P) msgs ->
  exists w' new,
    recv_datagram (k_syserr2nlerr K) (event_cb K P) msgs false (l, w)
    = Ret (PNext, false, (l, w')) /\
    py_err w' = None /\ calls w' = calls w ++ new /\ Forall2 (delivers P) msgs new.
Proof.
  intros Ho Hq Ht Hw Hdump Hmsgs. revert w Hw.
  induction Hmsgs as [|m msgs Hm _ IH]; intros w Hw.
  - exists w, []. cbn. by rewrite app_nil_r.
  - destruct m as [mp body]. destruct Hm as [Hmp (cmd & attrs & Hbody & Hret)].
    cbn in Hmp, Hbody. subst mp body.
    destruct (event_handler_delivers K P cmd attrs false l w obs Ho Hq Ht Hw Hdump Hret)
      as (c & w1 & E & Hw1 & Hc1 & Hdel).
    destruct (IH w1 Hw1) as (w' & new & E' & Hw' & Hc' & Hall).
    exists w', (c :: new). cbn [recv_datagram]. unfold recv_msg at 1.
    cbn [nlm_body nlm_multi event_cb cb_valid orb]. rewrite E.
    cbn [mbind outcome_bind obind NL_CB_CALL]. cbn [NL_SKIP NL_OK Z.eqb].
    rewrite E'. split; [done|]. split; [done|].
    split; [by rewrite Hc', Hc1, <- app_assoc|]. by constructor.
Qed.

(** X11.  [data_ready] handles one datagram.  With an observer that never
    raises, an empty fault slot and no error pending, every event of the
    first queued datagram (generic-netlink messages outside a multipart
    sequence) is delivered to [wlan_event] exactly once, in the order of the
    datagram, each with its command name and interface index; the method
    returns [None] with no error set and leaves the listener as it was. *)
Theorem data_ready_delivers_one_datagram K P msgs rest l w obs :
  observer l = Some obs -> never_raises obs -> exc_typ l = None -> err l = 0 ->
  py_err w = None ->
  dumps_succeed K P l ->
  Forall (plain_event P) msgs ->
  exists w' new,
    listener_data_ready K P (msgs :: rest) (l, w) = Ret (Some PyNone, (l, w')) /\
    py_err w' = None /\ calls w' = calls w ++ new /\ Forall2 (delivers P) msgs new.
Proof.
  intros Ho Hq Ht He Hw Hdump Hmsgs.
  destruct (recv_datagram_events K P msgs l w obs Ho Hq Ht Hw Hdump Hmsgs)
    as (w' & new & E & Hw' & Hc & Hall).
  exists w', new. unfold listener_data_ready, nl_recvmsgs.
  cbn [nl_recvmsgs_from]. rewrite E. cbn [mbind outcome_bind obind].
  unfold maybe_restore. rewrite Ht, He. done.
Qed.

Lemma kernel_ok_dumps_succeed l : dumps_succeed kernel_ok x86_64 l.
Proof. intros ifidx [] w; eexists _, _; reflexivity. Defined.

Lemma three_events_plain : Forall (plain_event x86_64) (concat three_events).
Proof.
  repeat constructor; eexists _, _; (split; [reflexivity|]); eexists; reflexivity.
Defined.

Lemma data_ready_delivers_one_datagram_at_three_events :
  exists w' new,
    listener_data_ready kernel_ok x86_64 (concat three_events :: [])
      (listener_new (Some quiet_observer), world0)
    = Ret (Some PyNone, (listener_new (Some quiet_observer), w')) /\
    py_err w' = None /\ calls w' = calls world0 ++ new /\
    Forall2 (delivers x86_64) (concat three_events) new.
Proof.
  apply (data_ready_delivers_one_datagram kernel_ok x86_64 (concat three_events) []
           (listener_new (Some quiet_observer)) world0 quiet_observer).
  - reflexivity.
  - intros h n a. reflexivity.
  - reflexivity.
  - reflexivity.
  - reflexivity.
  - apply kernel_ok_dumps_succeed.
  - apply three_events_plain.
Defined.

Section StartDump.
Context (K : kernel) (P : platform) (l : Listener) (obs : observer_t).
Hypothesis Ho : observer l = Some obs.
Hypothesis Hq : never_raises obs.
Hypothesis Ht : exc_typ l = None.
Hypothesis Hdump : dumps_succeed K P l.

Lemma recv_datagram_interfaces msgs mp w :
  py_err w = None -> Forall (wlan_message P) msgs ->
  exists mp' w' new,
    recv_datagram (k_syserr2nlerr K) (request_cb (Some (event_handler K P))) msgs mp (1, (l, w))
    = Ret (PNext, mp', (1, (l, w'))) /\
    py_err w' = None /\ calls w' = calls w ++ new /\ Forall2 (delivers P) msgs new.
Proof using Ho Hq Ht Hdump.
  intros Hw Hmsgs. revert mp w Hw.
  induction Hmsgs as [|m msgs Hm _ IH]; intros mp w Hw.
  - exists mp, w, []. cbn. by rewrite app_nil_r.
  - destruct m as [multi body]. destruct Hm as (cmd & attrs & Hbody & Hret).
    cbn in Hbody. subst body.
    destruct (event_handler_delivers K P cmd attrs multi l w obs Ho Hq Ht Hw Hdump Hret)
      as (c & w1 & E & Hw1 & Hc1 & Hdel).
    destruct (IH (mp || multi) w1 Hw1) as (mp' & w' & new & E' & Hw' & Hc' & Hall).
    exists mp', w', (c :: new). cbn [recv_datagram]. unfold recv_msg at 1.
    cbn [nlm_body nlm_multi request_cb cb_valid mbind option_bind snd fst].
    rewrite E. cbn [mbind outcome_bind obind NL_CB_CALL]. cbn [NL_SKIP NL_OK Z.eqb].
    rewrite E'. split; [done|]. split; [done|].
    split; [by rewrite Hc', Hc1, <- app_assoc|]. by constructor.
Qed.

Lemma recv_interface_dump dgs :
  Forall (Forall (wlan_message P)) dgs ->
  forall mp w fuel,
    py_err w = None -> (length dgs <= fuel)%nat ->
    exists w' new,
      (x ← nl_recvmsgs_from (k_syserr2nlerr K) true (request_cb (Some (event_handler K P)))
             (dgs ++ [[mkMsg true NLMSG_DONE]]) mp (1, (l, w));
       recv_while fuel K (request_cb (Some (event_handler K P))) x.1.2
         (if (x.1.1 <? 0) && (x.2.1 >? 0) then (x.1.1, x.2.2) else x.2))
      = Ret (0, (l, w')) /\
      py_err w' = None /\ calls w' = calls w ++ new /\
      Forall2 (delivers P) (concat dgs) new.
Proof using Ho Hq Ht Hdump.
  induction 1 as [|dg dgs Hdg _ IH]; intros mp w fuel Hw Hfuel.
  - exists w, []. cbn. rewrite recv_while_done by done.
    by rewrite app_nil_r.
  - destruct (recv_datagram_interfaces dg mp w Hw Hdg)
      as (mp' & w1 & new1 & E & Hw1 & Hc1 & Hall1).
    cbn [app nl_recvmsgs_from]. rewrite E. cbn [mbind outcome_bind obind].
    cbn in Hfuel. destruct mp'.
    + destruct (IH true w1 fuel Hw1) as (w' & new & E' & Hw' & Hc' & Hall); [lia|].
      exists w', (new1 ++ new). split; [exact E'|]. split; [done|].
      split; [by rewrite Hc', Hc1, <- app_assoc|]. cbn [concat].
      by apply Forall2_app.
    + destruct fuel as [|fuel]; [lia|].
      cbn [mbind outcome_bind obind fst snd Z.ltb Z.compare andb recv_while].
      cbn [Z.gtb Z.compare]. unfold nl_recvmsgs.
      destruct (IH false w1 fuel Hw1) as (w' & new & E' & Hw' & Hc' & Hall); [lia|].
      exists w', (new1 ++ new). split.
      { rewrite <- E'. unfold mbind, outcome_bind, obind.
        destruct (nl_recvmsgs_from _ _ _ _ _ _) as [[[res q] s']| |]; done. }
      split; [done|]. split; [by rewrite Hc', Hc1, <- app_assoc|]. cbn [concat].
      by apply Forall2_app.
Qed.

Lemma send_and_recv_interface_dump dgs w :
  0 <= k_send K -> py_err w = None -> Forall (Forall (wlan_message P)) dgs ->
  exists w' new,
    send_and_recv K (dgs ++ [[mkMsg true NLMSG_DONE]]) (Some (event_handler K P)) (l, w)
    = Ret (0, (l, w')) /\
    py_err w' = None /\ calls w' = calls w ++ new /\
    Forall2 (delivers P) (concat dgs) new.
Proof using Ho Hq Ht Hdump.
  intros Hsend Hw Hdgs. unfold send_and_recv.
  rewrite (proj2 (Z.ltb_ge _ _)) by lia.
  cbn [recv_while fst]. cbn [Z.gtb Z.compare]. unfold nl_recvmsgs.
  destruct (recv_interface_dump dgs Hdgs false w
              (length (dgs ++ [[mkMsg true NLMSG_DONE]])) Hw)
    as (w' & new & E & ?); [rewrite length_app; lia|].
  exists w', new. split; [|done]. rewrite <- E.
  unfold mbind, outcome_bind, obind.
  destruct (nl_recvmsgs_from _ _ _ _ _ _) as [[[res q] s']| |]; done.
Qed.

End StartDump.

Lemma nl_socket_add_memberships_joined K m s :
  0 <= m -> 0 <= s -> (forall g, 0 <= k_add_membership K g) ->
  (nl_socket_add_memberships K [m; s; 0] <? 0) = false.
Proof.
  intros Hm Hs Hk. apply Z.ltb_ge. cbn.
  repeat (case_match; try lia); rewrite ?Z.ltb_lt, ?Z.ltb_ge in *;
    try (pose proof (Hk m); pose proof (Hk s); lia).
Qed.



Lemma maybe_restore_protocol s res l' w' :
  maybe_restore s = (res, (l', w')) ->
  exc_typ l' = None /\ calls w' = calls s.2 /\ (res = None -> is_Some (py_err w')).
Proof.
  destruct s as [l w]. unfold maybe_restore.
  destruct (exc_typ l) as [t|] eqn:Et.
  - intros [= <- <- <-]. unfold PyErr_Restore. cbn. eauto.
  - intros [= <- <- <-]. split; [done|]. split; [by destruct (negb _)|done].
Qed.

Lemma nl80211_trigger_scan_released K l ifidx reply w r w' :
  nl80211_trigger_scan K l ifidx reply w = Ret (r, w') ->
  py_err w' = py_err w /\ calls w' = calls w /\
  released (k_socket_alloc K) (io w) (io w').
Proof.
  unfold nl80211_trigger_scan, released.
  destruct (k_socket_alloc K); cbn [negb].
  - destruct (k_genl_connect K <? 0).
    + intros [= <- <-]. cbn. split; [done|]. split; [done|].
      exists [SocketConnect]. rewrite <- !app_assoc.
      split; [done|]. split; by intros ?%list_elem_of_singleton.
    + intros ([r1 u] & _ & [= <- <-])%obind_ret. cbn. split; [done|]. split; [done|].
      exists [SocketConnect; SocketSend (TRIGGER_SCAN ifidx)].
      rewrite <- !app_assoc.
      split; [done|].
      split; intros [?|?%list_elem_of_singleton]%elem_of_cons; done.
  - intros [= <- <-]. cbn. split; [done|]. split; [done|].
    exists []. split; [done|]. split; apply not_elem_of_nil.
Qed.

(** X13.  [data_ready] and [trigger_scan] keep CPython's convention, in one
    direction: a null result always comes with the error indicator set.
    [data_ready] leaves the fault slot empty.  [trigger_scan] changes neither
    the listener nor the record of observer calls; the one socket it
    allocates it also frees; and it leaves the error indicator as it was
    when it succeeds. *)
Theorem null_result_carries_an_error K P :
  (forall queue s res l' w',
     listener_data_ready K P queue s = Ret (res, (l', w')) ->
     exc_typ l' = None /\ (res = None -> is_Some (py_err w'))) /\
  (forall reply ifindex l w res l' w',
     listener_trigger_scan K reply ifindex (l, w) = Ret (res, (l', w')) ->
     l' = l /\ calls w' = calls w /\
     released (k_socket_alloc K) (io w) (io w') /\
     (res = None -> is_Some (py_err w')) /\
     (res <> None -> py_err w' = py_err w)).
Proof.
  split.
  - intros queue s res l' w'. unfold listener_data_ready.
    intros ([[r q] s1] & _ & [= E])%obind_ret.
    apply maybe_restore_protocol in E. tauto.
  - intros reply ifindex l w res l' w'. unfold listener_trigger_scan.
    intros ([r w1] & E & H)%obind_ret. revert H.
    apply nl80211_trigger_scan_released in E as (He & Hc & Hio).
    destruct (r <? 0); intros [= <- <- <-]; cbn;
      repeat split; eauto; done.
Qed.

(** A refused scan request and a failed socket allocation, evaluated. *)
Example trigger_scan_failures :
  listener_trigger_scan kernel_ok [[mkMsg false (NLMSG_ERROR (-16))]] 2
    (listener_new None, world0)
  = Ret (None,
         (listener_new None,
          mkWorld (Some (mkPyErr PyExc_RuntimeError
                           (Some (PyUnicode ("triggering scan failed -16" +:+ newline)))
                           None))
                  []
                  [SocketAlloc; SocketConnect; SocketSend (TRIGGER_SCAN 2); SocketFree])) /\
  listener_trigger_scan
    (mkKernel false 0 28 0 Z.abs 0 (fun _ => 0) [] [] (fun _ => [])) [] 2
    (listener_new None, world0)
  = Ret (None,
         (listener_new None,
          mkWorld (Some (mkPyErr PyExc_RuntimeError
                           (Some (PyUnicode ("triggering scan failed -1" +:+ newline)))
                           None))
                  [] [SocketAlloc])).
Proof. split; reflexivity. Qed.

End EventFacts.

(** ** Fault containment in the Wi-Fi listener *)

Module ContainmentFacts.
Import Nl80211 RequestFacts DrainFacts EventFacts.

Lemma answered_snoc obs h new c :
  answered obs h new ->
  c_raised c = obs (h ++ new) (c_method c) (c_args c) ->
  answered obs h (new ++ [c]).
Proof.
  revert h. induction new as [|c0 new IH]; intros h; cbn.
  - rewrite app_nil_r. done.
  - intros [? ?] ?. split; [done|]. apply IH; [done|]. by rewrite <- app_assoc.
Qed.

(** The one invocation [observe_wlan_event] makes with an empty slot. *)
Lemma observe_wlan_event_call l ifindex cmd extra w obs :
  observer l = Some obs -> exc_typ l = None -> py_err w = None ->
  exists d,
    d = match extra with
        | Some e => PyDict_Update [("cmd"%string, PyUnicode cmd);
                                   ("ifindex"%string, PyLong ifindex)] e
        | None => [("cmd"%string, PyUnicode cmd); ("ifindex"%string, PyLong ifindex)]
        end /\
    observe_wlan_event l ifindex cmd extra w
    = match obs (calls w) "wlan_event"%string [PyDict d] with
      | None =>
          (NL_SKIP,
           (l, mkWorld None (calls w ++ [mkCall "wlan_event" [PyDict d] None]) (io w)))
      | Some e =>
          (NL_STOP,
           (with_exc (Some (err_type e)) (err_value e) (err_traceback e) l,
            mkWorld None (calls w ++ [mkCall "wlan_event" [PyDict d] (Some e)]) (io w)))
      end.
Proof.
  intros Ho Ht Hw. unfold observe_wlan_event. rewrite Ht, Ho.
  unfold PyObject_CallMethod, PyErr_Occurred, PyErr_Fetch.
  cbn [py_err calls io PyDict_SetItemString].
  cbn [String.eqb Ascii.eqb Bool.eqb].
  eexists. split; [reflexivity|].
  destruct extra as [e0|];
    match goal with
    | |- context [obs (calls w) ?n ?a] => destruct (obs (calls w) n a) as [e|] eqn:Er
    end; rewrite ?Hw;
    try (rewrite bool_decide_true by eauto); try (rewrite bool_decide_false by (by intros [? ?]));
    reflexivity.
Qed.

(** With an empty slot [event_handler] invokes the observer once, for the
    message at hand, and goes on or stops by what the invocation raised. *)
Lemma event_handler_reports K P cmd attrs mp l w obs :
  observer l = Some obs -> exc_typ l = None -> py_err w = None ->
  dumps_succeed K P l ->
  returns (event_ifindex P attrs) ->
  exists c r l' w',
    event_handler K P cmd attrs (l, w) = Ret (r, (l', w')) /\
    calls w' = calls w ++ [c] /\ py_err w' = None /\
    reports P (mkMsg mp (GENL cmd attrs)) c /\
    c_raised c = obs (calls w) (c_method c) (c_args c) /\
    match c_raised c with
    | None => r = NL_SKIP /\ l' = l
    | Some e =>
        r = NL_STOP /\
        l' = with_exc (Some (err_type e)) (err_value e) (err_traceback e) l
    end.
Proof.
  intros Ho Ht Hw Hdump [ifidx Hidx]. unfold event_handler.
  unfold event_ifindex in Hidx. rewrite Hidx. cbn [mbind outcome_bind obind].
  assert (forall extra w1, py_err w1 = None -> calls w1 = calls w ->
            (extra = None \/ exists v, extra = Some [("ssids"%string, v)]) ->
            exists c r l' w',
              Ret (observe_wlan_event l ifidx (nl80211_command_to_string cmd) extra w1)
              = Ret (r, (l', w')) /\
              calls w' = calls w ++ [c] /\ py_err w' = None /\
              reports P (mkMsg mp (GENL cmd attrs)) c /\
              c_raised c = obs (calls w) (c_method c) (c_args c) /\
              match c_raised c with
              | None => r = NL_SKIP /\ l' = l
              | Some e =>
                  r = NL_STOP /\
                  l' = with_exc (Some (err_type e)) (err_value e) (err_traceback e) l
              end) as Hobs.
  { intros extra w1 Hw1 Hc1 Hextra.
    destruct (observe_wlan_event_call l ifidx (nl80211_command_to_string cmd)
                extra w1 obs Ho Ht Hw1) as (d & Hd & ->).
    assert (reports P (mkMsg mp (GENL cmd attrs))
              (mkCall "wlan_event" [PyDict d]
                 (obs (calls w1) "wlan_event"%string [PyDict d]))) as Hrep.
    { exists cmd, attrs, ifidx, d. cbn [nlm_body c_method c_args].
      unfold event_ifindex. rewrite Hidx.
      repeat split; destruct Hextra as [->|[v ->]]; subst d; reflexivity. }
    rewrite Hc1 in *.
    destruct (obs (calls w) "wlan_event"%string [PyDict d]) as [e|] eqn:Er;
      eexists _, _, _, _; (split; [reflexivity|]); cbn [calls py_err c_raised c_method c_args];
      rewrite ?Hc1; repeat split; try done; by rewrite Er. }
  assert (forall oc, exists c r l' w',
            ('(ssids, w1) ← dump_scan_results K P l ifidx oc w;
             match ssids with
             | None => Ret (NL_STOP, (l, w1))
             | Some ssids =>
                 Ret (observe_wlan_event l ifidx (nl80211_command_to_string cmd)
                        (Some [("ssids"%string, ssids)]) w1)
             end) = Ret (r, (l', w')) /\
            calls w' = calls w ++ [c] /\ py_err w' = None /\
            reports P (mkMsg mp (GENL cmd attrs)) c /\
            c_raised c = obs (calls w) (c_method c) (c_args c) /\
            match c_raised c with
            | None => r = NL_SKIP /\ l' = l
            | Some e =>
                r = NL_STOP /\
                l' = with_exc (Some (err_type e)) (err_value e) (err_traceback e) l
            end) as Hd.
  { intros oc. destruct (Hdump ifidx oc w) as (ssids & w1 & E). rewrite E.
    cbn [mbind outcome_bind obind].
    destruct (dump_scan_results_success _ _ _ _ _ _ _ _ E) as [He Hc].
    apply Hobs; [congruence|done|eauto]. }
  repeat case_match; eauto.
Qed.

(** With the slot occupied [event_handler] still asks for the dump an event
    calls for, but does not invoke the observer, and stops the parse. *)
Lemma event_handler_suppressed K P cmd attrs l0 l w :
  is_Some (exc_typ l) -> dumps_succeed K P l0 ->
  returns (event_ifindex P attrs) ->
  exists w',
    event_handler K P cmd attrs (l, w) = Ret (NL_STOP, (l, w')) /\
    calls w' = calls w /\ py_err w' = py_err w.
Proof.
  intros [t Ht] Hdump [ifidx Hidx]. unfold event_handler.
  unfold event_ifindex in Hidx. rewrite Hidx. cbn [mbind outcome_bind obind].
  assert (forall extra w1,
            observe_wlan_event l ifidx (nl80211_command_to_string cmd) extra w1
            = (NL_STOP, (l, w1))) as Hobs.
  { intros extra w1. unfold observe_wlan_event. by rewrite Ht. }
  assert (forall oc, exists w',
            ('(ssids, w1) ← dump_scan_results K P l ifidx oc w;
             match ssids with
             | None => Ret (NL_STOP, (l, w1))
             | Some ssids =>
                 Ret (observe_wlan_event l ifidx (nl80211_command_to_string cmd)
                        (Some [("ssids"%string, ssids)]) w1)
             end) = Ret (NL_STOP, (l, w')) /\
            calls w' = calls w /\ py_err w' = py_err w) as Hd.
  { intros oc. destruct (Hdump ifidx oc w) as (ssids & w1 & E).
    change (dump_scan_results K P l0 ifidx oc w)
      with (dump_scan_results K P l ifidx oc w) in E.
    rewrite E. cbn [mbind outcome_bind obind]. rewrite Hobs.
    destruct (dump_scan_results_success _ _ _ _ _ _ _ _ E) as [He Hc]. eauto. }
  repeat case_match; rewrite ?Hobs; eauto.
Qed.

Section Delivery.
Context (K : kernel) (P : platform) (obs : observer_t) (l0 : Listener) (w0 : world).
Hypothesis Ho : observer l0 = Some obs.
Hypothesis Ht : exc_typ l0 = None.
Hypothesis Hdump : dumps_succeed K P l0.

Lemma delivering_start w : calls w = calls w0 -> py_err w = None ->
  delivering P obs l0 w0 [] (l0, w).
Proof using Type.
  intros Hc Hw. exists []. cbn. rewrite app_nil_r. repeat split; eauto.
Qed.

(** One message: the handler returns; either it goes on, and the message
    counts as reported, or it stops, and the delivery stands where it is
    whatever else may follow. *)
Lemma delivering_step cmd attrs mp pre s :
  returns (event_ifindex P attrs) ->
  delivering P obs l0 w0 pre s ->
  exists r s',
    event_handler K P cmd attrs s = Ret (r, s') /\
    ((r = NL_SKIP /\ delivering P obs l0 w0 (pre ++ [mkMsg mp (GENL cmd attrs)]) s') \/
     (r = NL_STOP /\
      forall more,
        delivering P obs l0 w0 (pre ++ mkMsg mp (GENL cmd attrs) :: more) s')).
Proof using Ho Ht Hdump.
  intros Hret (new & Hc & Hans & Hrep & Hw & Hst). destruct s as [l w]. cbn in *.
  destruct Hst as [(Hok & Hlen & ->)|(pre' & c & e & -> & Hok & He & ->)].
  - destruct (event_handler_reports K P cmd attrs mp l0 w obs Ho Ht Hw Hdump Hret)
      as (c & r & l' & w' & E & Hc' & Hw' & Hr & Ha & Hcase).
    exists r, (l', w'). split; [exact E|].
    assert (calls w' = calls w0 ++ new ++ [c]) as Hcalls
      by (by rewrite Hc', Hc, <- app_assoc).
    assert (answered obs (calls w0) (new ++ [c])) as Hans'
      by (apply answered_snoc; [done|by rewrite <- Hc]).
    assert (forall more,
              Forall2 (reports P)
                (take (length (new ++ [c])) (pre ++ mkMsg mp (GENL cmd attrs) :: more))
                (new ++ [c])) as Hrep'.
    { intros more. rewrite length_app. cbn [length]. rewrite Hlen.
      rewrite take_app_add'; [|done]. cbn [take].
      rewrite take_ge in Hrep by lia. apply Forall2_app; [done|].
      rewrite take_0. by constructor. }
    destruct (c_raised c) as [e|] eqn:Ec; destruct Hcase as [-> ->].
    + right. split; [done|]. intros more. exists (new ++ [c]). cbn.
      repeat split; try done. right. exists new, c, e. done.
    + left. split; [done|]. exists (new ++ [c]). cbn.
      split; [done|]. split; [done|]. split.
      { specialize (Hrep' []). rewrite take_ge in Hrep'
          by (rewrite !length_app; cbn; lia).
        rewrite take_ge by (rewrite !length_app; cbn; lia). done. }
      split; [done|]. left. repeat split.
      * apply Forall_app. split; [done|]. by constructor.
      * rewrite !length_app. cbn. lia.
  - destruct (event_handler_suppressed K P cmd attrs l0
                (with_exc (Some (err_type e)) (err_value e) (err_traceback e) l0) w)
      as (w' & E & Hc' & Hw'); [by eexists|done|done|].
    exists NL_STOP, (with_exc (Some (err_type e)) (err_value e) (err_traceback e) l0, w').
    split; [exact E|]. right. split; [done|]. intros more.
    exists (pre' ++ [c]). cbn. split; [congruence|]. split; [done|].
    split.
    { assert (length (pre' ++ [c]) <= length pre)%nat as Hle.
      { apply Forall2_length in Hrep. rewrite length_take in Hrep. lia. }
      by rewrite take_app_le. }
    split; [congruence|]. right. exists pre', c, e. done.
Qed.

Lemma delivering_more pre more s :
  is_Some (exc_typ s.1) ->
  delivering P obs l0 w0 pre s -> delivering P obs l0 w0 (pre ++ more) s.
Proof using Ht.
  intros [t Hs] (new & Hc & Hans & Hrep & Hw & Hst).
  destruct Hst as [(Hok & Hlen & Hl)|(pre' & c & e & -> & Hok & He & Hl)].
  { rewrite Hl in Hs. congruence. }
  exists (pre' ++ [c]). split; [done|]. split; [done|]. split.
  { assert (length (pre' ++ [c]) <= length pre)%nat as Hle.
    { apply Forall2_length in Hrep. rewrite length_take in Hrep. lia. }
    by rewrite take_app_le. }
  split; [done|]. right. exists pre', c, e. done.
Qed.

(** A datagram of the interface dump, under [send_and_recv]. *)
Lemma recv_datagram_request msgs :
  Forall (wlan_message P) msgs ->
  forall pre mp e s,
    delivering P obs l0 w0 pre s ->
    exists c mp' s',
      recv_datagram (k_syserr2nlerr K) (request_cb (Some (event_handler K P)))
        msgs mp (e, s)
      = Ret (c, mp', (e, s')) /\
      (c = PNext \/ c = PStop) /\
      delivering P obs l0 w0 (pre ++ msgs) s'.
Proof using Ho Ht Hdump.
  induction 1 as [|m msgs Hm _ IH]; intros pre mp e s Hs.
  - exists PNext, mp, s. cbn. rewrite app_nil_r. eauto.
  - destruct m as [multi body]. destruct Hm as (cmd & attrs & Hbody & Hret).
    cbn in Hbody. subst body.
    destruct (delivering_step cmd attrs multi pre s Hret Hs) as (r & s1 & E & Hr).
    cbn [recv_datagram]. unfold recv_msg at 1.
    cbn [nlm_body nlm_multi request_cb cb_valid mbind option_bind snd fst].
    rewrite E. cbn [mbind outcome_bind obind].
    destruct Hr as [[-> Hs1]|[-> Hs1]].
    + cbn [NL_CB_CALL NL_SKIP NL_OK Z.eqb].
      destruct (IH (pre ++ [mkMsg multi (GENL cmd attrs)]) (mp || multi) e s1 Hs1)
        as (c & mp' & s' & E' & Hc & Hs').
      rewrite E'. rewrite <- app_assoc in Hs'. eauto 10.
    + cbn [NL_CB_CALL NL_STOP NL_SKIP NL_OK Z.eqb]. eauto 10.
Qed.

(** A datagram of events, under [nl_recvmsgs] on the event socket. *)
Lemma recv_datagram_event msgs :
  Forall (plain_event P) msgs ->
  forall pre s,
    delivering P obs l0 w0 pre s ->
    exists c s',
      recv_datagram (k_syserr2nlerr K) (event_cb K P) msgs false s
      = Ret (c, false, s') /\
      (c = PNext \/ c = PStop) /\
      delivering P obs l0 w0 (pre ++ msgs) s'.
Proof using Ho Ht Hdump.
  induction 1 as [|m msgs Hm _ IH]; intros pre s Hs.
  - exists PNext, s. cbn. rewrite app_nil_r. eauto.
  - destruct m as [multi body]. destruct Hm as [Hmp (cmd & attrs & Hbody & Hret)].
    cbn in Hmp, Hbody. subst multi body.
    destruct (delivering_step cmd attrs false pre s Hret Hs) as (r & s1 & E & Hr).
    cbn [recv_datagram]. unfold recv_msg at 1.
    cbn [nlm_body nlm_multi event_cb cb_valid orb].
    rewrite E. cbn [mbind outcome_bind obind].
    destruct Hr as [[-> Hs1]|[-> Hs1]].
    + cbn [NL_CB_CALL NL_SKIP NL_OK Z.eqb].
      destruct (IH (pre ++ [mkMsg false (GENL cmd attrs)]) s1 Hs1)
        as (c & s' & E' & Hc & Hs').
      rewrite E'. rewrite <- app_assoc in Hs'. eauto 10.
    + cbn [NL_CB_CALL NL_STOP NL_SKIP NL_OK Z.eqb]. eauto 10.
Qed.

(** What [maybe_restore] makes of a delivery. *)
Lemma maybe_restore_delivered msgs s :
  delivering P obs l0 w0 msgs s ->
  exists res l' w',
    maybe_restore s = (res, (l', w')) /\
    delivered_until_fault P obs w0 msgs res (l', w').
Proof using Ht.
  intros (new & Hc & Hans & Hrep & Hw & Hst). destruct s as [l w]. cbn in *.
  unfold maybe_restore.
  destruct Hst as [(Hok & Hlen & ->)|(pre' & c & e & -> & Hok & He & ->)].
  - rewrite Ht. eexists _, _, _. split; [reflexivity|].
    exists new. cbn. split; [by destruct (negb _)|]. split; [done|]. split; [done|].
    split; [unfold fault_slot; by rewrite Ht|]. by left.
  - cbn [exc_typ exc_val exc_tb with_exc]. eexists _, _, _. split; [reflexivity|].
    exists (pre' ++ [c]). cbn. split; [done|]. split; [done|]. split; [done|].
    split; [done|]. right. exists pre', c, e. repeat split; try done.
    by destruct e.
Qed.

Lemma data_ready_delivered msgs rest w :
  calls w = calls w0 -> py_err w = None ->
  Forall (plain_event P) msgs ->
  exists res l' w',
    listener_data_ready K P (msgs :: rest) (l0, w) = Ret (res, (l', w')) /\
    delivered_until_fault P obs w0 msgs res (l', w').
Proof using Ho Ht Hdump.
  intros Hc Hw Hmsgs.
  destruct (recv_datagram_event msgs Hmsgs [] (l0, w) (delivering_start w Hc Hw))
    as (c & s' & E & Hcase & Hs').
  destruct (maybe_restore_delivered msgs s' Hs') as (res & l' & w' & Em & Hd).
  exists res, l', w'. split; [|done].
  unfold listener_data_ready, nl_recvmsgs. cbn [nl_recvmsgs_from]. rewrite E.
  cbn [mbind outcome_bind obind].
  destruct Hcase as [-> | ->]; cbn [mbind outcome_bind obind]; by rewrite Em.
Qed.

Lemma send_and_recv_delivered dgs w :
  0 <= k_send K -> calls w = calls w0 -> py_err w = None ->
  Forall (Forall (wlan_message P)) dgs ->
  exists s',
    send_and_recv K (dgs ++ [[mkMsg true NLMSG_DONE]]) (Some (event_handler K P)) (l0, w)
    = Ret (0, s') /\
    delivering P obs l0 w0 (concat dgs) s'.
Proof using Ho Ht Hdump.
  intros Hsend Hc Hw Hdgs.
  destruct (send_and_recv_drain K (event_handler K P)
              (fun n s => delivering P obs l0 w0 (concat (take n dgs)) s) dgs)
    with (s := (l0, w)) as (s' & E & Hs').
  - intros n dg s mp Hdg Hs.
    assert (Forall (wlan_message P) dg) as Hwf.
    { rewrite Forall_forall in Hdgs. apply Hdgs. by eapply list_elem_of_lookup_2. }
    destruct (recv_datagram_request dg Hwf (concat (take n dgs)) mp 1 s Hs)
      as (c & mp' & s1 & E & Hcase & Hs1).
    exists c, mp', s1. split; [exact E|]. split; [exact Hcase|].
    rewrite (take_S_r _ _ _ Hdg), concat_app. cbn. by rewrite app_nil_r.
  - done.
  - cbn. by apply delivering_start.
  - exists s'. split; [done|]. by rewrite firstn_all in Hs'.
Qed.

End Delivery.


Lemma kernel_without_bss_dumps_succeed P l : dumps_succeed kernel_without_bss P l.
Proof. intros ifidx oc w. eexists _, _. reflexivity. Defined.

Lemma three_events_plain_py310 : Forall (plain_event x86_64_py310) (concat three_events).
Proof.
  repeat constructor; eexists _, _; (split; [reflexivity|]); eexists; reflexivity.
Defined.


(** The observer raises on the second of three events: it has been called
    for the first two only, and both public calls hand its exception back
    with the slot cleared. *)
Example observer_fails_on_second_of_three :
  (exists l' w',
     listener_data_ready kernel_without_bss x86_64_py310 three_events
       (listener_new (Some fails_second), world0) = Ret (None, (l', w')) /\
     py_err w' = Some boom /\ exc_typ l' = None /\
     map c_raised (calls w') = [None; Some boom] /\
     map c_args (calls w')
     = [ [wlan_event_arg 35 2];
         [PyDict [("cmd"%string, PyUnicode "NEW_SCAN_RESULTS");
                  ("ifindex"%string, PyLong 2);
                  ("ssids"%string, PyList [])]] ]) /\
  (exists l' w',
     listener_start kernel_without_bss x86_64_py310 (mkIds 0 0)
       (listener_new (Some fails_second), world0) = Ret (None, (l', w')) /\
     py_err w' = Some boom /\ exc_typ l' = None /\
     map c_raised (calls w') = [None; Some boom] /\
     map c_args (calls w')
     = [ [PyDict [("cmd"%string, PyUnicode "NEW_INTERFACE");
                  ("ifindex"%string, PyLong 2);
                  ("ssids"%string, PyList [])]];
         [PyDict [("cmd"%string, PyUnicode "NEW_INTERFACE");
                  ("ifindex"%string, PyLong 3);
                  ("ssids"%string, PyList [])]] ]).
Proof. split; eexists _, _; (split; [reflexivity|]); repeat split. Qed.

(** Why [start] is taken on a dump that ends in a datagram of its own.
    nl80211's dump callbacks return the length they wrote, so the netlink
    core appends NLMSG_DONE only in a round in which they wrote nothing: it
    arrives alone.  libnl drops what is left of a datagram when a callback
    stops the parse, and [send_and_recv] goes on receiving until a message
    ends the reply: were NLMSG_DONE to come in the datagram of the interface
    whose delivery raised, [start] would wait for a message that does not
    come. *)
Example start_waits_for_the_end_of_the_dump :
  (exists s,
     listener_start kernel_done_in_datagram x86_64_py310 (mkIds 0 0)
       (listener_new (Some quiet_observer), world0) = Ret (Some PyNone, s)) /\
  listener_start kernel_done_in_datagram x86_64_py310 (mkIds 0 0)
    (listener_new (Some fails_second), world0) = Hang.
Proof. split; [eexists|]; reflexivity. Qed.

End ContainmentFacts.

(** ** The routing listener *)

Module LinkFacts.
Import Rtnetlink.

Lemma route_fault_slot_with_exc e l :
  fault_slot (with_exc (Some (err_type e)) (err_value e) (err_traceback e) l)
  = Some e.
Proof. by destruct e. Qed.

(** The tail the three observers share: call the method, then move what
    it raised into the slot. *)
Lemma call_contained w0 l w obs name args :
  exc_typ l = None -> contained w0 (l, w) ->
  contained w0
    (let w1 := PyObject_CallMethod obs name args w in
     if PyErr_Occurred w1
     then let '(t, v, tb, w2) := PyErr_Fetch w1 in (with_exc t v tb l, w2)
     else (l, w1)).
Proof.
  intros Et (new & Hc & Hnew). cbn in Hc.
  unfold PyObject_CallMethod, PyErr_Occurred, PyErr_Fetch. cbn.
  set (c := mkCall _ _ _).
  assert (Forall no_raise new) as Hok.
  { destruct Hnew as [|(pre & c' & e & _ & _ & _ & Hs)]; [done|].
    unfold fault_slot in Hs. cbn in Hs. by rewrite Et in Hs. }
  destruct (obs (calls w) name args) as [e|] eqn:Er.
  - rewrite bool_decide_eq_true_2 by eauto. cbn.
    exists (new ++ [c]). split; [by rewrite Hc, app_assoc|].
    right. exists new, c, e. repeat split; [done|apply route_fault_slot_with_exc].
  - assert (Forall no_raise (new ++ [c])) as Hok'.
    { apply Forall_app. split; [done|]. constructor; [|done]. by subst c. }
    destruct (py_err w) as [e|]; cbn;
      exists (new ++ [c]); (split; [by rewrite Hc, app_assoc|by left]).
Qed.

Lemma change_contained K ob act w0 s : contained w0 s -> contained w0 (_cb K ob act s).
Proof.
  destruct s as [l w]. intros Hs.
  destruct ob as [link|addr|route]; cbn [_cb];
    unfold observe_link_change, observe_addr_change, observe_route_change;
    (destruct (exc_typ l) as [t|] eqn:Et; [done|]);
    (destruct (observer l) as [obs|]; [|done]);
    by apply call_contained.
Qed.

Lemma changes_contained K (changes : list (nl_object * Z)) w0 s :
  contained w0 s -> contained w0 (foldl (fun s ch => _cb K ch.1 ch.2 s) s changes).
Proof.
  revert s. induction changes as [|ch changes IH]; intros s Hs; [done|].
  cbn. by apply IH, change_contained.
Qed.

Lemma nl_cache_foreach_contained K objs w0 s :
  contained w0 s -> contained w0 (nl_cache_foreach K objs s).
Proof.
  unfold nl_cache_foreach. revert s.
  induction objs as [|ob objs IH]; intros s Hs; [done|].
  cbn. by apply IH, change_contained.
Qed.

Lemma route_contained_refl l w : contained w (l, w).
Proof. exists []. split; [by rewrite app_nil_r|by left]. Qed.

Lemma route_maybe_restore_contained w0 s res l' w' :
  contained w0 s -> maybe_restore s = (res, (l', w')) ->
  exists new, calls w' = calls w0 ++ new /\
    forall c e, c ∈ new -> c_raised c = Some e ->
      (exists pre, new = pre ++ [c] /\ Forall no_raise pre) /\
      res = None /\ py_err w' = Some e /\ exc_typ l' = None.
Proof.
  destruct s as [l w]. intros (new & Hc & Hnew). unfold maybe_restore.
  cbn in Hc. intros H. exists new. split.
  { destruct (exc_typ l); by injection H as <- <- <-. }
  intros c e Hin Hr. destruct Hnew as [Hok|(pre & c0 & e0 & -> & Hpre & Hr0 & Hs)].
  { rewrite Forall_forall in Hok. apply Hok in Hin. unfold no_raise in Hin.
    congruence. }
  apply elem_of_app in Hin as [Hin|Hin%list_elem_of_singleton].
  { rewrite Forall_forall in Hpre. apply Hpre in Hin. unfold no_raise in Hin.
    congruence. }
  subst c0. assert (e0 = e) as -> by congruence.
  unfold fault_slot in Hs. cbn in Hs.
  destruct (exc_typ l) as [t|] eqn:Et; [|done]. cbn in Hs. injection Hs as <-.
  injection H as <- <- <-. cbn. eauto 10.
Qed.

(** X14.  Fault containment in the routing listener.  Among the observer
    calls that [start] or [data_ready] makes, one that raises is the last:
    no later object or change is reported.  The method then returns the null
    pointer with exactly what was raised as the error, and the fault slot is
    empty again. *)
Theorem route_observer_fault_is_contained K :
  (forall B l w res l' w',
     listener_start K B (l, w) = (res, (l', w')) ->
     exists new,
       calls w' = calls w ++ new /\
       forall c e, c ∈ new -> c_raised c = Some e ->
         (exists pre, new = pre ++ [c] /\ Forall no_raise pre) /\
         res = None /\ py_err w' = Some e /\ exc_typ l' = None) /\
  (forall links changes l w res l' w',
     listener_data_ready K links changes (l, w) = (res, (l', w')) ->
     exists new,
       calls w' = calls w ++ new /\
       forall c e, c ∈ new -> c_raised c = Some e ->
         (exists pre, new = pre ++ [c] /\ Forall no_raise pre) /\
         res = None /\ py_err w' = Some e /\ exc_typ l' = None).
Proof.
  split.
  - intros B l w res l' w'. unfold listener_start.
    assert (forall (r : option PyObject) (l1 : Listener) w1,
              calls w1 = calls w -> (r, (l1, w1)) = (res, (l', w')) ->
              exists new, calls w' = calls w ++ new /\
                forall c e, c ∈ new -> c_raised c = Some e ->
                  (exists pre, new = pre ++ [c] /\ Forall no_raise pre) /\
                  res = None /\ py_err w' = Some e /\ exc_typ l' = None) as Hearly.
    { intros r l1 w1 Hw1 [= <- <- <-]. exists []. split; [by rewrite app_nil_r|].
      by intros c e ?%elem_of_nil. }
    repeat (case_match; [by apply Hearly|]).
    apply route_maybe_restore_contained.
    do 3 apply nl_cache_foreach_contained.
    destruct (route_contained_refl (with_link_cache (link_cache_of (b_links B)) l) w)
      as (new & ? & ?).
    exists new. done.
  - intros links changes l w res l' w'. unfold listener_data_ready.
    apply route_maybe_restore_contained, changes_contained.
    set (l1 := match link_cache l with Some _ => _ | None => _ end).
    apply route_contained_refl.
Qed.

Lemma route_change_data_eq K route obs act w :
  PyObject_CallMethod obs "route_change"
    [PyUnicode (act2str act);
     PyDict
       [ ("family"%string, PyLong (rt_family route));
         ("type"%string, PyLong (rt_type route));
         ("table"%string, PyLong (rt_table route));
         ("dst"%string,
          PyBytes (lit match rt_dst route with
                       | None => "default"%string
                       | Some dst =>
                           if nl_addr_get_len dst =? 0 then "default"%string
                           else nl_addr2str K dst
                       end));
         ("ifindex"%string,
          PyLong (if rtnl_route_get_nnexthops route >? 0 then
                    match rtnl_route_nexthop_n route 0 with
                    | Some nh => rtnh_ifindex nh
                    | None => -1
                    end
                  else -1)) ]] w
  = PyObject_CallMethod obs "route_change"
      [PyUnicode (act2str act); PyDict (route_change_data K route)] w.
Proof.
  unfold route_change_data, rtnl_route_get_nnexthops, rtnl_route_nexthop_n.
  destruct (rt_nexthops route) as [|nh rest]; [done|].
  cbn [length lookup list_lookup]. by rewrite gtb_true by lia.
Qed.

Lemma change_quiet K ob act l w obs :
  observer l = Some obs -> never_raises obs -> exc_typ l = None -> py_err w = None ->
  _cb K ob act (l, w) = (l, mkWorld None (calls w ++ [report K act ob]) (io w)).
Proof.
  intros Ho Hq Ht Hw.
  destruct ob as [link|addr|route]; cbn [_cb report];
    unfold observe_link_change, observe_addr_change, observe_route_change;
    rewrite Ht, Ho; rewrite ?route_change_data_eq;
    unfold PyObject_CallMethod, PyErr_Occurred; cbn [py_err calls io];
    rewrite Hq, Hw; by rewrite bool_decide_false by (by intros [? ?]).
Qed.

Lemma changes_quiet K (changes : list (nl_object * Z)) l w obs :
  observer l = Some obs -> never_raises obs -> exc_typ l = None -> py_err w = None ->
  foldl (fun s ch => _cb K ch.1 ch.2 s) (l, w) changes
  = (l, mkWorld None (calls w ++ map (fun ch => report K ch.2 ch.1) changes) (io w)).
Proof.
  intros Ho Hq Ht. revert w. induction changes as [|ch changes IH]; intros w Hw.
  - cbn. rewrite app_nil_r. destruct w; cbn in *; by subst.
  - cbn [foldl map]. rewrite (change_quiet K ch.1 ch.2 l w obs) by done.
    rewrite IH by done. cbn [calls io]. by rewrite <- app_assoc.
Qed.

Lemma nl_cache_foreach_quiet K objs l w obs :
  observer l = Some obs -> never_raises obs -> exc_typ l = None -> py_err w = None ->
  nl_cache_foreach K objs (l, w)
  = (l, mkWorld None (calls w ++ map (report K NL_ACT_NEW) objs) (io w)).
Proof.
  intros Ho Hq Ht. unfold nl_cache_foreach, _e. revert w.
  induction objs as [|ob objs IH]; intros w Hw.
  - cbn. rewrite app_nil_r. destruct w; cbn in *; by subst.
  - cbn [foldl map]. rewrite (change_quiet K ob NL_ACT_NEW l w obs) by done.
    rewrite IH by done. cbn [calls io]. by rewrite <- app_assoc.
Qed.

(** X15.  With an observer that never raises, an empty fault slot and no
    error pending, [data_ready] reports every change libnl read, once and in
    libnl's order: a link to [link_change], an address to [addr_change], a
    route to [route_change], each with the name of its action and the
    dictionary of its fields.  It returns [None]. *)
Theorem data_ready_reports_changes_in_order K links changes l w obs :
  observer l = Some obs -> never_raises obs -> exc_typ l = None -> py_err w = None ->
  listener_data_ready K links changes (l, w)
  = (Some PyNone,
     (match link_cache l with Some _ => with_link_cache links l | None => l end,
      mkWorld None (calls w ++ map (fun ch => report K ch.2 ch.1) changes) (io w))).
Proof.
  intros Ho Hq Ht Hw. unfold listener_data_ready.
  set (l1 := match link_cache l with Some _ => _ | None => _ end).
  assert (observer l1 = Some obs /\ exc_typ l1 = None) as [Ho1 Ht1]
    by (subst l1; by destruct (link_cache l)).
  rewrite (changes_quiet K changes l1 w obs) by done.
  unfold maybe_restore. by rewrite Ht1.
Qed.

Lemma quiet_observer_never_raises : never_raises quiet_observer.
Proof. intros h n a. reflexivity. Defined.

Lemma data_ready_reports_changes_in_order_at_example :
  listener_data_ready kernel_ok ∅
    [(ObjRoute multipath_default, NL_ACT_DEL);
     (ObjLink loopback, NL_ACT_CHANGE)]
    (started, world0)
  = (Some PyNone,
     (match link_cache started with
      | Some _ => with_link_cache ∅ started
      | None => started
      end,
      mkWorld None
        (calls world0
         ++ map (fun ch => report kernel_ok ch.2 ch.1)
              [(ObjRoute multipath_default, NL_ACT_DEL);
               (ObjLink loopback, NL_ACT_CHANGE)])
        (io world0))).
Proof.
  apply (data_ready_reports_changes_in_order kernel_ok ∅ _ started world0 quiet_observer).
  - reflexivity.
  - apply quiet_observer_never_raises.
  - reflexivity.
  - reflexivity.
Defined.

(** X16.  When the six libnl calls of [start] succeed, [start] reports what
    the caches hold as ["NEW"]: all links first, then all addresses, then
    all routes, each in the order of its cache and each exactly once, and
    returns [None] with the link cache kept in the listener. *)
Theorem listener_start_replays_the_caches K B l w obs :
  observer l = Some obs -> never_raises obs -> exc_typ l = None -> py_err w = None ->
  0 <= b_link_alloc B -> 0 <= b_link_add B -> 0 <= b_addr_alloc B ->
  0 <= b_addr_add B -> 0 <= b_route_alloc B -> 0 <= b_route_add B ->
  listener_start K B (l, w)
  = (Some PyNone,
     (with_link_cache (link_cache_of (b_links B)) l,
      mkWorld None
        (calls w ++ map (report K NL_ACT_NEW)
                      (map ObjLink (b_links B) ++ map ObjAddr (b_addrs B)
                       ++ map ObjRoute (b_routes B)))
        (io w))).
Proof.
  intros Ho Hq Ht Hw H1 H2 H3 H4 H5 H6. unfold listener_start.
  rewrite !(proj2 (Z.ltb_ge _ _)) by lia.
  set (l1 := with_link_cache _ l).
  rewrite (nl_cache_foreach_quiet K _ l1 w obs) by done.
  rewrite (nl_cache_foreach_quiet K _ l1 _ obs) by done.
  rewrite (nl_cache_foreach_quiet K _ l1 _ obs) by done.
  cbn [calls io]. unfold maybe_restore. cbn [exc_typ l1 with_link_cache].
  rewrite Ht. by rewrite !map_app, <- !app_assoc.
Qed.

Lemma listener_start_replays_the_caches_at_boot_ok :
  listener_start kernel_ok boot_ok (constructed, world0)
  = (Some PyNone,
     (with_link_cache (link_cache_of (b_links boot_ok)) constructed,
      mkWorld None
        (calls world0 ++ map (report kernel_ok NL_ACT_NEW)
                           (map ObjLink (b_links boot_ok) ++ map ObjAddr (b_addrs boot_ok)
                            ++ map ObjRoute (b_routes boot_ok)))
        (io world0))).
Proof.
  apply (listener_start_replays_the_caches kernel_ok boot_ok constructed world0
           quiet_observer);
    try reflexivity; try apply quiet_observer_never_raises; vm_compute; discriminate.
Defined.

(** The loopback machine, evaluated: the link, its address, the default
    route. *)
Example start_on_boot_ok :
  map c_method (calls (listener_start kernel_ok boot_ok (constructed, world0)).2.2)
  = ["link_change"; "addr_change"; "route_change"]%string.
Proof. reflexivity. Qed.

(** *** Link flags *)
Lemma ldiff_lor a f : Z.ldiff (Z.lor a f) f = Z.ldiff a f.
Proof.
  apply Z.bits_inj'. intros n Hn. rewrite !Z.ldiff_spec, Z.lor_spec.
  by destruct (Z.testbit a n), (Z.testbit f n).
Qed.

Lemma lor_lor a f : Z.lor (Z.lor a f) f = Z.lor a f.
Proof. by rewrite <- Z.lor_assoc, Z.lor_diag. Qed.

Lemma change_link_flags_known change K ifindex flags l w cache link :
  link_cache l = Some cache -> cache !! ifindex = Some link ->
  k_socket_alloc K = true -> 0 <= k_connect K ->
  exists res w',
    change_link_flags change K ifindex flags (l, w)
    = Ret (res, (with_link_cache (<[ifindex := change link (u32_of_int flags)]> cache) l,
                 w')) /\
    calls w' = calls w /\
    io w' = io w ++ [SocketAlloc; SocketConnect;
                     SocketSend (LINK_CHANGE ifindex
                                   (l_flags (change link (u32_of_int flags)))
                                   (l_flag_mask (change link (u32_of_int flags))));
                     SocketFree] /\
    (res = None <-> k_link_change K (change link (u32_of_int flags)) < 0).
Proof.
  intros Hc Hi Ha Hk. unfold change_link_flags. rewrite Hc, Hi, Ha. cbn [negb].
  rewrite (proj2 (Z.ltb_ge _ _)) by lia.
  destruct (k_link_change K _ <? 0) eqn:E;
    eexists _, _; (split; [reflexivity|]); cbn; rewrite <- !app_assoc;
    (split; [done|]); (split; [done|]).
  - apply Z.ltb_lt in E. done.
  - apply Z.ltb_ge in E. split; [done|lia].
Qed.

(** X17.  On an interface the cache holds, [set_link_flags] ORs the flags,
    read as an [unsigned int], into the flags and the flag mask of the
    cached link itself and sends that link as the change.  The cache keeps
    the new flags whether or not the kernel accepts the change; the method
    returns the null pointer exactly when [rtnl_link_change] fails.  One
    socket is allocated, connected, sent on and freed; no observer is
    called. *)
Theorem set_link_flags_changes_the_cache K ifindex flags l w cache link :
  link_cache l = Some cache -> cache !! ifindex = Some link ->
  k_socket_alloc K = true -> 0 <= k_connect K ->
  exists res w',
    listener_set_link_flags K ifindex flags (l, w)
    = Ret (res, (with_link_cache
                   (<[ifindex := rtnl_link_set_flags link (u32_of_int flags)]> cache) l,
                 w')) /\
    calls w' = calls w /\
    io w' = io w ++ [SocketAlloc; SocketConnect;
                     SocketSend (LINK_CHANGE ifindex
                                   (Z.lor (l_flags link) (u32_of_int flags))
                                   (Z.lor (l_flag_mask link) (u32_of_int flags)));
                     SocketFree] /\
    (res = None <->
     k_link_change K (rtnl_link_set_flags link (u32_of_int flags)) < 0).
Proof. apply change_link_flags_known. Qed.

Lemma set_link_flags_changes_the_cache_at_loopback :
  exists res w',
    listener_set_link_flags kernel_ok 1 2 (started, world0)
    = Ret (res, (with_link_cache
                   (<[1 := rtnl_link_set_flags loopback
                             (u32_of_int 2)]>
                      {[ 1 := loopback ]}) started,
                 w')) /\
    calls w' = calls world0 /\
    io w' = io world0 ++ [SocketAlloc; SocketConnect;
                          SocketSend (LINK_CHANGE 1
                                        (Z.lor (l_flags loopback) (u32_of_int 2))
                                        (Z.lor (l_flag_mask loopback) (u32_of_int 2)));
                          SocketFree] /\
    (res = None <->
     k_link_change kernel_ok
       (rtnl_link_set_flags loopback (u32_of_int 2)) < 0).
Proof.
  apply (set_link_flags_changes_the_cache kernel_ok 1 2 started world0
           {[ 1 := loopback ]}
           loopback);
    reflexivity.
Defined.

(** X18.  [unset_link_flags] after [set_link_flags] with the same flags
    leaves the cache as [unset_link_flags] alone would: the flags are
    cleared, also those that were set before, and the flag mask keeps
    them. *)
Theorem unset_after_set_link_flags K ifindex flags l w cache link :
  link_cache l = Some cache -> cache !! ifindex = Some link ->
  k_socket_alloc K = true -> 0 <= k_connect K ->
  exists r1 l1 w1 r2 l2 w2,
    listener_set_link_flags K ifindex flags (l, w) = Ret (r1, (l1, w1)) /\
    listener_unset_link_flags K ifindex flags (l1, w1) = Ret (r2, (l2, w2)) /\
    link_cache l2
    = Some (<[ifindex := rtnl_link_unset_flags link (u32_of_int flags)]> cache) /\
    calls w2 = calls w.
Proof.
  intros Hc Hi Ha Hk.
  destruct (change_link_flags_known rtnl_link_set_flags K ifindex flags l w cache link
              Hc Hi Ha Hk) as (r1 & w1 & E1 & Hc1 & _).
  set (l1 := with_link_cache _ l) in E1.
  destruct (change_link_flags_known rtnl_link_unset_flags K ifindex flags l1 w1
              (<[ifindex := rtnl_link_set_flags link (u32_of_int flags)]> cache)
              (rtnl_link_set_flags link (u32_of_int flags)))
    as (r2 & w2 & E2 & Hc2 & _); [done|by rewrite lookup_insert_eq|done|done|].
  eexists r1, l1, w1, r2, _, w2. split; [exact E1|]. split; [exact E2|].
  split; [|congruence]. cbn [link_cache with_link_cache]. f_equal.
  rewrite insert_insert_eq. f_equal.
  unfold rtnl_link_unset_flags, rtnl_link_set_flags. cbn.
  by rewrite ldiff_lor, lor_lor.
Qed.

Lemma unset_after_set_link_flags_at_loopback :
  exists r1 l1 w1 r2 l2 w2,
    listener_set_link_flags kernel_ok 1 2 (started, world0) = Ret (r1, (l1, w1)) /\
    listener_unset_link_flags kernel_ok 1 2 (l1, w1) = Ret (r2, (l2, w2)) /\
    link_cache l2
    = Some (<[1 := rtnl_link_unset_flags loopback
                     (u32_of_int 2)]>
              {[ 1 := loopback ]}) /\
    calls w2 = calls world0.
Proof.
  apply (unset_after_set_link_flags kernel_ok 1 2 started world0
           {[ 1 := loopback ]}
           loopback);
    reflexivity.
Defined.

(** X19.  [set_link_flags] is idempotent on the listener.  Whatever the
    kernel answers to the two requests, a second call with the same
    arguments sends the kernel the same flags and mask as the first, on a
    socket of its own, and leaves the listener, its cache included, as the
    first call left it. *)
Theorem set_link_flags_is_idempotent K1 K2 ifindex flags l w cache link :
  link_cache l = Some cache -> cache !! ifindex = Some link ->
  k_socket_alloc K1 = true -> 0 <= k_connect K1 ->
  k_socket_alloc K2 = true -> 0 <= k_connect K2 ->
  exists r1 l1 w1 r2 w2 req,
    listener_set_link_flags K1 ifindex flags (l, w) = Ret (r1, (l1, w1)) /\
    listener_set_link_flags K2 ifindex flags (l1, w1) = Ret (r2, (l1, w2)) /\
    io w1 = io w ++ [SocketAlloc; SocketConnect; SocketSend req; SocketFree] /\
    io w2 = io w1 ++ [SocketAlloc; SocketConnect; SocketSend req; SocketFree].
Proof.
  intros Hc Hi Ha1 Hk1 Ha2 Hk2.
  destruct (change_link_flags_known rtnl_link_set_flags K1 ifindex flags l w cache link
              Hc Hi Ha1 Hk1) as (r1 & w1 & E1 & _ & Hio1 & _).
  set (l1 := with_link_cache _ l) in E1.
  destruct (change_link_flags_known rtnl_link_set_flags K2 ifindex flags l1 w1
              (<[ifindex := rtnl_link_set_flags link (u32_of_int flags)]> cache)
              (rtnl_link_set_flags link (u32_of_int flags)))
    as (r2 & w2 & E2 & _ & Hio2 & _); [done|by rewrite lookup_insert_eq|done|done|].
  assert (rtnl_link_set_flags (rtnl_link_set_flags link (u32_of_int flags))
            (u32_of_int flags) = rtnl_link_set_flags link (u32_of_int flags)) as Hidem.
  { unfold rtnl_link_set_flags. cbn. by rewrite !lor_lor. }
  rewrite Hidem in E2. rewrite insert_insert_eq in E2.
  cbn [rtnl_link_set_flags l_flags l_flag_mask] in Hio2. rewrite !lor_lor in Hio2.
  eexists r1, l1, w1, r2, w2, _. split; [exact E1|]. split; [exact E2|].
  split; [exact Hio1|exact Hio2].
Qed.

Lemma set_link_flags_is_idempotent_at_loopback :
  exists r1 l1 w1 r2 w2 req,
    listener_set_link_flags kernel_ok 1 2 (started, world0) = Ret (r1, (l1, w1)) /\
    listener_set_link_flags kernel_refusing_change 1 2 (l1, w1) = Ret (r2, (l1, w2)) /\
    io w1 = io world0 ++ [SocketAlloc; SocketConnect; SocketSend req; SocketFree] /\
    io w2 = io w1 ++ [SocketAlloc; SocketConnect; SocketSend req; SocketFree].
Proof.
  apply (set_link_flags_is_idempotent kernel_ok kernel_refusing_change 1 2 started
           world0 {[ 1 := loopback ]} loopback);
    reflexivity.
Defined.

(** The two calls, evaluated: the kernel takes the first change and refuses
    the second with -19; the cache holds the flags 73 | 2 after both. *)
Example set_link_flags_twice :
  exists w1 w2,
    listener_set_link_flags kernel_ok 1 2 (started, world0)
    = Ret (Some PyNone,
           (with_link_cache {[ 1 := mkLink 1 75 2 772 0 (Some "lo"%string) ]} started,
            w1)) /\
    listener_set_link_flags kernel_refusing_change 1 2
      (with_link_cache {[ 1 := mkLink 1 75 2 772 0 (Some "lo"%string) ]} started, w1)
    = Ret (None,
           (with_link_cache {[ 1 := mkLink 1 75 2 772 0 (Some "lo"%string) ]} started,
            w2)) /\
    io w2 = [SocketAlloc; SocketConnect; SocketSend (LINK_CHANGE 1 75 2); SocketFree;
             SocketAlloc; SocketConnect; SocketSend (LINK_CHANGE 1 75 2); SocketFree].
Proof.
  eexists _, _. split; [|split].
  - unfold listener_set_link_flags, change_link_flags. cbn [link_cache started].
    rewrite lookup_singleton_eq. cbn. rewrite insert_singleton_eq. reflexivity.
  - unfold listener_set_link_flags, change_link_flags.
    cbn [link_cache with_link_cache]. rewrite lookup_singleton_eq. cbn.
    rewrite insert_singleton_eq. reflexivity.
  - reflexivity.
Qed.

(** *** Action names *)

(** X22.  Each of libnl's six actions is determined by the name [act2str]
    gives it: the six names differ from each other and from the fallback
    ["???"]. *)
Theorem act2str_determines_action a1 a2 :
  NL_ACT_UNSPEC <= a1 <= NL_ACT_CHANGE -> act2str a1 = act2str a2 -> a1 = a2.
Proof.
  unfold NL_ACT_UNSPEC, NL_ACT_CHANGE, act2str.
  unfold NL_ACT_UNSPEC, NL_ACT_NEW, NL_ACT_DEL, NL_ACT_GET, NL_ACT_SET, NL_ACT_CHANGE.
  intros H.
  repeat (case_match; try (intros; discriminate); try lia).
Qed.

Lemma act2str_determines_action_at_new :
  NL_ACT_UNSPEC <= NL_ACT_NEW <= NL_ACT_CHANGE /\ NL_ACT_NEW = 1.
Proof.
  split; [vm_compute; split; discriminate|].
  apply (act2str_determines_action NL_ACT_NEW 1).
  - vm_compute. split; discriminate.
  - reflexivity.
Defined.

(** *** Before and after [start] *)

(** X20.  The link cache is null until [start] has built and registered it.
    When [start] fails at one of these two steps it returns the null pointer
    with an error, reports nothing, and leaves the cache null: a later
    [set_link_flags] or [unset_link_flags] then hands the null cache to
    [rtnl_link_get], which reads through it. *)
Theorem link_flags_need_a_link_cache K B ifindex flags l w :
  link_cache l = None ->
  b_link_alloc B < 0 \/ b_link_add B < 0 ->
  exists l' w',
    listener_start K B (l, w) = (None, (l', w')) /\
    is_Some (py_err w') /\ calls w' = calls w /\
    listener_set_link_flags K ifindex flags (l', w') = Fault NullDeref /\
    listener_unset_link_flags K ifindex flags (l', w') = Fault NullDeref.
Proof.
  intros Hc HB. unfold listener_start.
  destruct (b_link_alloc B <? 0) eqn:E1.
  - eexists _, _. split; [reflexivity|]. cbn.
    unfold listener_set_link_flags, listener_unset_link_flags, change_link_flags.
    rewrite Hc. eauto.
  - apply Z.ltb_ge in E1. destruct HB as [?|HB]; [lia|].
    rewrite (proj2 (Z.ltb_lt _ _)) by done.
    eexists _, _. split; [reflexivity|]. cbn. eauto.
Qed.

Lemma link_flags_need_a_link_cache_at_failed_start :
  exists l' w',
    listener_start kernel_ok boot_without_links (constructed, world0) = (None, (l', w')) /\
    is_Some (py_err w') /\ calls w' = calls world0 /\
    listener_set_link_flags kernel_ok 1 2 (l', w') = Fault NullDeref /\
    listener_unset_link_flags kernel_ok 1 2 (l', w') = Fault NullDeref.
Proof.
  apply (link_flags_need_a_link_cache kernel_ok boot_without_links 1 2
           constructed world0).
  - reflexivity.
  - left. reflexivity.
Defined.

(** X21.  The routing listener's methods return the null pointer only with
    the error indicator set.  [start] and [data_ready] leave the fault slot
    empty, and [start] leaves a link cache whenever its first two steps
    succeeded, also when a later step fails.  The two link-flag methods call
    no observer and leave the error indicator alone when they succeed. *)
Theorem route_null_result_carries_an_error K :
  (forall B l w res l' w',
     exc_typ l = None ->
     listener_start K B (l, w) = (res, (l', w')) ->
     exc_typ l' = None /\ (res = None -> is_Some (py_err w')) /\
     (0 <= b_link_alloc B -> 0 <= b_link_add B -> is_Some (link_cache l'))) /\
  (forall links changes s res l' w',
     listener_data_ready K links changes s = (res, (l', w')) ->
     exc_typ l' = None /\ (res = None -> is_Some (py_err w'))) /\
  (forall change ifindex flags l w res l' w',
     change_link_flags change K ifindex flags (l, w) = Ret (res, (l', w')) ->
     calls w' = calls w /\ observer l' = observer l /\
     (res = None -> is_Some (py_err w')) /\ (res <> None -> py_err w' = py_err w)).
Proof.
  assert (forall s res l' w',
            maybe_restore s = (res, (l', w')) ->
            exc_typ l' = None /\ (res = None -> is_Some (py_err w')) /\
            link_cache l' = link_cache s.1) as Hmr.
  { intros [l w] res l' w'. unfold maybe_restore.
    destruct (exc_typ l) as [t|] eqn:Et; intros [= <- <- <-]; [|done].
    unfold PyErr_Restore. cbn. eauto. }
  assert (forall (changes : list (nl_object * Z)) s,
            link_cache (foldl (fun s ch => _cb K ch.1 ch.2 s) s changes).1
            = link_cache s.1) as Hfold.
  { induction changes as [|ch changes IH]; intros s; [done|]. cbn. rewrite IH.
    destruct s as [l w], ch as [[link|addr|route] act]; cbn;
      unfold observe_link_change, observe_addr_change, observe_route_change;
      destruct (exc_typ l), (observer l); try done;
      match goal with
      | |- context [PyErr_Occurred ?w1] =>
          unfold PyErr_Occurred, PyErr_Fetch; by destruct (py_err w1)
      end. }
  assert (forall objs s,
            link_cache (nl_cache_foreach K objs s).1 = link_cache s.1) as Heach.
  { intros objs s. unfold nl_cache_foreach, _e.
    pose proof (Hfold (map (fun ob => (ob, NL_ACT_NEW)) objs) s) as H.
    rewrite <- H. f_equal. f_equal. clear H. revert s.
    induction objs as [|ob objs IH]; intros s; [done|]. cbn. apply IH. }
  split; [|split].
  - intros B l w res l' w' Ht. unfold listener_start.
    destruct (b_link_alloc B <? 0) eqn:E1.
    { intros [= <- <- <-]. apply Z.ltb_lt in E1. cbn. repeat split; eauto. lia. }
    destruct (b_link_add B <? 0) eqn:E2.
    { intros [= <- <- <-]. apply Z.ltb_lt in E2. cbn. repeat split; eauto. lia. }
    repeat (case_match; [intros [= <- <- <-]; cbn; by eauto|]).
    intros Hres. apply Hmr in Hres as (? & ? & Hl). split; [done|]. split; [done|].
    intros _ _. rewrite Hl, !Heach. cbn. eauto.
  - intros links changes [l w] res l' w'. unfold listener_data_ready.
    intros Hres. apply Hmr in Hres. tauto.
  - intros change ifindex flags l w res l' w'. unfold change_link_flags.
    repeat case_match; try discriminate; intros [= <- <- <-]; cbn;
      repeat split; eauto; done.
Qed.

End LinkFacts.

(** ** Sockets *)

(** X23.  No socket is leaked.  Whenever [dump_scan_results], or
    [set_link_flags] and [unset_link_flags], return, the socket they
    allocated has been freed, on the failure paths too, and they allocate at
    most one; the link-flag methods allocate none for an unknown
    interface. *)
Theorem sockets_are_released :
  (forall K P l ifidx oc w r w',
     Nl80211.dump_scan_results K P l ifidx oc w = Ret (r, w') ->
     released (Nl80211.k_socket_alloc K) (io w) (io w')) /\
  (forall change K ifindex flags l w res l' w',
     Rtnetlink.change_link_flags change K ifindex flags (l, w) = Ret (res, (l', w')) ->
     io w' = io w \/ released (Rtnetlink.k_socket_alloc K) (io w) (io w')).
Proof.
  split.
  - intros K P l ifidx oc w r w' H.
    by apply WifiFacts.dump_scan_results_inv in H as (_ & H & _).
  - intros change K ifindex flags l w res l' w'.
    unfold Rtnetlink.change_link_flags, released.
    destruct (Rtnetlink.link_cache l) as [cache|]; [|discriminate].
    destruct (cache !! ifindex) as [link|]; [|intros [= <- <- <-]; by left].
    intros Hret. right. revert Hret. destruct (Rtnetlink.k_socket_alloc K); cbn [negb].
    + destruct (Rtnetlink.k_connect K <? 0).
      * intros [= <- <- <-]. exists [SocketConnect]. cbn. rewrite <- !app_assoc.
        split; [done|]. split; intros H%list_elem_of_singleton; discriminate.
      * set (link' := change link _).
        destruct (Rtnetlink.k_link_change K link' <? 0); intros [= <- <- <-];
          exists [SocketConnect;
                  SocketSend (LINK_CHANGE ifindex (Rtnetlink.l_flags link')
                                (Rtnetlink.l_flag_mask link'))];
          cbn; rewrite <- !app_assoc; (split; [done|]);
          split; intros H; repeat (apply elem_of_cons in H as [H|H]; [discriminate|]);
          by apply elem_of_nil in H.
    + intros [= <- <- <-]. exists []. cbn. split; [done|].
      split; apply not_elem_of_nil.
Qed.
